(** * Gemini_Voice_RAG: the tool-execution engine and the audio loop

    A shallow embedding of

    - [src/final_tool.py]: [convert_workflow_to_user_tools],
      [call_custom_api], [handle_prompt_tool],
      [extract_value_from_history] and [execute_tool_calls];
    - [src/final.py]: the tasks of [AudioLoop] ([listen_audio],
      [send_realtime], [receive_audio], [play_audio]) as a labelled
      transition system over the two queues and the [ai_speaking] flag.

    Python dictionaries keyed by strings are [gmap string _]; the
    workflow configuration, which comes from the frontend as JSON, is a
    JSON value, a dictionary in it being the list of its items; Python
    strings are [string] (ASCII text: [lower], [upper], [strip] and the
    class [\w] act on ASCII letters, digits and white space, other bytes
    are left alone); exceptions are an explicit [Raise] outcome; calls that
    leave the process (HTTP, the auxiliary model, the retrieval
    collaborator) are recorded in a trace and answered by an oracle.  What
    the code prints is left out. *)

From Stdlib Require Import ZArith Lia List Ascii String DecimalString.
From Stdlib.Strings Require Import Byte.
From stdpp Require Import base option list strings gmap.

Local Open Scope string_scope.
Local Open Scope Z_scope.

(** ** Python strings *)

Module PyString.

Definition is_upper (c : ascii) : bool :=
  let n := nat_of_ascii c in (Nat.leb 65 n && Nat.leb n 90)%bool.

Definition is_lower (c : ascii) : bool :=
  let n := nat_of_ascii c in (Nat.leb 97 n && Nat.leb n 122)%bool.

Definition is_digit (c : ascii) : bool :=
  let n := nat_of_ascii c in (Nat.leb 48 n && Nat.leb n 57)%bool.

(** [str.isspace] on the ASCII range: TAB, LF, VT, FF, CR, FS, GS, RS, US
    and the space. *)
Definition is_space (c : ascii) : bool :=
  let n := nat_of_ascii c in
  (Nat.leb 9 n && Nat.leb n 13 || Nat.leb 28 n && Nat.leb n 32)%bool.

(** The class [\w] of [re] on the ASCII range. *)
Definition is_word (c : ascii) : bool :=
  (is_upper c || is_lower c || is_digit c
   || Nat.eqb (nat_of_ascii c) 95)%bool.

Definition lower_char (c : ascii) : ascii :=
  if is_upper c then ascii_of_nat (nat_of_ascii c + 32) else c.

Definition upper_char (c : ascii) : ascii :=
  if is_lower c then ascii_of_nat (nat_of_ascii c - 32) else c.

Fixpoint map_chars (f : ascii -> ascii) (s : string) : string :=
  match s with
  | EmptyString => EmptyString
  | String c r => String (f c) (map_chars f r)
  end.

(** [s.lower()] and [s.upper()]. *)
Definition lower : string -> string := map_chars lower_char.
Definition upper : string -> string := map_chars upper_char.

(** Truth value of a string: [if s:]. *)
Definition nonempty (s : string) : bool :=
  match s with EmptyString => false | String _ _ => true end.

Fixpoint lstrip (s : string) : string :=
  match s with
  | EmptyString => EmptyString
  | String c r => if is_space c then lstrip r else s
  end.

Fixpoint rstrip (s : string) : string :=
  match s with
  | EmptyString => EmptyString
  | String c r =>
      let r' := rstrip r in
      if (is_space c && negb (nonempty r'))%bool then EmptyString
      else String c r'
  end.

(** [s.strip()]. *)
Definition strip (s : string) : string := rstrip (lstrip s).

(** [strip_prefix p s] is [Some r] when [s = p ++ r]. *)
Fixpoint strip_prefix (p s : string) : option string :=
  match p, s with
  | EmptyString, _ => Some s
  | String _ _, EmptyString => None
  | String a p', String b s' =>
      if Ascii.eqb a b then strip_prefix p' s' else None
  end.

(** [split_after p s]: the text of [s] after the first (leftmost)
    occurrence of [p], [None] when [p] does not occur.  For [p] not empty
    this is [p in s] together with [s.split(p, 1)[-1]]. *)
Fixpoint split_after (p s : string) : option string :=
  match strip_prefix p s with
  | Some r => Some r
  | None =>
      match s with
      | EmptyString => None
      | String _ s' => split_after p s'
      end
  end.

(** [p in s]. *)
Definition contains (p s : string) : bool :=
  match split_after p s with Some _ => true | None => false end.

(** [sep.join(l)]. *)
Fixpoint join (sep : string) (l : list string) : string :=
  match l with
  | [] => EmptyString
  | [x] => x
  | x :: r => x +:+ sep +:+ join sep r
  end.

End PyString.

(** ** Python values carried by tool-call arguments and descriptors

    The arguments of a function call and the entries of the workflow
    configuration are JSON values; numbers are taken to be integers. *)

#[local] Unset Elimination Schemes.
Inductive pyval : Type :=
| PyNone
| PyBool (b : bool)
| PyInt (z : Z)
| PyStr (s : string)
| PyList (items : list pyval)
| PyDict (items : list (string * pyval)).
#[local] Set Elimination Schemes.

(** Truth value: [if v:]. *)
Definition truthy (v : pyval) : bool :=
  match v with
  | PyNone => false
  | PyBool b => b
  | PyInt z => negb (z =? 0)
  | PyStr s => PyString.nonempty s
  | PyList items => match items with [] => false | _ :: _ => true end
  | PyDict items => match items with [] => false | _ :: _ => true end
  end.

(** [d.get(k)] followed by a truth test. *)
Definition get_truthy (d : gmap string pyval) (k : string) : option pyval :=
  match d !! k with
  | Some v => if truthy v then Some v else None
  | None => None
  end.

(** ** Exceptions and outcomes *)

(** [TypeError] and [AttributeError] carry what went wrong (the missing
    attribute, or the cause in a few words), not the message of the
    interpreter, which names the type of the value. *)
Inductive exn : Type :=
| KeyError (key : string)
| IndexError
| ValueError (msg : string)
| ExternalError (msg : string)
| NotModelled (what : string)
| TypeError (cause : string)
| AttributeError (attribute : string).

Inductive outcome (A : Type) : Type :=
| Ok (a : A)
| Raise (e : exn).
Arguments Ok {A} a.
Arguments Raise {A} e.

Definition obind {A B} (x : outcome A) (f : A -> outcome B) : outcome B :=
  match x with Ok a => f a | Raise e => Raise e end.

(** ** Values loaded from JSON

    A dictionary is written as the list of its items in the order they
    were given; as in [json.loads] and in a dict display, the last value
    given for a key is the one the key has. *)

Fixpoint dict_lookup (items : list (string * pyval)) (k : string)
  : option pyval :=
  match items with
  | [] => None
  | (k', v) :: rest =>
      match dict_lookup rest k with
      | Some w => Some w
      | None => if String.eqb k' k then Some v else None
      end
  end.

(** The keys of a dictionary, each once, in the order of first
    insertion. *)
Fixpoint dict_keys (items : list (string * pyval)) : list string :=
  match items with
  | [] => []
  | (k, _) :: rest =>
      k :: List.filter (fun k' => negb (String.eqb k k')) (dict_keys rest)
  end.

Definition chars (s : string) : list pyval :=
  map (fun c => PyStr (String c EmptyString)) (list_ascii_of_string s).

(** [for x in v]: the values the loop visits.  A list gives its items, a
    dictionary its keys, a string its characters; nothing else that JSON
    has can be iterated. *)
Definition py_iter (v : pyval) : outcome (list pyval) :=
  match v with
  | PyList items => Ok items
  | PyDict items => Ok (map PyStr (dict_keys items))
  | PyStr s => Ok (chars s)
  | PyNone | PyBool _ | PyInt _ => Raise (TypeError "not iterable")
  end.

(** [str(v)], which is also how [str.format] renders [v] under an empty
    format specification.  The text of a list or of a dictionary is built
    from the [repr] of its items, which is not modelled. *)
Definition py_str (v : pyval) : outcome string :=
  match v with
  | PyNone => Ok "None"
  | PyBool true => Ok "True"
  | PyBool false => Ok "False"
  | PyInt z => Ok (NilZero.string_of_int (Z.to_int z))
  | PyStr s => Ok s
  | PyList _ | PyDict _ => Raise (NotModelled "str of a container")
  end.

(** ** [str.format] with keyword arguments

    The fragment modelled: literal text, the escapes [{{] and [}}], and
    replacement fields [{name}] whose name is looked up in the keyword
    arguments.  An empty name is automatic numbering, which finds no
    positional argument.  A field using attribute or index access, a
    conversion, a format specification, nested braces or a positional
    number is outside the fragment and is reported as [NotModelled]. *)

Module PyFormat.
Import PyString.

Definition special (c : ascii) : bool :=
  let n := nat_of_ascii c in
  (Nat.eqb n 46 || Nat.eqb n 91 || Nat.eqb n 93 || Nat.eqb n 33
   || Nat.eqb n 58 || Nat.eqb n 123)%bool.

Fixpoint all_chars (f : ascii -> bool) (s : string) : bool :=
  match s with
  | EmptyString => true
  | String c r => (f c && all_chars f r)%bool
  end.

Fixpoint any_char (f : ascii -> bool) (s : string) : bool :=
  match s with
  | EmptyString => false
  | String c r => (f c || any_char f r)%bool
  end.

Definition render_field (kw : gmap string pyval) (name : string)
  : outcome string :=
  if negb (nonempty name) then Raise IndexError
  else if any_char special name then Raise (NotModelled "format field")
  else if all_chars is_digit name then Raise (NotModelled "format field")
  else match kw !! name with
       | Some v => py_str v
       | None => Raise (KeyError name)
       end.

Definition cons_char (c : ascii) (r : outcome string) : outcome string :=
  obind r (fun t => Ok (String c t)).

(** [fmt kw field s]: [field] is [None] in literal text and [Some f]
    inside a replacement field of which [f] has been read. *)
Fixpoint fmt (kw : gmap string pyval) (field : option string) (s : string)
  : outcome string :=
  match field with
  | None =>
      match s with
      | EmptyString => Ok EmptyString
      | String "{" (String "{" r) => cons_char "{" (fmt kw None r)
      | String "{" EmptyString =>
          Raise (ValueError "Single '{' encountered in format string")
      | String "{" r => fmt kw (Some EmptyString) r
      | String "}" (String "}" r) => cons_char "}" (fmt kw None r)
      | String "}" _ =>
          Raise (ValueError "Single '}' encountered in format string")
      | String c r => cons_char c (fmt kw None r)
      end
  | Some f =>
      match s with
      | EmptyString =>
          Raise (ValueError "expected '}' before end of string")
      | String "}" r =>
          obind (render_field kw f)
            (fun v => obind (fmt kw None r) (fun t => Ok (v +:+ t)))
      | String c r => fmt kw (Some (f +:+ String c EmptyString)) r
      end
  end.

(** [template.format] applied to the keyword arguments [kw]. *)
Definition format (template : string) (kw : gmap string pyval)
  : outcome string :=
  fmt kw None template.

End PyFormat.

(** ** The tool registry: [convert_workflow_to_user_tools]

    The workflow configuration comes from the frontend as JSON, so a
    descriptor is any JSON value.  The converter checks nothing; it fails
    where one of its operations cannot be applied to the value it meets
    ([.get] on what is not a dictionary, [.lower] on what is not a string,
    a loop over what cannot be iterated, [re.sub] on what is not a string,
    a list or a dictionary as the name of a parameter).

    The registry keeps the fields the engine reads as text.  Where the
    source would store, unchecked, a value that is not a string in one of
    them (a number as [tool_id], [type], [url], ...), the outcome is
    [NotModelled]: nothing is said of such a descriptor.  Parameter
    schemas, which the engine does not read, keep the values as they
    are. *)

(** The value stored under a parameter name in ["properties"]. *)
Record property_schema : Type := {
  ps_type : pyval;
  ps_description : option pyval;
  ps_enum : option pyval;
  ps_default : option pyval;
}.

(** The ["parameters"] dictionary of a tool; its ["type"] is always
    ["object"]. *)
Record parameters_schema : Type := {
  properties : gmap string property_schema;
  required : option (list string);
}.

(** An entry of [USER_TOOLS]. *)
Record tool_def : Type := {
  td_tool_name : string;
  td_type : string;
  td_description : string;
  td_parameters : parameters_schema;
  td_api_url : option string;
  td_http_method : option string;
  td_geocoding_url : option string;
  td_prompt_template : option string;
  td_response_text : option string;
}.

Module Registry.
Import PyString.

(** [d.get(k, dflt)] and [d.get(k)], on the items of a dictionary. *)
Definition get_or (items : list (string * pyval)) (k : string)
    (dflt : pyval) : pyval :=
  default dflt (dict_lookup items k).

Definition get (items : list (string * pyval)) (k : string) : pyval :=
  get_or items k PyNone.

(** A value kept as text in the registry. *)
Definition as_text (field : string) (v : pyval) : outcome string :=
  match v with
  | PyStr s => Ok s
  | _ => Raise (NotModelled field)
  end.

(** [if d.get(k): entry[k'] = d[k]], for a field kept as text. *)
Definition text_if_true (field : string) (v : pyval)
  : outcome (option string) :=
  if truthy v then obind (as_text field v) (fun s => Ok (Some s))
  else Ok None.

(** [s.replace(" ", "_")]. *)
Definition replace_space (s : string) : string :=
  map_chars (fun c => if Ascii.eqb c " " then "_"%char else c) s.

Fixpoint span_word (s : string) : string * string :=
  match s with
  | EmptyString => (EmptyString, EmptyString)
  | String c r =>
      if is_word c
      then let (w, t) := span_word r in (String c w, t)
      else (EmptyString, s)
  end.

(** A match of [\{\{(\w+)\}\}] at the start of [s]: the captured word. *)
Definition match_placeholder (s : string) : option string :=
  match s with
  | String "{" (String "{" r) =>
      match span_word r with
      | (String c w, String "}" (String "}" _)) => Some (String c w)
      | _ => None
      end
  | _ => None
  end.

(** [re.sub(r'\{\{(\w+)\}\}', r'{\1}', s)]: leftmost matches, not
    overlapping.  [skip] counts the characters of the current match that
    are still to be passed over. *)
Fixpoint resub (skip : nat) (s : string) : string :=
  match s with
  | EmptyString => EmptyString
  | String c r =>
      match skip with
      | S k => resub k r
      | O =>
          match match_placeholder s with
          | Some w =>
              "{" +:+ w +:+ "}" +:+ resub (String.length w + 3) r
          | None => String c (resub 0 r)
          end
      end
  end.

Definition convert_placeholders (s : string) : string := resub 0 s.

(** [re.sub] applied to a value: anything but a string is refused. *)
Definition sub_placeholders (v : pyval) : outcome string :=
  match v with
  | PyStr s => Ok (convert_placeholders s)
  | _ => Raise (TypeError "expected string")
  end.

(** The body of the loop over [input_params]. *)
Definition add_parameter (acc : gmap string property_schema * list string)
    (param : pyval)
  : outcome (gmap string property_schema * list string) :=
  match param with
  | PyDict p =>
      let param_name := get_or p "name" (PyStr EmptyString) in
      let param_type := get_or p "type" (PyStr "string") in
      let param_desc := get_or p "description" (PyStr EmptyString) in
      let props := {| ps_type := param_type;
                      ps_description :=
                        if truthy param_desc then Some param_desc else None;
                      ps_enum := dict_lookup p "enum";
                      ps_default := dict_lookup p "default" |} in
      match param_name with
      | PyStr name =>
          Ok (<[name := props]> (fst acc),
              if truthy (get_or p "required" (PyBool false))
              then (snd acc ++ [name])%list else snd acc)
      | PyList _ | PyDict _ => Raise (TypeError "unhashable")
      | _ => Raise (NotModelled "parameter name that is not a string")
      end
  | _ => Raise (AttributeError "get")
  end.

Definition add_parameters (input_params : list pyval)
  : outcome (gmap string property_schema * list string) :=
  fold_left (fun acc param => obind acc (fun a => add_parameter a param))
    input_params (Ok (∅, [])).

(** The schema built from the value found under ["input_parameters"]. *)
Definition build_parameters (input_params : pyval)
  : outcome parameters_schema :=
  obind (py_iter input_params) (fun params =>
  obind (add_parameters params) (fun acc =>
  Ok {| properties := fst acc;
        required := match snd acc with [] => None | l => Some l end |})).

Definition infer_type (items : list (string * pyval)) : outcome string :=
  let tool_type := get_or items "type" (PyStr EmptyString) in
  if truthy tool_type then as_text "type that is not a string" tool_type
  else if truthy (get items "url") then Ok "api"
  else if truthy (get items "response_text") then Ok "static"
  else if truthy (get items "response_prompt") then Ok "prompt"
  else Ok "static".

Definition tool_key (i : pyval) : outcome string :=
  match i with
  | PyDict items =>
      let tool_id := get_or items "tool_id" (PyStr EmptyString) in
      let tool_name := get_or items "tool_name" (PyStr EmptyString) in
      if truthy tool_id
      then as_text "tool_id that is not a string" tool_id
      else match tool_name with
           | PyStr s => Ok (replace_space (lower s))
           | _ => Raise (AttributeError "lower")
           end
  | _ => Raise (AttributeError "get")
  end.

(** [tool_description or when_to_use or tool_name]. *)
Definition describe (items : list (string * pyval)) : outcome string :=
  let tool_description := get items "tool_description" in
  let when_to_use := get items "when_to_use" in
  as_text "description that is not a string"
    (if truthy tool_description then tool_description
     else if truthy when_to_use then when_to_use
     else get_or items "tool_name" (PyStr EmptyString)).

(** [# Add type-specific fields]: the entry [base] with the payload of
    its type. *)
Definition with_payload (items : list (string * pyval)) (base : tool_def)
  : outcome tool_def :=
  let with_template (template : string) :=
    {| td_tool_name := td_tool_name base; td_type := td_type base;
       td_description := td_description base;
       td_parameters := td_parameters base;
       td_api_url := None; td_http_method := None;
       td_geocoding_url := None;
       td_prompt_template := Some template;
       td_response_text := None |} in
  if String.eqb (td_type base) "api" then
    obind (as_text "url that is not a string"
             (get_or items "url" (PyStr EmptyString))) (fun api_url =>
    obind (text_if_true "method that is not a string"
             (get items "method")) (fun http_method =>
    obind (text_if_true "geocoding_url that is not a string"
             (get items "geocoding_url")) (fun geocoding_url =>
    Ok {| td_tool_name := td_tool_name base; td_type := td_type base;
          td_description := td_description base;
          td_parameters := td_parameters base;
          td_api_url := Some api_url;
          td_http_method := http_method;
          td_geocoding_url := geocoding_url;
          td_prompt_template := None;
          td_response_text := None |})))
  else if String.eqb (td_type base) "prompt" then
    obind (sub_placeholders
             (get_or items "response_prompt" (PyStr EmptyString)))
      (fun template => Ok (with_template template))
  else if String.eqb (td_type base) "static" then
    match dict_lookup items "response_text" with
    | Some response_text =>
        obind (as_text "response_text that is not a string" response_text)
          (fun t =>
             Ok {| td_tool_name := td_tool_name base;
                   td_type := td_type base;
                   td_description := td_description base;
                   td_parameters := td_parameters base;
                   td_api_url := None; td_http_method := None;
                   td_geocoding_url := None;
                   td_prompt_template := None;
                   td_response_text := Some t |})
    | None =>
        match dict_lookup items "response_prompt" with
        | Some response_prompt =>
            obind (sub_placeholders response_prompt)
              (fun template => Ok (with_template template))
        | None => Ok base
        end
    end
  else Ok base.

(** The body of the loop over [integrations]: the entry built for one
    integration. *)
Definition tool_entry (i : pyval) : outcome tool_def :=
  match i with
  | PyDict items =>
      obind (tool_key i) (fun key =>
      obind (infer_type items) (fun tool_type =>
      obind (build_parameters
               (get_or items "input_parameters" (PyList []))) (fun schema =>
      obind (describe items) (fun description =>
      with_payload items
        {| td_tool_name := key;
           td_type := tool_type;
           td_description := description;
           td_parameters := schema;
           td_api_url := None;
           td_http_method := None;
           td_geocoding_url := None;
           td_prompt_template := None;
           td_response_text := None |}))))
  | _ => Raise (AttributeError "get")
  end.

(** [user_tools[tool_key] = tool_entry], at the end of the body. *)
Definition register (user_tools : gmap string tool_def) (i : pyval)
  : outcome (gmap string tool_def) :=
  obind (tool_key i) (fun key =>
  obind (tool_entry i) (fun entry =>
  Ok (<[key := entry]> user_tools))).

(** The loop over [integrations]: later entries replace earlier ones of
    the same key, and the first entry that fails ends the conversion. *)
Definition convert_integrations (integrations : list pyval)
  : outcome (gmap string tool_def) :=
  fold_left (fun acc i => obind acc (fun user_tools => register user_tools i))
    integrations (Ok ∅).

(** [workflow_config.get("integrations", [])], as the loop visits it. *)
Definition integrations_of (workflow_config : pyval)
  : outcome (list pyval) :=
  match workflow_config with
  | PyDict items => py_iter (get_or items "integrations" (PyList []))
  | _ => Raise (AttributeError "get")
  end.

Definition convert_workflow_to_user_tools (workflow_config : pyval)
  : outcome (gmap string tool_def) :=
  obind (integrations_of workflow_config) convert_integrations.

End Registry.

(** ** The conversation and the model's response *)

Record function_call : Type := {
  fc_name : string;
  fc_args : gmap string pyval;
}.

(** [types.Part]: a text part or a function-call part. *)
Record Part : Type := {
  text : option string;
  part_function_call : option function_call;
}.

(** [types.Content]: one turn of the conversation. *)
Record Content : Type := {
  role : option string;
  parts : list Part;
}.

Record Candidate : Type := { content : option Content }.

Record Response : Type := { candidates : list Candidate }.

(** ** Calls that leave the process *)

Inductive event : Type :=
| EvHttp (method url : string) (json_body : option (gmap string pyval))
         (timeout : Z)
| EvGenerate (model prompt : string)
| EvRag (user_query : string).

Definition is_http (ev : event) : bool :=
  match ev with EvHttp _ _ _ _ => true | _ => false end.

Definition is_generate (ev : event) : bool :=
  match ev with EvGenerate _ _ => true | _ => false end.

(** What [requests] together with [resp.json()] gives: the decoded body,
    or the exception raised on the way. *)
Inductive http_reply (Json : Type) : Type :=
| HttpJson (body : Json)
| HttpFailed (msg : string).
Arguments HttpJson {Json} body.
Arguments HttpFailed {Json} msg.

(** The ["content"] of an executed tool: a string, a decoded JSON body, or
    the dictionary [{"error": msg}]. *)
Inductive result_content (Json : Type) : Type :=
| RText (s : string)
| RJson (body : Json)
| RError (msg : string).
Arguments RText {Json} s.
Arguments RJson {Json} body.
Arguments RError {Json} msg.

Record summary_item (Json : Type) : Type := {
  si_name : string;
  si_type : string;
  si_content : result_content Json;
}.
Arguments si_name {Json} _.
Arguments si_type {Json} _.
Arguments si_content {Json} _.

(** The value stored in [pending_params] under a tool name. *)
Record pending_entry : Type := {
  pe_missing : list string;
  pe_args : gmap string pyval;
}.

(** The dictionary returned by [execute_tool_calls], by its ["status"]. *)
Inductive tool_results (Json RagResult : Type) : Type :=
| PendingJson (payload : gmap string pending_entry)
| StaticOnly (text : string)
| Mixed (summary_items : list (summary_item Json))
| RagMode (result : RagResult).
Arguments PendingJson {Json RagResult} payload.
Arguments StaticOnly {Json RagResult} text.
Arguments Mixed {Json RagResult} summary_items.
Arguments RagMode {Json RagResult} result.

(** ** A monad for code that raises and talks to the outside

    A computation runs from the trace of the calls made so far and gives
    an outcome and the extended trace. *)

Definition M (A : Type) : Type := list event -> outcome A * list event.

Definition ret {A} (a : A) : M A := fun tr => (Ok a, tr).

Definition bind {A B} (m : M A) (f : A -> M B) : M B :=
  fun tr =>
    match m tr with
    | (Ok a, tr') => f a tr'
    | (Raise e, tr') => (Raise e, tr')
    end.

Definition lift {A} (o : outcome A) : M A := fun tr => (o, tr).

(** An outside call: the request [ev] is recorded, the answer may depend on
    everything requested before. *)
Definition external {A} (ev : event) (answer : list event -> A) : M A :=
  fun tr => (Ok (answer tr), (tr ++ [ev])%list).

Declare Scope engine_scope.
Delimit Scope engine_scope with engine.
Notation "'letM' x ':=' m 'in' k" := (bind m (fun x => k))
  (at level 10, x name, m at level 100, k at level 200) : engine_scope.
Notation "'letM' ' pat ':=' m 'in' k" :=
  (bind m (fun x => match x with pat => k end))
  (at level 10, pat pattern, m at level 100, k at level 200)
  : engine_scope.

Definition SUMMARY_MODEL_NAME : string := "gemini-2.5-flash-lite".

(** The timeout, in seconds, given to every [requests] call. *)
Definition HTTP_TIMEOUT : Z := 10.

Definition blank_line : string :=
  String "010"%char (String "010"%char EmptyString).

(** ** [extract_value_from_history] *)

Module History.
Import PyString.

(** The non-empty [text] attributes of the parts of a turn. *)
Definition text_parts (item : Content) : list string :=
  omap (fun p => match text p with
                 | Some t => if nonempty t then Some t else None
                 | None => None
                 end) (parts item).

Definition turn_content (item : Content) : string :=
  lower (join " " (text_parts item)).

Definition is_user (item : Content) : bool :=
  bool_decide (role item = Some "user").

(** The loop of [extract_value_from_history] over the turns in the order
    it visits them.  [content.split(param_lower, 1)] raises [ValueError]
    when [param_lower] is empty. *)
Fixpoint scan (param_lower : string) (items : list Content)
  : outcome (option string) :=
  match items with
  | [] => Ok None
  | item :: older =>
      if negb (is_user item) then scan param_lower older
      else
        let content := turn_content item in
        if negb (nonempty content) then scan param_lower older
        else
          match split_after param_lower content with
          | Some rest =>
              if negb (nonempty param_lower)
              then Raise (ValueError "empty separator")
              else
                let tail := strip rest in
                if nonempty tail then Ok (Some tail)
                else scan param_lower older
          | None => scan param_lower older
          end
  end.

Definition extract_value_from_history (param : string)
    (history : list Content) : outcome (option string) :=
  scan (lower param) (rev history).

End History.

(** How one required parameter of a call ends up: with the value the
    model supplied, with a value found in the history, or missing. *)
Inductive resolution : Type :=
| Supplied (v : pyval)
| Inferred (a : string)
| MissingParam.

(** ** The tool-execution engine *)

Section Engine.

(** Decoded JSON bodies and retrieval results are opaque to the engine. *)
Variables Json RagResult : Type.

(** The outside world: [requests], the auxiliary model behind
    [client.models.generate_content] (its [text], or the exception it
    raises) and [rag_executor.run_rag], which is not among these sources
    and is taken to return a result. *)
Variable http_send :
  list event -> string -> string -> option (gmap string pyval) ->
  http_reply Json.
Variable generate_content :
  list event -> string -> string -> outcome (option string).
Variable run_rag : list event -> string -> RagResult.

(** The registry built at import time. *)
Variable USER_TOOLS : gmap string tool_def.

Local Open Scope engine_scope.

Definition reply_content (r : http_reply Json) : result_content Json :=
  match r with
  | HttpJson body => RJson body
  | HttpFailed msg => RError msg
  end.

(** [tool[key]] on a key the converter may have left out. *)
Definition subscript (key : string) (o : option string) : outcome string :=
  match o with
  | Some v => Ok v
  | None => Raise (KeyError key)
  end.

Definition call_custom_api (tool : tool_def) (args : gmap string pyval)
  : M (result_content Json) :=
  letM template := lift (subscript "api_url" (td_api_url tool)) in
  letM url := lift (PyFormat.format template args) in
  let method := PyString.upper (default "GET" (td_http_method tool)) in
  letM reply :=
    if String.eqb method "GET" then
      external (EvHttp "GET" url None HTTP_TIMEOUT)
        (fun tr => http_send tr "GET" url None)
    else if String.eqb method "POST" then
      external (EvHttp "POST" url (Some args) HTTP_TIMEOUT)
        (fun tr => http_send tr "POST" url (Some args))
    else
      external (EvHttp method url (Some args) HTTP_TIMEOUT)
        (fun tr => http_send tr method url (Some args)) in
  ret (reply_content reply).

Definition handle_prompt_tool (tool : tool_def) (args : gmap string pyval)
  : M string :=
  letM template :=
    lift (subscript "prompt_template" (td_prompt_template tool)) in
  letM prompt := lift (PyFormat.format template args) in
  letM resp :=
    external (EvGenerate SUMMARY_MODEL_NAME prompt)
      (fun tr => generate_content tr SUMMARY_MODEL_NAME prompt) in
  letM resp_text := lift resp in
  ret (PyString.strip (default EmptyString resp_text)).

(** The body of the loop [for param in required_params]: the supplied
    value when it is true, else the value found in the history when there
    is one, else nothing. *)
Definition resolve_param (args : gmap string pyval)
    (history : list Content) (param : string) : outcome resolution :=
  match get_truthy args param with
  | Some v => Ok (Supplied v)
  | None =>
      obind (History.extract_value_from_history param history)
        (fun auto_value =>
           match auto_value with
           | Some a =>
               if PyString.nonempty a then Ok (Inferred a)
               else Ok MissingParam
           | None => Ok MissingParam
           end)
  end.

(** The loop [for param in required_params] of [execute_tool_calls],
    started from the [final_args] and [missing] built so far. *)
Fixpoint fill_required (args : gmap string pyval) (history : list Content)
    (required_params : list string)
    (final_args : gmap string pyval) (missing : list string)
  : outcome (gmap string pyval * list string) :=
  match required_params with
  | [] => Ok (final_args, missing)
  | param :: rest =>
      obind (resolve_param args history param)
        (fun r =>
           match r with
           | Supplied v =>
               fill_required args history rest
                 (<[param := v]> final_args) missing
           | Inferred a =>
               fill_required args history rest
                 (<[param := PyStr a]> final_args) missing
           | MissingParam =>
               fill_required args history rest
                 (<[param := PyStr EmptyString]> final_args)
                 (missing ++ [param])%list
           end)
  end.

(** The variables of the loop over [tool_calls]. *)
Record loop_state : Type := {
  pending_params : gmap string pending_entry;
  static_texts : list string;
  summary_items : list (summary_item Json);
  all_static : bool;
}.

Definition initial_state : loop_state :=
  {| pending_params := ∅; static_texts := []; summary_items := [];
     all_static := true |}.

Definition clear_all_static (st : loop_state) : loop_state :=
  {| pending_params := pending_params st;
     static_texts := static_texts st;
     summary_items := summary_items st;
     all_static := false |}.

Definition set_pending (tool_name : string) (e : pending_entry)
    (st : loop_state) : loop_state :=
  {| pending_params := <[tool_name := e]> (pending_params st);
     static_texts := static_texts st;
     summary_items := summary_items st;
     all_static := all_static st |}.

Definition append_static_text (t : string) (st : loop_state) : loop_state :=
  {| pending_params := pending_params st;
     static_texts := (static_texts st ++ [t])%list;
     summary_items := summary_items st;
     all_static := all_static st |}.

Definition append_summary (item : summary_item Json) (st : loop_state)
  : loop_state :=
  {| pending_params := pending_params st;
     static_texts := static_texts st;
     summary_items := (summary_items st ++ [item])%list;
     all_static := all_static st |}.

(** How one iteration of the loop ends: it falls through or reaches
    [continue], or it returns from [execute_tool_calls]. *)
Inductive iteration : Type :=
| Continue (st : loop_state)
| Return (r : tool_results Json RagResult).

(** [tool_def["prompt_template"].format] or the fixed [response_text] of
    a static tool. *)
Definition static_text (tool : tool_def) (final_args : gmap string pyval)
  : outcome string :=
  match td_prompt_template tool with
  | Some template => PyFormat.format template final_args
  | None => Ok (default EmptyString (td_response_text tool))
  end.

(** The [# execute] part of an iteration, for a call whose required
    parameters are all resolved. *)
Definition dispatch (user_input : string) (tool_name : string)
    (tool : tool_def) (final_args : gmap string pyval) (st : loop_state)
  : M iteration :=
  let tool_type := td_type tool in
  let item c :=
    {| si_name := tool_name; si_type := tool_type; si_content := c |} in
  if String.eqb tool_type "api" then
    letM result := call_custom_api tool final_args in
    ret (Continue (append_summary (item result) st))
  else if String.eqb tool_type "prompt" then
    letM result := handle_prompt_tool tool final_args in
    ret (Continue (append_summary (item (RText result)) st))
  else if String.eqb tool_type "rag" then
    let user_query :=
      if PyString.nonempty user_input then user_input else EmptyString in
    letM rag_result :=
      external (EvRag user_query) (fun tr => run_rag tr user_query) in
    ret (Return (RagMode rag_result))
  else if String.eqb tool_type "static" then
    letM result := lift (static_text tool final_args) in
    ret (Continue
           (append_summary (item (RText result))
              (append_static_text result st)))
  else
    ret (Continue
           (append_summary (item (RError "Unsupported tool type.")) st)).

(** [if tool_type != "static": all_static = False]. *)
Definition track_static (tool : tool_def) (st : loop_state) : loop_state :=
  if String.eqb (td_type tool) "static" then st else clear_all_static st.

(** One iteration of [for fc in tool_calls]. *)
Definition process_call (history : list Content) (user_input : string)
    (st : loop_state) (fc : function_call) : M iteration :=
  let tool_name := fc_name fc in
  let args := fc_args fc in
  match USER_TOOLS !! tool_name with
  | None => ret (Continue (clear_all_static st))
  | Some tool =>
      let st := track_static tool st in
      let required_params :=
        default [] (required (td_parameters tool)) in
      letM '(final_args, missing) :=
        lift (fill_required args history required_params ∅ []) in
      match missing with
      | _ :: _ =>
          ret (Continue
                 (set_pending tool_name
                    {| pe_missing := missing; pe_args := final_args |} st))
      | [] => dispatch user_input tool_name tool final_args st
      end
  end.

Fixpoint run_calls (history : list Content) (user_input : string)
    (st : loop_state) (tool_calls : list function_call) : M iteration :=
  match tool_calls with
  | [] => ret (Continue st)
  | fc :: rest =>
      letM it := process_call history user_input st fc in
      match it with
      | Continue st' => run_calls history user_input st' rest
      | Return r => ret (Return r)
      end
  end.

(** The three [if]s after the loop. *)
Definition aggregate (tool_calls : list function_call) (st : loop_state)
  : option (tool_results Json RagResult) :=
  if negb (bool_decide (pending_params st = ∅))
  then Some (PendingJson (pending_params st))
  else if (bool_decide (tool_calls <> []) && all_static st
           && bool_decide (static_texts st <> []))%bool
  then Some (StaticOnly (PyString.join blank_line (static_texts st)))
  else if bool_decide (summary_items st <> [])
  then Some (Mixed (summary_items st))
  else None.

(** The function calls among the parts of the model's turn. *)
Definition function_calls_of (model_content : Content)
  : list function_call :=
  omap part_function_call (parts model_content).

(** The loop and the aggregation, on the batch of function calls. *)
Definition execute_batch (tool_calls : list function_call)
    (history : list Content) (user_input : string)
  : M (option (tool_results Json RagResult)) :=
  letM it := run_calls history user_input initial_state tool_calls in
  match it with
  | Return r => ret (Some r)
  | Continue st => ret (aggregate tool_calls st)
  end.

Definition execute_tool_calls (response : Response)
    (history : list Content) (user_input : string)
  : M (option (tool_results Json RagResult)) :=
  match candidates response with
  | [] => ret None
  | first :: _ =>
      match content first with
      | None => ret None
      | Some model_content =>
          match function_calls_of model_content with
          | [] => ret None
          | tool_calls => execute_batch tool_calls history user_input
          end
      end
  end.

End Engine.

Arguments pending_params {Json} _.
Arguments static_texts {Json} _.
Arguments summary_items {Json} _.
Arguments all_static {Json} _.
Arguments initial_state {Json}.
Arguments clear_all_static {Json} st.
Arguments set_pending {Json} tool_name e st.
Arguments append_static_text {Json} t st.
Arguments append_summary {Json} item st.
Arguments track_static {Json} tool st.
Arguments Continue {Json RagResult} st.
Arguments Return {Json RagResult} r.
Arguments aggregate {Json RagResult} tool_calls st.
Arguments reply_content {Json} r.
Arguments call_custom_api {Json} http_send tool args.
Arguments dispatch {Json RagResult} http_send generate_content run_rag
  user_input tool_name tool final_args st.
Arguments process_call {Json RagResult} http_send generate_content run_rag
  USER_TOOLS history user_input st fc.
Arguments run_calls {Json RagResult} http_send generate_content run_rag
  USER_TOOLS history user_input st tool_calls.
Arguments execute_batch {Json RagResult} http_send generate_content run_rag
  USER_TOOLS tool_calls history user_input.
Arguments execute_tool_calls {Json RagResult} http_send generate_content
  run_rag USER_TOOLS response history user_input.

(** ** The audio loop of [final.py]

    The tasks of [AudioLoop] run on one asyncio event loop: a task runs
    alone from one suspension point to the next.  A state holds the two
    queues, the [ai_speaking] flag and where each task is suspended; a label
    is the event that resumes a task, and [step] runs that task up to its
    next suspension point.  [Queue.get] on a queue that is not empty and
    [Queue.put] on a queue that is not full do not suspend. *)

Module AudioLoop.

Definition bytes : Type := list Byte.byte.

(** The dictionaries put on [out_queue]. *)
Record message : Type := {
  data : bytes;
  mime_type : string;
}.

(** [asyncio.Queue(maxsize=5)]. *)
Definition OUT_QUEUE_MAXSIZE : nat := 5.

(** [listen_audio] is suspended in [audio_stream.read], or in
    [out_queue.put] with the message it could not put yet. *)
Inductive listen_pc : Type :=
| Reading
| Putting (msg : message).

(** [play_audio] is suspended in [audio_in_queue.get], or in
    [stream.write] with the chunk being written. *)
Inductive play_pc : Type :=
| Waiting
| Writing (bytestream : bytes).

(** [send_realtime] is suspended in [out_queue.get], or in
    [session.send] with the message being sent. *)
Inductive send_pc : Type :=
| Idle
| Sending (msg : message).

Record state : Type := {
  audio_in_queue : list bytes;
  out_queue : list message;
  ai_speaking : bool;
  listening : listen_pc;
  playing : play_pc;
  sending : send_pc;
  (** History: the chunks handed to [stream.write] so far, in order. *)
  written : list bytes;
}.

(** The state set up by [__init__] and [run]. *)
Definition initial : state :=
  {| audio_in_queue := []; out_queue := []; ai_speaking := false;
     listening := Reading; playing := Waiting; sending := Idle;
     written := [] |}.

Inductive label : Type :=
| MicRead (chunk : bytes)     (* [audio_stream.read] returns [chunk] *)
| PutResumed                  (* the suspended [out_queue.put] goes on *)
| VideoPut (frame : message)  (* [get_frames] or [get_screen] puts *)
| SendGet                     (* [out_queue.get] returns *)
| SendDone                    (* [session.send] returns *)
| Received (chunk : option bytes)
                              (* a response, with its [data] *)
| TurnComplete                (* the turn has no more responses *)
| PlayGet                     (* [audio_in_queue.get] returns *)
| PlayDone.                   (* [stream.write] returns *)

Definition pcm (chunk : bytes) : message :=
  {| data := chunk; mime_type := "audio/pcm" |}.

Definition full (q : list message) : bool :=
  Nat.leb OUT_QUEUE_MAXSIZE (length q).

Definition with_out (s : state) (q : list message) (pc : listen_pc)
  : state :=
  {| audio_in_queue := audio_in_queue s; out_queue := q;
     ai_speaking := ai_speaking s; listening := pc;
     playing := playing s; sending := sending s;
     written := written s |}.

Definition with_send (s : state) (q : list message) (pc : send_pc)
  : state :=
  {| audio_in_queue := audio_in_queue s; out_queue := q;
     ai_speaking := ai_speaking s; listening := listening s;
     playing := playing s; sending := pc; written := written s |}.

Definition with_in (s : state) (q : list bytes) : state :=
  {| audio_in_queue := q; out_queue := out_queue s;
     ai_speaking := ai_speaking s; listening := listening s;
     playing := playing s; sending := sending s;
     written := written s |}.

(** [play_audio] from the top of its loop: with a chunk in the queue it
    takes it, raises the flag and starts writing; else it waits, the
    flag down. *)
Definition play_next (s : state) : state :=
  match audio_in_queue s with
  | bytestream :: q =>
      {| audio_in_queue := q; out_queue := out_queue s;
         ai_speaking := true; listening := listening s;
         playing := Writing bytestream; sending := sending s;
         written := (written s ++ [bytestream])%list |}
  | [] =>
      {| audio_in_queue := []; out_queue := out_queue s;
         ai_speaking := false; listening := listening s;
         playing := Waiting; sending := sending s;
         written := written s |}
  end.

(** [send_realtime] from the top of its loop. *)
Definition send_next (s : state) : state :=
  match out_queue s with
  | msg :: q => with_send s q (Sending msg)
  | [] => with_send s [] Idle
  end.

Definition step (s : state) (l : label) : option state :=
  match l with
  | MicRead chunk =>
      match listening s with
      | Reading =>
          if ai_speaking s then Some s
          else if full (out_queue s)
          then Some (with_out s (out_queue s) (Putting (pcm chunk)))
          else Some (with_out s (out_queue s ++ [pcm chunk])%list Reading)
      | Putting _ => None
      end
  | PutResumed =>
      match listening s with
      | Putting msg =>
          if full (out_queue s) then None
          else Some (with_out s (out_queue s ++ [msg])%list Reading)
      | Reading => None
      end
  | VideoPut frame =>
      if full (out_queue s) then None
      else Some (with_out s (out_queue s ++ [frame])%list (listening s))
  | SendGet =>
      match sending s, out_queue s with
      | Idle, _ :: _ => Some (send_next s)
      | _, _ => None
      end
  | SendDone =>
      match sending s with
      | Sending _ => Some (send_next s)
      | Idle => None
      end
  | Received chunk =>
      match chunk with
      | Some (b :: d) =>
          Some (with_in s (audio_in_queue s ++ [b :: d])%list)
      | _ => Some s
      end
  | TurnComplete => Some (with_in s [])
  | PlayGet =>
      match playing s, audio_in_queue s with
      | Waiting, _ :: _ => Some (play_next s)
      | _, _ => None
      end
  | PlayDone =>
      match playing s with
      | Writing _ => Some (play_next s)
      | Waiting => None
      end
  end.

(** A run: the labels taken one after the other. *)
Fixpoint run (s : state) (ls : list label) : option state :=
  match ls with
  | [] => Some s
  | l :: rest =>
      match step s l with
      | Some s' => run s' rest
      | None => None
      end
  end.

(** The chunks a run of labels puts on [audio_in_queue]. *)
Definition enqueued (ls : list label) : list bytes :=
  omap (fun l => match l with
                 | Received (Some (b :: d)) => Some (b :: d)
                 | _ => None
                 end) ls.

(** What holds of [out_queue] and of a suspended [put] in the states
    the loop reaches. *)
Definition well_formed (s : state) : Prop :=
  (length (out_queue s) <= OUT_QUEUE_MAXSIZE)%nat
  /\ forall msg, listening s = Putting msg -> exists chunk, msg = pcm chunk.

End AudioLoop.

(** ** Statements of the specification, for comparison with the code *)

Module Stated.
Import PyString History.

(** Parameter resolution as the specification words it: the most recent
    user turn whose text contains the lower-cased name decides, and the
    trimmed remainder after the first occurrence is the value. *)
Definition stated_inferred (param : string) (history : list Content)
  : option string :=
  match List.find (fun item => contains (lower param) (turn_content item))
          (List.filter is_user (rev history)) with
  | Some item =>
      option_map strip (split_after (lower param) (turn_content item))
  | None => None
  end.

Definition stated_resolve (args : gmap string pyval)
    (history : list Content) (param : string) : resolution :=
  match get_truthy args param with
  | Some v => Supplied v
  | None =>
      match stated_inferred param history with
      | Some a => Inferred a
      | None => MissingParam
      end
  end.

(** The same with the amendment: a turn decides only when the trimmed
    remainder is not empty. *)
Definition usable_tail (param_lower : string) (item : Content)
  : option string :=
  match split_after param_lower (turn_content item) with
  | Some rest =>
      let tail := strip rest in
      if nonempty tail then Some tail else None
  | None => None
  end.

Definition amended_inferred (param : string) (history : list Content)
  : option string :=
  List.hd_error
    (omap (usable_tail (lower param))
       (List.filter is_user (rev history))).

Definition amended_resolve (args : gmap string pyval)
    (history : list Content) (param : string) : resolution :=
  match get_truthy args param with
  | Some v => Supplied v
  | None =>
      match amended_inferred param history with
      | Some a => Inferred a
      | None => MissingParam
      end
  end.

(** A well-formed tool definition in the words of the specification: an
    id, one of the four types, a description, and the payload of its
    type. *)
Definition well_formed_definition (t : tool_def) : bool :=
  (nonempty (td_tool_name t) && nonempty (td_description t)
   && (if String.eqb (td_type t) "api"
       then nonempty (default EmptyString (td_api_url t))
            && nonempty (default EmptyString (td_http_method t))
       else if String.eqb (td_type t) "prompt"
       then nonempty (default EmptyString (td_prompt_template t))
       else if String.eqb (td_type t) "static"
       then bool_decide (is_Some (td_prompt_template t))
            || bool_decide (is_Some (td_response_text t))
       else String.eqb (td_type t) "rag"))%bool.

End Stated.

(** ** Notions derived from the engine, used to state its properties *)

(** The value [final_args] holds for a parameter, by its resolution. *)
Definition resolved_value (r : resolution) : pyval :=
  match r with
  | Supplied v => v
  | Inferred a => PyStr a
  | MissingParam => PyStr EmptyString
  end.

Definition is_missing (args : gmap string pyval) (history : list Content)
    (param : string) : bool :=
  match resolve_param args history param with
  | Ok MissingParam => true
  | _ => false
  end.

Section EngineNotions.

Variable USER_TOOLS : gmap string tool_def.

Definition required_of (tool : tool_def) : list string :=
  default [] (required (td_parameters tool)).

(** The entry a call leaves in [pending_params]: defined when the call
    names a registered tool and some required parameter is missing. *)
Definition missing_of (history : list Content) (fc : function_call)
  : option pending_entry :=
  match USER_TOOLS !! fc_name fc with
  | Some tool =>
      match fill_required (fc_args fc) history (required_of tool) ∅ [] with
      | Ok (final_args, p :: m) =>
          Some {| pe_missing := p :: m; pe_args := final_args |}
      | _ => None
      end
  | None => None
  end.

Definition has_missing (history : list Content) (fc : function_call)
  : bool :=
  match missing_of history fc with Some _ => true | None => false end.

(** [pending_params] after the calls of a batch, from [acc]. *)
Definition pending_after (history : list Content)
    (acc : gmap string pending_entry) (calls : list function_call)
  : gmap string pending_entry :=
  fold_left
    (fun m fc =>
       match missing_of history fc with
       | Some e => <[fc_name fc := e]> m
       | None => m
       end) calls acc.

(** A call ready for dispatch: it names a registered tool and none of
    its required parameters is missing. *)
Definition ready (history : list Content) (fc : function_call)
    (tool : tool_def) (final_args : gmap string pyval) : Prop :=
  USER_TOOLS !! fc_name fc = Some tool
  /\ fill_required (fc_args fc) history (required_of tool) ∅ []
     = Ok (final_args, []).

(** A call of a static tool, ready for dispatch, and its text. *)
Definition static_call (history : list Content) (fc : function_call)
    (t : string) : Prop :=
  exists tool final_args,
    ready history fc tool final_args
    /\ td_type tool = "static"
    /\ static_text tool final_args = Ok t.

End EngineNotions.

Section LoopNotions.

Context {Json RagResult : Type}.

(** The call was executed: one more entry in [summary_items], and
    [pending_params] as it was. *)
Definition executed_once (fc : function_call) (st st' : loop_state Json)
  : Prop :=
  exists item,
    summary_items st' = (summary_items st ++ [item])%list
    /\ si_name item = fc_name fc
    /\ pending_params st' = pending_params st.

(** The call is pending: its entry set in [pending_params], and
    [summary_items] as they were. *)
Definition pending_once (fc : function_call) (st st' : loop_state Json)
  : Prop :=
  exists e,
    pending_params st' = <[fc_name fc := e]> (pending_params st)
    /\ pe_missing e <> []
    /\ summary_items st' = summary_items st.

(** Two states of the loop that differ at most in [pending_params] and
    [all_static]. *)
Definition same_results (a b : loop_state Json) : Prop :=
  static_texts a = static_texts b /\ summary_items a = summary_items b.

(** Two runs that make the same outside calls and end alike. *)
Definition agree
    (x y : outcome (iteration Json RagResult) * list event) : Prop :=
  snd x = snd y
  /\ match fst x, fst y with
     | Ok (Continue a), Ok (Continue b) => same_results a b
     | Ok (Return r), Ok (Return r') => r = r'
     | Raise e, Raise e' => e = e'
     | _, _ => False
     end.

End LoopNotions.

(** The function calls [execute_tool_calls] finds in a response. *)
Definition tool_calls_of (response : Response) : list function_call :=
  match candidates response with
  | [] => []
  | first :: _ =>
      match content first with
      | None => []
      | Some model_content => function_calls_of model_content
      end
  end.

(** The response whose first candidate carries the given function calls. *)
Definition response_with (calls : list function_call) : Response :=
  {| candidates :=
       [ {| content :=
              Some {| role := Some "model";
                      parts := map (fun fc => {| text := None;
                                                 part_function_call := Some fc |})
                                 calls |} |} ] |}.

(** C1 in the words of the specification, for one batch: with a missing
    parameter somewhere, the result is [pending_json], its payload has
    exactly the tools with a missing parameter, and no request went to HTTP
    or to the auxiliary model. *)
Definition stated_pending_batch {Json RagResult : Type}
    (http_send :
       list event -> string -> string -> option (gmap string pyval) ->
       http_reply Json)
    (generate_content :
       list event -> string -> string -> outcome (option string))
    (run_rag : list event -> string -> RagResult)
    (USER_TOOLS : gmap string tool_def)
    (calls : list function_call) (history : list Content)
    (user_input : string) : Prop :=
  (exists fc, fc ∈ calls /\ has_missing USER_TOOLS history fc = true) ->
  exists payload tr,
    execute_tool_calls http_send generate_content run_rag USER_TOOLS
      (response_with calls) history user_input []
    = (Ok (Some (PendingJson payload)), tr)
    /\ (forall name,
          is_Some (payload !! name) <->
          exists fc, fc ∈ calls /\ fc_name fc = name
                     /\ has_missing USER_TOOLS history fc = true)
    /\ (forall ev, ev ∈ tr -> is_http ev = false /\ is_generate ev = false).

(** C2 in the words of the specification, for one batch: when no call
    has a missing required parameter and every call is of a static tool,
    the result is the static texts joined by one blank line and no request
    went to the auxiliary model. *)
Definition stated_static_batch {Json RagResult : Type}
    (http_send :
       list event -> string -> string -> option (gmap string pyval) ->
       http_reply Json)
    (generate_content :
       list event -> string -> string -> outcome (option string))
    (run_rag : list event -> string -> RagResult)
    (USER_TOOLS : gmap string tool_def)
    (calls : list function_call) (history : list Content)
    (user_input : string) : Prop :=
  calls <> [] ->
  Forall (fun fc =>
            exists tool final_args,
              ready USER_TOOLS history fc tool final_args
              /\ td_type tool = "static") calls ->
  exists texts tr,
    length texts = length calls
    /\ execute_tool_calls http_send generate_content run_rag USER_TOOLS
         (response_with calls) history user_input []
       = (Ok (Some (StaticOnly (PyString.join blank_line texts))), tr)
    /\ (forall ev, ev ∈ tr -> is_generate ev = false).

(** ** Concrete inputs: entries of [WORKFLOW_CONFIG] and a small world *)

Module Demo.

Definition parameter (name type description : string) (required : bool)
  : pyval :=
  PyDict [ ("name", PyStr name); ("type", PyStr type);
           ("description", PyStr description);
           ("required", PyBool required) ].

Definition required_string (name description : string) : pyval :=
  parameter name "string" description true.

Definition optional_string (name description : string) : pyval :=
  parameter name "string" description false.

Definition crypto_api : pyval :=
  PyDict
    [ ("tool_id", PyStr "crypto_api");
      ("tool_name", PyStr "Crypto Price");
      ("tool_description", PyStr "Get current price of a cryptocurrency.");
      ("when_to_use", PyStr "User asks for crypto prices.");
      ("type", PyStr "api");
      ("url",
       PyStr "https://api.coingecko.com/api/v3/simple/price?ids={coin}&vs_currencies=usd");
      ("method", PyStr "GET");
      ("input_parameters",
       PyList [required_string "coin" "Cryptocurrency ID"]) ].

Definition cloth_combination : pyval :=
  PyDict
    [ ("tool_id", PyStr "cloth_combination");
      ("tool_name", PyStr "Cloth Combination");
      ("tool_description", PyStr "Give clothing suggestion.");
      ("when_to_use", PyStr "User asks what to wear.");
      ("type", PyStr "static");
      ("response_text",
       PyStr "Okay, you look good in any clothes, but I suggest you wear light color clothes today.");
      ("input_parameters", PyList []) ].

Definition schedule_meeting : pyval :=
  PyDict
    [ ("tool_id", PyStr "schedule_meeting");
      ("tool_name", PyStr "Schedule Meeting");
      ("tool_description",
       PyStr "Schedules a meeting with the provided details.");
      ("when_to_use", PyStr "User asks to schedule or create a meeting.");
      ("type", PyStr "static");
      ("response_prompt",
       PyStr "Okay, I have scheduled a {{duration_minutes}} minute meeting with {{attendee_email}} on '{{topic}}'.");
      ("input_parameters",
       PyList [ required_string "attendee_email" "Attendee email";
                required_string "topic" "Meeting topic";
                parameter "duration_minutes" "integer"
                  "Duration in minutes" true ]) ].

Definition motivation_tool : pyval :=
  PyDict
    [ ("tool_id", PyStr "motivation_tool");
      ("tool_name", PyStr "Motivation");
      ("tool_description",
       PyStr "Give a motivational message using a provided topic.");
      ("when_to_use", PyStr "User asks for motivation on a topic.");
      ("type", PyStr "prompt");
      ("response_prompt",
       PyStr "Give a short motivational message about: {{topic}}");
      ("input_parameters",
       PyList [required_string "topic" "Topic to motivate about"]) ].

Definition rag_tool : pyval :=
  PyDict
    [ ("tool_id", PyStr "rag_tool");
      ("tool_name", PyStr "RAG Tool");
      ("tool_description",
       PyStr "Retrieves information from internal knowledge base using RAG.");
      ("when_to_use",
       PyStr "When user asks questions about internal documents or knowledge base.");
      ("type", PyStr "rag");
      ("input_parameters",
       PyList [required_string "user_query" "User's query"]) ].

(** An api tool whose URL template names a parameter that is not
    required. *)
Definition forecast_api : pyval :=
  PyDict
    [ ("tool_id", PyStr "forecast_api");
      ("tool_name", PyStr "Forecast");
      ("tool_description", PyStr "Get the forecast for a location.");
      ("when_to_use", PyStr "User asks for the forecast.");
      ("type", PyStr "api");
      ("url", PyStr "https://x/forecast?q={location}&units={unit}");
      ("method", PyStr "GET");
      ("input_parameters",
       PyList [ required_string "location" "City or place";
                optional_string "unit" "Temperature unit" ]) ].

(** A static tool whose template names a parameter that is not
    required. *)
Definition venue_tool : pyval :=
  PyDict
    [ ("tool_id", PyStr "venue_tool");
      ("tool_name", PyStr "Venue");
      ("tool_description", PyStr "Tell where a meeting takes place.");
      ("when_to_use", PyStr "User asks where to meet.");
      ("type", PyStr "static");
      ("response_prompt",
       PyStr "We meet at {{place}} to talk about {{topic}}.");
      ("input_parameters",
       PyList [ required_string "topic" "Meeting topic";
                optional_string "place" "Meeting place" ]) ].

(** A descriptor of a type the engine does not know, with neither
    name, description, payload nor parameters. *)
Definition teleport_tool : pyval :=
  PyDict [ ("tool_id", PyStr "teleport_tool"); ("type", PyStr "teleport") ].

Definition integrations : list pyval :=
  [crypto_api; cloth_combination; schedule_meeting; motivation_tool;
   rag_tool].

(** A workflow configuration with the given integrations. *)
Definition config (integrations : list pyval) : pyval :=
  PyDict [ ("workflow_id", PyStr "demo_workflow");
           ("integrations", PyList integrations) ].

Definition WORKFLOW_CONFIG : pyval := config integrations.

(** The registry of a module that loaded; when the conversion raises the
    module does not load and there is no registry. *)
Definition loaded (r : outcome (gmap string tool_def))
  : gmap string tool_def :=
  match r with
  | Ok user_tools => user_tools
  | Raise _ => ∅
  end.

Definition registry (integrations : list pyval) : gmap string tool_def :=
  loaded (Registry.convert_workflow_to_user_tools (config integrations)).

Definition USER_TOOLS : gmap string tool_def := registry integrations.

(** The entry the converter builds for a descriptor it accepts. *)
Definition entry (i : pyval) : tool_def :=
  match Registry.tool_entry i with
  | Ok tool => tool
  | Raise _ =>
      {| td_tool_name := EmptyString; td_type := EmptyString;
         td_description := EmptyString;
         td_parameters := {| properties := ∅; required := None |};
         td_api_url := None; td_http_method := None;
         td_geocoding_url := None; td_prompt_template := None;
         td_response_text := None |}
  end.

(** A world in which every request succeeds. *)
Definition http_send (tr : list event) (method url : string)
    (body : option (gmap string pyval)) : http_reply string :=
  HttpJson ("body of " +:+ url).

Definition generate_content (tr : list event) (model prompt : string)
  : outcome (option string) :=
  Ok (Some (" reply to: " +:+ prompt +:+ " ")).

Definition run_rag (tr : list event) (user_query : string) : string :=
  "passages for: " +:+ user_query.

Definition execute (tools : gmap string tool_def)
    (calls : list function_call) (history : list Content)
    (user_input : string)
  : outcome (option (tool_results string string)) * list event :=
  execute_tool_calls http_send generate_content run_rag
    tools (response_with calls) history user_input [].

Definition user_turn (t : string) : Content :=
  {| role := Some "user";
     parts := [ {| text := Some t; part_function_call := None |} ] |}.

Definition call (name : string) (args : list (string * pyval))
  : function_call :=
  {| fc_name := name; fc_args := list_to_map args |}.

Definition bitcoin_call : function_call :=
  call "crypto_api" [("coin", PyStr "bitcoin")].

Definition meeting_call : function_call :=
  call "schedule_meeting"
    [("attendee_email", PyStr "ann@example.org");
     ("topic", PyStr "budget"); ("duration_minutes", PyInt 30)].

Definition bitcoin_request : event :=
  EvHttp "GET"
    "https://api.coingecko.com/api/v3/simple/price?ids=bitcoin&vs_currencies=usd"
    None 10.

Definition cloth_text : string :=
  "Okay, you look good in any clothes, but I suggest you wear light color clothes today.".

Definition meeting_text : string :=
  "Okay, I have scheduled a 30 minute meeting with ann@example.org on 'budget'.".

Definition meeting_args : gmap string pyval :=
  <["duration_minutes" := PyInt 30]>
    (<["topic" := PyStr "budget"]>
       (<["attendee_email" := PyStr "ann@example.org"]> ∅)).

(** Audio chunks. *)
Definition chunk (n : nat) : AudioLoop.bytes :=
  [Byte.x01; default Byte.x00 (Byte.of_nat n)].

(** A run in which the network is slow: one frame is being sent, five
    more fill [out_queue], the next one suspends [listen_audio] in
    [put]; then audio arrives and [play_audio] starts to write it, and
    [send_realtime] takes a message from the queue. *)
Definition slow_network : list AudioLoop.label :=
  [ AudioLoop.MicRead (chunk 0); AudioLoop.SendGet;
    AudioLoop.MicRead (chunk 1); AudioLoop.MicRead (chunk 2);
    AudioLoop.MicRead (chunk 3); AudioLoop.MicRead (chunk 4);
    AudioLoop.MicRead (chunk 5); AudioLoop.MicRead (chunk 6);
    AudioLoop.Received (Some (chunk 7)); AudioLoop.PlayGet;
    AudioLoop.SendDone ].

(** A state with two chunks buffered while a third is being written. *)
Definition mid_answer : AudioLoop.state :=
  {| AudioLoop.audio_in_queue := [chunk 2; chunk 3];
     AudioLoop.out_queue := [];
     AudioLoop.ai_speaking := true;
     AudioLoop.listening := AudioLoop.Reading;
     AudioLoop.playing := AudioLoop.Writing (chunk 1);
     AudioLoop.sending := AudioLoop.Idle;
     AudioLoop.written := [chunk 1] |}.

End Demo.

(** ** [trim_history_blocks] *)

Module Trim.

(** The body of the loop over [history]: a user turn closes the current
    block, when there is one, and opens a new one; any other turn joins the
    current block. *)
Definition add_item (acc : list (list Content) * list Content)
    (item : Content) : list (list Content) * list Content :=
  if History.is_user item then
    (match snd acc with
     | [] => fst acc
     | _ :: _ => (fst acc ++ [snd acc])%list
     end, [item])
  else (fst acc, (snd acc ++ [item])%list).

(** [if current_block: blocks.append(current_block)] after the loop. *)
Definition close_blocks (acc : list (list Content) * list Content)
  : list (list Content) :=
  match snd acc with
  | [] => fst acc
  | _ :: _ => (fst acc ++ [snd acc])%list
  end.

Definition split_blocks (history : list Content) : list (list Content) :=
  close_blocks (fold_left add_item history ([], [])).

(** The slice [l[start:]] for an integer [start]: a negative [start]
    counts from the end, and a [start] out of range is clipped. *)
Definition slice_from {A : Type} (start : Z) (l : list A) : list A :=
  if start <? 0
  then drop (Z.to_nat (Z.max 0 (Z.of_nat (length l) + start))) l
  else drop (Z.to_nat start) l.

(** [trim_history_blocks(history, max_users)]: the blocks
    [blocks[-max_users:]], flattened. *)
Definition trim_history_blocks (history : list Content) (max_users : Z)
  : list Content :=
  concat (slice_from (- max_users) (split_blocks history)).

(** The number of user turns of a history. *)
Definition user_turns (history : list Content) : nat :=
  length (List.filter History.is_user history).

(** A block: not empty, and no user turn after its first turn. *)
Definition block_ok (b : list Content) : Prop :=
  match b with
  | [] => False
  | _ :: r => Forall (fun item => History.is_user item = false) r
  end.

(** A block opened by a user turn. *)
Definition user_block (b : list Content) : Prop :=
  match b with
  | [] => False
  | x :: r =>
      History.is_user x = true
      /\ Forall (fun item => History.is_user item = false) r
  end.

(** The shape of the blocks of a history: only the first one may lack an
    opening user turn. *)
Definition shaped (blocks : list (list Content)) : Prop :=
  match blocks with
  | [] => True
  | b :: later => block_ok b /\ Forall user_block later
  end.

End Trim.

(** ** Templates as the frontend writes them *)

Module Template.

(** A template: literal text and placeholders. *)
Inductive segment : Type :=
| Literal (t : string)
| Placeholder (name : string).

(** The text of a template in the frontend's syntax, [{{name}}]. *)
Fixpoint frontend_text (segments : list segment) : string :=
  match segments with
  | [] => EmptyString
  | Literal t :: rest => t +:+ frontend_text rest
  | Placeholder name :: rest => "{{" +:+ name +:+ "}}" +:+ frontend_text rest
  end.

(** The text of a template with every placeholder replaced by the text of
    its argument; [None] when an argument is absent or has no text. *)
Fixpoint filled_text (kw : gmap string pyval) (segments : list segment)
  : option string :=
  match segments with
  | [] => Some EmptyString
  | Literal t :: rest =>
      match filled_text kw rest with
      | Some r => Some (t +:+ r)
      | None => None
      end
  | Placeholder name :: rest =>
      match kw !! name, filled_text kw rest with
      | Some v, Some r =>
          match py_str v with
          | Ok s => Some (s +:+ r)
          | Raise _ => None
          end
      | _, _ => None
      end
  end.

Definition is_brace (c : ascii) : bool :=
  (Ascii.eqb c "{" || Ascii.eqb c "}")%bool.

(** A template the conversion and the formatting agree on: no brace in the
    literal text, and names made of word characters, not empty and not all
    digits. *)
Definition plain (s : segment) : bool :=
  match s with
  | Literal t => negb (PyFormat.any_char is_brace t)
  | Placeholder name =>
      (PyString.nonempty name && PyFormat.all_chars PyString.is_word name
       && negb (PyFormat.all_chars PyString.is_digit name))%bool
  end.

End Template.

(** The name and the required flag the converter reads from a parameter
    descriptor: [param.get("name", "")] when it is a string, and the truth
    value of [param.get("required", False)]. *)
Definition parameter_name (p : pyval) : string :=
  match p with
  | PyDict items =>
      match Registry.get_or items "name" (PyStr EmptyString) with
      | PyStr name => name
      | _ => EmptyString
      end
  | _ => EmptyString
  end.

Definition is_required (p : pyval) : bool :=
  match p with
  | PyDict items => truthy (Registry.get_or items "required" (PyBool false))
  | _ => false
  end.

(** ** Descriptors of the expected JSON types

    A descriptor is well typed when it is an object in which every field
    the converter reads as text is absent or a string, and
    [input_parameters] is absent or a list of objects whose [name] is
    absent or a string.  Nothing is asked of what the fields say. *)

Definition is_object (v : pyval) : bool :=
  match v with PyDict _ => true | _ => false end.

Definition is_text (v : pyval) : bool :=
  match v with PyStr _ => true | _ => false end.

(** Whether [for x in v] can start. *)
Definition iterable (v : pyval) : bool :=
  match v with
  | PyList _ | PyDict _ | PyStr _ => true
  | PyNone | PyBool _ | PyInt _ => false
  end.

Definition text_field (items : list (string * pyval)) (k : string) : bool :=
  match dict_lookup items k with
  | None => true
  | Some v => is_text v
  end.

Definition text_fields : list string :=
  [ "tool_id"; "tool_name"; "type"; "url"; "method"; "geocoding_url";
    "response_text"; "response_prompt"; "tool_description"; "when_to_use" ].

Definition well_typed_parameter (p : pyval) : bool :=
  match p with
  | PyDict items => text_field items "name"
  | _ => false
  end.

Definition well_typed (i : pyval) : bool :=
  match i with
  | PyDict items =>
      (forallb (text_field items) text_fields
       && match dict_lookup items "input_parameters" with
          | None => true
          | Some (PyList params) => forallb well_typed_parameter params
          | Some _ => false
          end)%bool
  | _ => false
  end.

(** ** More notions on the results of the engine *)

(** The texts of the entries of [summary_items] that come from static
    tools. *)
Definition static_contents {Json : Type} (items : list (summary_item Json))
  : list string :=
  omap (fun item =>
          if String.eqb (si_type item) "static"
          then match si_content item with
               | RText t => Some t
               | _ => None
               end
          else None) items.

(** The name and type under which a call is entered in [summary_items]:
    defined for a call that names a registered tool and has no missing
    parameter. *)
Definition executed_entry (USER_TOOLS : gmap string tool_def)
    (history : list Content) (fc : function_call)
  : option (string * string) :=
  match USER_TOOLS !! fc_name fc with
  | Some tool =>
      if has_missing USER_TOOLS history fc then None
      else Some (fc_name fc, td_type tool)
  | None => None
  end.

(** ** The flow of messages in the audio loop *)

Module AudioFlow.
Import AudioLoop.

(** The messages a step puts on [out_queue], from the state it starts
    in. *)
Definition put_by (s : state) (l : label) : list message :=
  match l with
  | MicRead chunk =>
      match listening s with
      | Reading =>
          if ai_speaking s then []
          else if full (out_queue s) then [] else [pcm chunk]
      | Putting _ => []
      end
  | PutResumed =>
      match listening s with
      | Putting msg => [msg]
      | Reading => []
      end
  | VideoPut frame => [frame]
  | _ => []
  end.

(** The message [send_realtime] takes from [out_queue] in a step, to hand
    it to [session.send]. *)
Definition taken_by (s : state) (l : label) : list message :=
  match l with
  | SendGet | SendDone =>
      match out_queue s with
      | msg :: _ => [msg]
      | [] => []
      end
  | _ => []
  end.

(** What the steps of a run contribute, in order. *)
Fixpoint collect {A : Type} (f : state -> label -> list A) (s : state)
    (ls : list label) : list A :=
  match ls with
  | [] => []
  | l :: rest =>
      match step s l with
      | Some s' => (f s l ++ collect f s' rest)%list
      | None => []
      end
  end.

Definition is_turn_complete (l : label) : bool :=
  match l with TurnComplete => true | _ => false end.

(** The flag is up exactly while [play_audio] is in [stream.write]. *)
Definition flag_follows_write (s : state) : Prop :=
  ai_speaking s
  = match playing s with Writing _ => true | Waiting => false end.

End AudioFlow.

(** ** The chat loop of [final_tool.py]

    One iteration of the loop of [chatbot], from the line read.  The trace
    keeps the calls made for the tools and for the summary; the call to the
    main model is answered by an oracle and is not recorded.  What is
    printed and the file written by [save_history_to_json] are left out. *)

(** [consult answer]: an answer from outside that may be an exception, the
    trace left as it is. *)
Definition consult {A : Type} (answer : list event -> outcome A) : M A :=
  fun tr => (answer tr, tr).

(** [types.Content(role=r, parts=[types.Part(text=t)])]. *)
Definition text_turn (r t : string) : Content :=
  {| role := Some r;
     parts := [ {| text := Some t; part_function_call := None |} ] |}.

(** How an iteration of the loop ends: [break], or the history for the
    next iteration. *)
Inductive control : Type :=
| Break
| Next (history : list Content).

(** Whether retrieval was run among some outside calls. *)
Definition is_retrieval (ev : event) : bool :=
  match ev with
  | EvRag _ => true
  | _ => false
  end.

Definition ran_retrieval (calls : list event) : bool :=
  existsb is_retrieval calls.

(** [max_users=5] in every call of [trim_history_blocks]. *)
Definition MAX_USERS : Z := 5.

Section Chatbot.

Variables Json RagResult : Type.
Variable http_send :
  list event -> string -> string -> option (gmap string pyval) ->
  http_reply Json.
Variable generate_content :
  list event -> string -> string -> outcome (option string).
Variable run_rag : list event -> string -> RagResult.
Variable USER_TOOLS : gmap string tool_def.

(** The main model asked with the history: the response and its [text],
    or the exception raised. *)
Variable main_model :
  list event -> list Content -> outcome (Response * option string).

(** The summary model asked with a prompt, under [SUMMARY_CONFIG]: the
    [text] of its answer, or the exception raised. *)
Variable summarize : list event -> string -> outcome (option string).

(** [json.dumps(summary_items, ensure_ascii=False, indent=2)] and [str]
    of a retrieval result. *)
Variable dumps : list (summary_item Json) -> string.
Variable rag_str : RagResult -> string.

Local Open Scope engine_scope.

(** [trim_history_blocks(history, max_users=5)] and [continue]. *)
Definition trim_and_continue (history : list Content) : M control :=
  ret (Next (Trim.trim_history_blocks history MAX_USERS)).

(** A final text for the user: when not empty it is appended as a model
    turn and the history is trimmed; else the loop falls through to the
    end of its body, where the history is trimmed. *)
Definition answer_with (history : list Content) (t : string) : M control :=
  if PyString.nonempty t
  then trim_and_continue (history ++ [text_turn "model" t])%list
  else trim_and_continue history.

(** The part of the loop body after [execute_tool_calls]. *)
Definition after_tools (history : list Content)
    (tool_results : option (tool_results Json RagResult)) : M control :=
  match tool_results with
  | None => trim_and_continue history
  | Some (PendingJson _) => trim_and_continue history
  | Some (StaticOnly t) => answer_with history (PyString.strip t)
  | Some (RagMode result) =>
      ret (Next (history ++ [text_turn "model" (rag_str result)])%list)
  | Some (Mixed summary_items) =>
      match summary_items with
      | [] => trim_and_continue history
      | _ :: _ =>
          let summary_prompt := "tool_results = " +:+ dumps summary_items in
          letM final_response :=
            external (EvGenerate SUMMARY_MODEL_NAME summary_prompt)
              (fun tr => summarize tr summary_prompt) in
          letM final_text := lift final_response in
          answer_with history
            (PyString.strip (default EmptyString final_text))
      end
  end.

(** The history after the model's reply has been appended. *)
Definition with_reply (history : list Content) (response : Response)
    (response_text : option string) : list Content :=
  match candidates response with
  | first :: _ =>
      match content first with
      | Some candidate_content => (history ++ [candidate_content])%list
      | None =>
          match response_text with
          | Some t =>
              if PyString.nonempty t
              then (history ++ [text_turn "model" t])%list
              else history
          | None => history
          end
      end
  | [] =>
      match response_text with
      | Some t =>
          if PyString.nonempty t
          then (history ++ [text_turn "model" t])%list
          else history
      | None => history
      end
  end.

(** One iteration of the loop of [chatbot], [line] being what [input]
    returned. *)
Definition chatbot_turn (history : list Content) (line : string)
  : M control :=
  let user_input := PyString.strip line in
  if (String.eqb (PyString.lower user_input) "exit"
      || String.eqb (PyString.lower user_input) "quit")%bool
  then ret Break
  else
    let history := (history ++ [text_turn "user" user_input])%list in
    letM reply := consult (fun tr => main_model tr history) in
    let history := with_reply history (fst reply) (snd reply) in
    letM tool_results :=
      execute_tool_calls http_send generate_content run_rag USER_TOOLS
        (fst reply) history user_input in
    after_tools history tool_results.

End Chatbot.

Arguments trim_and_continue history : clear implicits.
Arguments answer_with history t : clear implicits.
Arguments after_tools {Json RagResult} summarize dumps rag_str history
  tool_results.
Arguments chatbot_turn {Json RagResult} http_send generate_content run_rag
  USER_TOOLS main_model summarize dumps rag_str history line.

(** ** More concrete inputs *)

Module Samples.

Definition model_turn (t : string) : Content :=
  {| role := Some "model";
     parts := [ {| text := Some t; part_function_call := None |} ] |}.

(** Three exchanges, the model having spoken first. *)
Definition three_exchanges : list Content :=
  [ model_turn "welcome";
    Demo.user_turn "weather in Rome"; model_turn "sunny";
    Demo.user_turn "and in Paris"; model_turn "rainy";
    Demo.user_turn "thanks" ].

(** A world in which the auxiliary model is out of reach. *)
Definition model_down (tr : list event) (model prompt : string)
  : outcome (option string) :=
  Raise (ExternalError "503 model overloaded").

(** Six questions, each one answered. *)
Definition six_questions : list Content :=
  [ Demo.user_turn "one"; model_turn "1";
    Demo.user_turn "two"; model_turn "2";
    Demo.user_turn "three"; model_turn "3";
    Demo.user_turn "four"; model_turn "4";
    Demo.user_turn "five"; model_turn "5";
    Demo.user_turn "six"; model_turn "6" ].

(** A main model that answers with the given calls and no text. *)
Definition model_calling (calls : list function_call) (tr : list event)
    (contents : list Content) : outcome (Response * option string) :=
  Ok (response_with calls, None).

Definition summary_model (tr : list event) (prompt : string)
  : outcome (option string) :=
  Ok (Some (" in short: " +:+ prompt)).

Definition names_of (items : list (summary_item string)) : string :=
  PyString.join ", " (map si_name items).

(** One iteration of the chat loop in the world of [Demo], from an empty
    trace. *)
Definition turn (calls : list function_call) (history : list Content)
    (line : string) : outcome control * list event :=
  chatbot_turn Demo.http_send Demo.generate_content Demo.run_rag
    Demo.USER_TOOLS (model_calling calls) summary_model names_of
    (fun passages => passages) history line [].

Definition wear_call : function_call := Demo.call "cloth_combination" [].

(** The model turn that holds one function call. *)
Definition call_turn (fc : function_call) : Content :=
  {| role := Some "model";
     parts := [ {| text := None; part_function_call := Some fc |} ] |}.

Definition rag_call : function_call :=
  Demo.call "rag_tool" [("user_query", PyStr "leave policy")].

End Samples.

(** * Properties *)

(** ** Evaluations on the examples of the specification *)

Example format_url :
  PyFormat.format "https://x/{coin}" {[ "coin" := PyStr "bitcoin" ]}
  = Ok "https://x/bitcoin".
Proof. vm_compute. reflexivity. Qed.

Example format_missing_key :
  PyFormat.format "https://x/{coin}&u={unit}" {[ "coin" := PyStr "bitcoin" ]}
  = Raise (KeyError "unit").
Proof. vm_compute. reflexivity. Qed.

Example strip_example : PyString.strip "  a b  " = "a b".
Proof. reflexivity. Qed.

Example split_after_example :
  PyString.split_after "please" "weather in rome please today"
  = Some " today".
Proof. reflexivity. Qed.

Example convert_placeholders_example :
  Registry.convert_placeholders "about: {{topic}} and {{{a}}} {{b c}}"
  = "about: {topic} and {{a}} {{b c}}".
Proof. vm_compute. reflexivity. Qed.

Example extract_please :
  History.extract_value_from_history "please"
    [Demo.user_turn "Weather in Rome PLEASE today"]
  = Ok (Some "today").
Proof. vm_compute. reflexivity. Qed.

Example extract_absent :
  History.extract_value_from_history "location"
    [Demo.user_turn "weather in Rome please"]
  = Ok None.
Proof. vm_compute. reflexivity. Qed.

(** ** Strings *)

Section StringFacts.
Import PyString.

Lemma nonempty_true (s : string) : nonempty s = true <-> s <> EmptyString.
Proof. destruct s; simpl; split; congruence. Qed.

Lemma nonempty_false (s : string) : nonempty s = false <-> s = EmptyString.
Proof. destruct s; simpl; split; congruence. Qed.

Lemma nonempty_lower (s : string) : nonempty (lower s) = nonempty s.
Proof. destruct s; reflexivity. Qed.

Lemma append_empty (s : string) : EmptyString +:+ s = s.
Proof. reflexivity. Qed.

Lemma append_String (c : ascii) (s t : string) :
  String c s +:+ t = String c (s +:+ t).
Proof. reflexivity. Qed.

Lemma strip_prefix_Some (p s r : string) :
  strip_prefix p s = Some r <-> s = p +:+ r.
Proof.
  revert s; induction p as [|a p IH]; intros s; simpl.
  - rewrite append_empty. split; congruence.
  - rewrite append_String.
    destruct s as [|b s]; [split; discriminate|].
    destruct (Ascii.eqb_spec a b) as [->|Hab].
    + rewrite IH. split; congruence.
    + split; [discriminate|]. intros [= -> _]. congruence.
Qed.

(** [split_after] cuts at an occurrence, and at the leftmost one. *)
Lemma split_after_Some (p s r : string) :
  split_after p s = Some r ->
  exists pre,
    s = pre +:+ p +:+ r
    /\ forall pre' r', s = pre' +:+ p +:+ r' ->
                       (String.length pre <= String.length pre')%nat.
Proof.
  revert r; induction s as [|c s IH]; intros r; simpl.
  - destruct (strip_prefix p EmptyString) eqn:E; [|congruence].
    intros [= ->]. apply strip_prefix_Some in E.
    exists EmptyString. split; [exact E|]. intros; simpl; lia.
  - destruct (strip_prefix p (String c s)) eqn:E.
    + intros [= ->]. apply strip_prefix_Some in E.
      exists EmptyString. split; [exact E|]. intros; simpl; lia.
    + intros H. destruct (IH _ H) as (pre & -> & Hmin).
      exists (String c pre). split; [reflexivity|].
      intros pre' r' Heq. destruct pre' as [|c' pre'].
      * rewrite append_empty in Heq.
        apply strip_prefix_Some in Heq. congruence.
      * rewrite append_String in Heq. injection Heq as _ Heq.
        specialize (Hmin _ _ Heq). simpl. lia.
Qed.

Lemma split_after_None (p s : string) :
  split_after p s = None -> forall pre r, s <> pre +:+ p +:+ r.
Proof.
  induction s as [|c s IH]; simpl.
  - destruct (strip_prefix p EmptyString) eqn:E; [congruence|].
    intros _ pre r Heq. destruct pre; [|discriminate].
    rewrite append_empty in Heq.
    apply strip_prefix_Some in Heq. congruence.
  - destruct (strip_prefix p (String c s)) eqn:E; [congruence|].
    intros H pre r Heq. destruct pre as [|c' pre].
    + rewrite append_empty in Heq.
      apply strip_prefix_Some in Heq. congruence.
    + rewrite append_String in Heq. injection Heq as _ Heq.
      exact (IH H _ _ Heq).
Qed.

Lemma split_after_occurrence (p pre r : string) :
  exists r', split_after p (pre +:+ p +:+ r) = Some r'.
Proof.
  destruct (split_after p (pre +:+ p +:+ r)) eqn:E; [eauto|].
  exfalso. exact (split_after_None _ _ E pre r eq_refl).
Qed.

End StringFacts.

(** ** Resolution of one required parameter *)

Section ResolutionFacts.
Import PyString History Stated.

Lemma append_same_length (a b c d : string) :
  a +:+ b = c +:+ d -> String.length a = String.length c ->
  a = c /\ b = d.
Proof.
  revert c; induction a as [|x a IH]; intros [|y c] H L;
    simpl in L; try discriminate.
  - rewrite !append_empty in H. auto.
  - rewrite !append_String in H. injection H as -> H.
    destruct (IH c H) as [-> ->]; [lia|auto].
Qed.

Lemma split_after_empty (p : string) :
  nonempty p = true -> split_after p EmptyString = None.
Proof. destruct p; [discriminate|reflexivity]. Qed.

(** The loop of [extract_value_from_history] stops at the first user
    turn, in the order visited, whose trimmed remainder is not empty. *)
Lemma scan_first_usable (p : string) (items : list Content) :
  nonempty p = true ->
  scan p items
  = Ok (List.hd_error (omap (usable_tail p) (List.filter is_user items))).
Proof.
  intros Hp. induction items as [|item items IH]; [reflexivity|].
  simpl. destruct (is_user item); simpl; [|exact IH].
  unfold usable_tail.
  destruct (nonempty (turn_content item)) eqn:Hc; simpl.
  - destruct (split_after p (turn_content item)) as [rest|]; [|exact IH].
    rewrite Hp; simpl.
    destruct (nonempty (strip rest)); [reflexivity|exact IH].
  - apply nonempty_false in Hc. rewrite Hc, (split_after_empty _ Hp).
    exact IH.
Qed.

Lemma extract_amended (param : string) (history : list Content) :
  param <> EmptyString ->
  extract_value_from_history param history
  = Ok (amended_inferred param history).
Proof.
  intros Hp. unfold extract_value_from_history, amended_inferred.
  apply scan_first_usable. rewrite nonempty_lower.
  apply nonempty_true, Hp.
Qed.

Lemma usable_tail_nonempty (p : string) (item : Content) (t : string) :
  usable_tail p item = Some t -> nonempty t = true.
Proof.
  unfold usable_tail.
  destruct (split_after p (turn_content item)); [|discriminate].
  destruct (nonempty (strip s)) eqn:E; [|discriminate].
  intros [= <-]. exact E.
Qed.

Lemma amended_inferred_nonempty (param : string) (history : list Content)
    (a : string) :
  amended_inferred param history = Some a -> nonempty a = true.
Proof.
  unfold amended_inferred.
  induction (List.filter is_user (rev history)) as [|item l IH];
    [discriminate|].
  simpl. destruct (usable_tail (lower param) item) eqn:E; [|exact IH].
  simpl. intros [= <-]. exact (usable_tail_nonempty _ _ _ E).
Qed.

(** C4, amended: the supplied value when it is true; else the trimmed,
    non-empty remainder after the first occurrence of the lower-cased
    name in the most recent user turn that has one; else missing. *)
Theorem resolution_order (param : string) (args : gmap string pyval)
    (history : list Content) :
  param <> EmptyString ->
  resolve_param args history param
  = Ok (amended_resolve args history param)
  /\ forall (item : Content) (t : string),
      usable_tail (lower param) item = Some t <->
      exists pre rest,
        turn_content item = pre +:+ lower param +:+ rest
        /\ (forall pre' rest',
              turn_content item = pre' +:+ lower param +:+ rest' ->
              (String.length pre <= String.length pre')%nat)
        /\ t = strip rest /\ t <> EmptyString.
Proof.
  intros Hp. split.
  - unfold resolve_param, amended_resolve.
    destruct (get_truthy args param); [reflexivity|].
    rewrite (extract_amended _ _ Hp). simpl.
    destruct (amended_inferred param history) as [a|] eqn:E; [|reflexivity].
    rewrite (amended_inferred_nonempty _ _ _ E). reflexivity.
  - intros item t. unfold usable_tail. split.
    + destruct (split_after (lower param) (turn_content item)) as [rest|]
        eqn:E; [|discriminate].
      destruct (nonempty (strip rest)) eqn:N; [|discriminate].
      intros [= <-]. destruct (split_after_Some _ _ _ E) as (pre & H & Hmin).
      exists pre, rest. repeat split; auto. apply nonempty_true, N.
    + intros (pre & rest & H & Hmin & -> & N).
      destruct (split_after_occurrence (lower param) pre rest) as [r' E].
      rewrite <- H in E. rewrite E.
      destruct (split_after_Some _ _ _ E) as (pre0 & H0 & Hmin0).
      assert (L : String.length pre0 = String.length pre).
      { specialize (Hmin _ _ H0). specialize (Hmin0 _ _ H). lia. }
      rewrite H0 in H.
      destruct (append_same_length _ _ _ _ H L) as [_ H1].
      destruct (append_same_length (lower param) r' (lower param) rest H1
                  eq_refl) as [_ ->].
      apply nonempty_true in N. rewrite N. reflexivity.
Qed.

Lemma resolution_order_witness :
  let history :=
    [Demo.user_turn "my location Rome"; Demo.user_turn "the location"] in
  "location" <> EmptyString
  /\ resolve_param ∅ history "location"
     = Ok (amended_resolve ∅ history "location").
Proof.
  split; [discriminate|].
  apply (resolution_order "location" ∅
           [Demo.user_turn "my location Rome";
            Demo.user_turn "the location"]).
  discriminate.
Defined.

(** C4 as stated fails: the most recent user turn names the parameter
    and nothing follows the name, so the code goes on to the older turn,
    where the stated rule takes the empty remainder. *)
Lemma stated_resolution_counterexample :
  let history :=
    [Demo.user_turn "location paris"; Demo.user_turn "what is my location"]
  in
  resolve_param ∅ history "location" = Ok (Inferred "paris")
  /\ stated_resolve ∅ history "location" = Inferred EmptyString
  /\ resolve_param ∅ history "location"
     <> Ok (stated_resolve ∅ history "location").
Proof. vm_compute. repeat split; discriminate. Qed.

End ResolutionFacts.

(** ** The loop over the required parameters *)

Section FillRequired.

Variables (args : gmap string pyval) (history : list Content).

(** [missing] collects, in order, the parameters that resolve to
    nothing. *)
Lemma fill_required_missing (required_params : list string) :
  forall final_args missing final_args' missing',
    fill_required args history required_params final_args missing
    = Ok (final_args', missing') ->
    missing'
    = (missing ++ List.filter (is_missing args history) required_params)%list.
Proof.
  induction required_params as [|param rest IH];
    intros fa m fa' m'; simpl.
  - intros [= _ <-]. rewrite app_nil_r. reflexivity.
  - unfold is_missing at 1.
    destruct (resolve_param args history param) as [[v|a|]|e]; simpl;
      try discriminate; intros H; apply IH in H; subst m'.
    + reflexivity.
    + reflexivity.
    + rewrite <- app_assoc. reflexivity.
Qed.

(** [final_args] holds, under every required parameter, what it
    resolved to. *)
Lemma fill_required_lookup (required_params : list string) :
  forall final_args missing final_args' missing',
    fill_required args history required_params final_args missing
    = Ok (final_args', missing') ->
    forall param,
      (param ∈ required_params ->
       exists r, resolve_param args history param = Ok r
                 /\ final_args' !! param = Some (resolved_value r))
      /\ (param ∉ required_params ->
          final_args' !! param = final_args !! param).
Proof.
  induction required_params as [|p rest IH];
    intros fa m fa' m'; simpl.
  - intros [= <- _] param. split; [intros H; inversion H|reflexivity].
  - destruct (resolve_param args history p) as [r|e] eqn:E; simpl;
      [|discriminate].
    intros H param.
    assert (exists fa1 m1,
               fill_required args history rest fa1 m1 = Ok (fa', m')
               /\ fa1 = <[p := resolved_value r]> fa) as (fa1 & m1 & H1 & ->).
    { destruct r; eauto. }
    destruct (IH _ _ _ _ H1 param) as [Hin Hout].
    destruct (decide (param ∈ rest)) as [Hr|Hr].
    + split; [intros _; exact (Hin Hr)|].
      intros Hn. exfalso. apply Hn. right. exact Hr.
    + split.
      * intros Hp. apply elem_of_cons in Hp as [->|Hp]; [|contradiction].
        exists r. split; [exact E|].
        rewrite (Hout Hr). apply lookup_insert_eq.
      * intros Hn. rewrite (Hout Hr).
        apply lookup_insert_ne. intros ->. apply Hn. left.
Qed.

End FillRequired.

(** ** The loop over the tool calls *)

Section EngineProperties.

Variables Json RagResult : Type.
Variable http_send :
  list event -> string -> string -> option (gmap string pyval) ->
  http_reply Json.
Variable generate_content :
  list event -> string -> string -> outcome (option string).
Variable run_rag : list event -> string -> RagResult.
Variable USER_TOOLS : gmap string tool_def.

Variables (history : list Content) (user_input : string).

Local Abbreviation dispatch_ :=
  (dispatch http_send generate_content run_rag user_input).
Local Abbreviation process_ :=
  (process_call http_send generate_content run_rag USER_TOOLS history
     user_input).
Local Abbreviation run_calls_ :=
  (run_calls http_send generate_content run_rag USER_TOOLS history
     user_input).
Local Abbreviation execute_batch_ :=
  (execute_batch http_send generate_content run_rag USER_TOOLS).
Local Abbreviation execute_ :=
  (execute_tool_calls http_send generate_content run_rag USER_TOOLS).
Local Abbreviation missing_of_ := (missing_of USER_TOOLS history).
Local Abbreviation has_missing_ := (has_missing USER_TOOLS history).
Local Abbreviation iteration_ := (iteration Json RagResult).

Ltac monad := unfold bind, ret, lift, external in *.

Lemma execute_tool_calls_batch (response : Response) :
  execute_ response history user_input
  = match tool_calls_of response with
    | [] => ret None
    | calls => execute_batch_ calls history user_input
    end.
Proof.
  unfold execute_tool_calls, tool_calls_of.
  destruct (candidates response) as [|first ?]; [reflexivity|].
  destruct (content first); reflexivity.
Qed.

Lemma tool_calls_of_response_with (calls : list function_call) :
  tool_calls_of (response_with calls) = calls.
Proof.
  unfold tool_calls_of, response_with, function_calls_of; simpl.
  induction calls as [|fc calls IH]; simpl; [reflexivity|].
  f_equal. exact IH.
Qed.

(** An iteration, by what the call names and how its parameters
    resolve. *)
Lemma process_call_unknown (st : loop_state Json) (fc : function_call)
    (tr : list event) :
  USER_TOOLS !! fc_name fc = None ->
  process_ st fc tr = (Ok (Continue (clear_all_static st)), tr).
Proof. intros H. unfold process_call. rewrite H. reflexivity. Qed.

Lemma process_call_known (st : loop_state Json) (fc : function_call)
    (tool : tool_def) (tr : list event) :
  USER_TOOLS !! fc_name fc = Some tool ->
  process_ st fc tr
  = match fill_required (fc_args fc) history (required_of tool) ∅ [] with
    | Raise e => (Raise e, tr)
    | Ok (final_args, p :: m) =>
        (Ok (Continue
               (set_pending (fc_name fc)
                  {| pe_missing := p :: m; pe_args := final_args |}
                  (track_static tool st))), tr)
    | Ok (final_args, []) =>
        dispatch_ (fc_name fc) tool final_args (track_static tool st) tr
    end.
Proof.
  intros H. unfold process_call, required_of. rewrite H. monad.
  destruct (fill_required _ _ _ _ _) as [[fa [|p m]]|e]; reflexivity.
Qed.

Lemma missing_of_Some (fc : function_call) (e : pending_entry) :
  missing_of_ fc = Some e <->
  exists tool p m,
    USER_TOOLS !! fc_name fc = Some tool
    /\ fill_required (fc_args fc) history (required_of tool) ∅ []
       = Ok (pe_args e, p :: m)
    /\ pe_missing e = p :: m.
Proof.
  unfold missing_of. split.
  - destruct (USER_TOOLS !! fc_name fc) as [tool|]; [|discriminate].
    destruct (fill_required _ _ _ _ _) as [[fa [|p m]]|] eqn:E;
      try discriminate.
    intros [= <-]. exists tool, p, m. repeat split. exact E.
  - intros (tool & p & m & -> & -> & H). destruct e; simpl in *.
    subst. reflexivity.
Qed.

Lemma process_call_pending (st : loop_state Json) (fc : function_call)
    (e : pending_entry) (tr : list event) :
  missing_of_ fc = Some e ->
  exists tool,
    USER_TOOLS !! fc_name fc = Some tool
    /\ process_ st fc tr
       = (Ok (Continue (set_pending (fc_name fc) e (track_static tool st))),
          tr).
Proof.
  intros H. apply missing_of_Some in H as (tool & p & m & Ht & Hf & Hm).
  exists tool. split; [exact Ht|].
  rewrite (process_call_known _ _ _ _ Ht), Hf.
  destruct e; simpl in *; subst; reflexivity.
Qed.

Lemma process_call_ready (st : loop_state Json) (fc : function_call)
    (tool : tool_def) (final_args : gmap string pyval)
    (tr : list event) :
  ready USER_TOOLS history fc tool final_args ->
  process_ st fc tr
  = dispatch_ (fc_name fc) tool final_args (track_static tool st) tr.
Proof.
  intros [Ht Hf]. rewrite (process_call_known _ _ _ _ Ht), Hf.
  reflexivity.
Qed.

(** *** Dispatch *)

Lemma user_query_is_input (u : string) :
  (if PyString.nonempty u then u else EmptyString) = u.
Proof. destruct u; reflexivity. Qed.

Ltac branch :=
  match goal with
  | |- context [if ?b then _ else _] => destruct b eqn:?
  | |- context [match ?x with _ => _ end] => destruct x eqn:?
  end.

(** A dispatch that lets the loop go on has added one entry to
    [summary_items] and has left [pending_params] alone. *)
Lemma dispatch_continue (tool_name : string) (tool : tool_def)
    (final_args : gmap string pyval) (st st1 : loop_state Json)
    (tr tr1 : list event) :
  dispatch_ tool_name tool final_args st tr = (Ok (Continue st1), tr1) ->
  exists item,
    summary_items st1 = (summary_items st ++ [item])%list
    /\ si_name item = tool_name
    /\ si_type item = td_type tool
    /\ pending_params st1 = pending_params st
    /\ all_static st1 = all_static st.
Proof.
  unfold dispatch. monad. cbv beta.
  repeat branch; intros [= <- <-] || discriminate;
    eexists; simpl; repeat split.
Qed.

(** A dispatch returns from the function only for a rag tool. *)
Lemma dispatch_return (tool_name : string) (tool : tool_def)
    (final_args : gmap string pyval) (st : loop_state Json)
    (r : tool_results Json RagResult) (tr tr1 : list event) :
  dispatch_ tool_name tool final_args st tr = (Ok (Return r), tr1) ->
  td_type tool = "rag"
  /\ r = RagMode (run_rag tr user_input)
  /\ tr1 = (tr ++ [EvRag user_input])%list.
Proof.
  unfold dispatch. monad. cbv beta. rewrite user_query_is_input.
  repeat branch; intros [= <- <-] || discriminate.
  repeat split. apply String.eqb_eq. assumption.
Qed.

Lemma dispatch_rag (tool_name : string) (tool : tool_def)
    (final_args : gmap string pyval) (st : loop_state Json)
    (tr : list event) :
  td_type tool = "rag" ->
  dispatch_ tool_name tool final_args st tr
  = (Ok (Return (RagMode (run_rag tr user_input))),
     (tr ++ [EvRag user_input])%list).
Proof.
  intros H. unfold dispatch. rewrite H. simpl. monad.
  rewrite user_query_is_input. reflexivity.
Qed.

Lemma dispatch_static (tool_name : string) (tool : tool_def)
    (final_args : gmap string pyval) (st : loop_state Json)
    (t : string) (tr : list event) :
  td_type tool = "static" ->
  static_text tool final_args = Ok t ->
  dispatch_ tool_name tool final_args st tr
  = (Ok (Continue
           (append_summary
              {| si_name := tool_name; si_type := "static";
                 si_content := RText t |}
              (append_static_text t st))), tr).
Proof.
  intros H Ht. unfold dispatch. rewrite H, Ht. reflexivity.
Qed.

Lemma dispatch_unsupported (tool_name : string) (tool : tool_def)
    (final_args : gmap string pyval) (st : loop_state Json)
    (tr : list event) :
  td_type tool <> "api" -> td_type tool <> "prompt" ->
  td_type tool <> "rag" -> td_type tool <> "static" ->
  dispatch_ tool_name tool final_args st tr
  = (Ok (Continue
           (append_summary
              {| si_name := tool_name; si_type := td_type tool;
                 si_content := RError "Unsupported tool type." |} st)),
     tr).
Proof.
  intros H1 H2 H3 H4. unfold dispatch.
  apply String.eqb_neq in H1, H2, H3, H4. rewrite H1, H2, H3, H4.
  reflexivity.
Qed.

Lemma pending_params_track (tool : tool_def) (st : loop_state Json) :
  pending_params (track_static tool st) = pending_params st.
Proof. unfold track_static. destruct (String.eqb _ _); reflexivity. Qed.

Lemma summary_items_track (tool : tool_def) (st : loop_state Json) :
  summary_items (track_static tool st) = summary_items st.
Proof. unfold track_static. destruct (String.eqb _ _); reflexivity. Qed.

Lemma static_texts_track (tool : tool_def) (st : loop_state Json) :
  static_texts (track_static tool st) = static_texts st.
Proof. unfold track_static. destruct (String.eqb _ _); reflexivity. Qed.

Lemma same_results_track (tool : tool_def) (a b : loop_state Json) :
  same_results a b ->
  same_results (track_static tool a) (track_static tool b).
Proof.
  unfold same_results.
  rewrite !static_texts_track, !summary_items_track. auto.
Qed.

(** What a dispatch does depends on the state of the loop only through
    the lists it extends. *)
Lemma dispatch_agree (tool_name : string) (tool : tool_def)
    (final_args : gmap string pyval) (a b : loop_state Json)
    (tr : list event) :
  same_results a b ->
  agree (dispatch_ tool_name tool final_args a tr)
        (dispatch_ tool_name tool final_args b tr).
Proof.
  intros [Ht Hs]. unfold dispatch. monad. cbv beta.
  repeat branch; unfold agree, same_results; simpl; rewrite ?Ht, ?Hs;
    repeat split; congruence.
Qed.

(** *** One iteration *)

Lemma process_call_pending_params (st st1 : loop_state Json)
    (fc : function_call) (tr tr1 : list event) :
  process_ st fc tr = (Ok (Continue st1), tr1) ->
  pending_params st1
  = match missing_of_ fc with
    | Some e => <[fc_name fc := e]> (pending_params st)
    | None => pending_params st
    end.
Proof.
  destruct (USER_TOOLS !! fc_name fc) as [tool|] eqn:Ht.
  - rewrite (process_call_known _ _ _ _ Ht). unfold missing_of.
    rewrite Ht.
    destruct (fill_required _ _ _ _ _) as [[fa [|p m]]|e];
      [| |discriminate].
    + intros H. apply dispatch_continue in H as (_ & _ & _ & _ & H & _).
      rewrite H. apply pending_params_track.
    + intros [= <- _]. simpl. rewrite pending_params_track. reflexivity.
  - rewrite (process_call_unknown _ _ _ Ht). unfold missing_of.
    rewrite Ht. intros [= <- _]. reflexivity.
Qed.

Lemma process_call_agree (a b : loop_state Json) (fc : function_call)
    (tr : list event) :
  same_results a b -> agree (process_ a fc tr) (process_ b fc tr).
Proof.
  intros H. destruct (USER_TOOLS !! fc_name fc) as [tool|] eqn:Ht.
  - rewrite !(process_call_known _ _ _ _ Ht).
    destruct (fill_required _ _ _ _ _) as [[fa [|p m]]|e].
    + apply dispatch_agree, same_results_track, H.
    + split; [reflexivity|]. simpl.
      apply (same_results_track tool) in H. exact H.
    + split; reflexivity.
  - rewrite !(process_call_unknown _ _ _ Ht).
    split; [reflexivity|exact H].
Qed.

(** C6, amended: an iteration that lets the loop go on, for a call that
    names a registered tool, adds one entry to [summary_items] or sets
    the entry of the tool in [pending_params], never both; for a call
    that names no registered tool it does neither. *)
Theorem call_resolves_once (st st' : loop_state Json)
    (fc : function_call) (tr tr' : list event) :
  process_ st fc tr = (Ok (Continue st'), tr') ->
  match USER_TOOLS !! fc_name fc with
  | Some _ =>
      (executed_once fc st st' \/ pending_once fc st st')
      /\ ~ (executed_once fc st st' /\ pending_once fc st st')
  | None =>
      summary_items st' = summary_items st
      /\ pending_params st' = pending_params st
  end.
Proof.
  destruct (USER_TOOLS !! fc_name fc) as [tool|] eqn:Ht.
  - rewrite (process_call_known _ _ _ _ Ht). intros H. split.
    + destruct (fill_required _ _ _ _ _) as [[fa [|p m]]|e];
        [| |discriminate].
      * left. apply dispatch_continue in H as (item & Hs & Hn & _ & Hp & _).
        exists item. rewrite Hs, Hp, summary_items_track,
          pending_params_track. auto.
      * right. injection H as <- _.
        exists {| pe_missing := p :: m; pe_args := fa |}. simpl.
        rewrite summary_items_track, pending_params_track.
        repeat split. discriminate.
    + intros [(item & Hs & _) (e & _ & _ & Hs')]. rewrite Hs' in Hs.
      apply (f_equal length) in Hs. rewrite length_app in Hs.
      simpl in Hs. lia.
  - rewrite (process_call_unknown _ _ _ Ht). intros [= <- _].
    split; reflexivity.
Qed.

(** *** The whole loop *)

Lemma run_calls_cons (st : loop_state Json) (fc : function_call)
    (rest : list function_call) (tr : list event) :
  run_calls_ st (fc :: rest) tr
  = match process_ st fc tr with
    | (Ok (Continue st'), tr') => run_calls_ st' rest tr'
    | (Ok (Return r), tr') => (Ok (Return r), tr')
    | (Raise e, tr') => (Raise e, tr')
    end.
Proof.
  simpl. monad. destruct (process_ st fc tr) as [[[st'|r]|e] tr'];
    reflexivity.
Qed.

Lemma run_calls_app (earlier later : list function_call) :
  forall (st : loop_state Json) (tr : list event),
    run_calls_ st (earlier ++ later) tr
    = match run_calls_ st earlier tr with
      | (Ok (Continue st'), tr') => run_calls_ st' later tr'
      | other => other
      end.
Proof.
  induction earlier as [|fc earlier IH]; intros st tr; [reflexivity|].
  rewrite <- app_comm_cons, !run_calls_cons.
  destruct (process_ st fc tr) as [[[st'|r]|e] tr']; auto.
Qed.

Lemma run_calls_pending (calls : list function_call) :
  forall (st st1 : loop_state Json) (tr tr1 : list event),
    run_calls_ st calls tr = (Ok (Continue st1), tr1) ->
    pending_params st1
    = pending_after USER_TOOLS history (pending_params st) calls.
Proof.
  induction calls as [|fc calls IH]; intros st st1 tr tr1.
  - intros [= <- _]. reflexivity.
  - rewrite run_calls_cons.
    destruct (process_ st fc tr) as [[[st'|r]|e] tr'] eqn:E;
      try discriminate.
    intros H. rewrite (IH _ _ _ _ H).
    rewrite (process_call_pending_params _ _ _ _ _ E). reflexivity.
Qed.

Lemma run_calls_return (calls : list function_call) :
  forall (st : loop_state Json) (r : tool_results Json RagResult)
         (tr tr1 : list event),
    run_calls_ st calls tr = (Ok (Return r), tr1) ->
    exists x, r = RagMode x.
Proof.
  induction calls as [|fc calls IH]; intros st r tr tr1.
  - discriminate.
  - rewrite run_calls_cons.
    destruct (process_ st fc tr) as [[[st'|r']|e] tr'] eqn:E;
      try discriminate.
    + apply IH.
    + intros [= <- <-].
      destruct (USER_TOOLS !! fc_name fc) as [tool|] eqn:Ht.
      * rewrite (process_call_known _ _ _ _ Ht) in E.
        destruct (fill_required _ _ _ _ _) as [[fa [|p m]]|e];
          try discriminate.
        apply dispatch_return in E as (_ & -> & _). eauto.
      * rewrite (process_call_unknown _ _ _ Ht) in E. discriminate.
Qed.

(** The calls with a missing parameter can be taken out of a batch
    without changing the outside calls made, nor what is executed. *)
Lemma run_calls_erase (calls : list function_call) :
  forall (a b : loop_state Json) (tr : list event),
    same_results a b ->
    agree (run_calls_ a calls tr)
          (run_calls_ b
             (List.filter (fun fc => negb (has_missing_ fc)) calls) tr).
Proof.
  induction calls as [|fc calls IH]; intros a b tr H.
  - split; [reflexivity|exact H].
  - simpl List.filter. unfold has_missing at 1.
    destruct (missing_of_ fc) as [e|] eqn:E; simpl negb; cbv iota.
    + destruct (process_call_pending a fc e tr E) as (tool & _ & Hp).
      rewrite run_calls_cons, Hp. apply IH.
      destruct H as [H1 H2]. split; simpl;
        rewrite ?static_texts_track, ?summary_items_track; assumption.
    + rewrite !run_calls_cons.
      pose proof (process_call_agree a b fc tr H) as [Ht Ho].
      destruct (process_ a fc tr) as [[[a'|r]|e] ta];
        destruct (process_ b fc tr) as [[[b'|r']|e'] tb];
        simpl in Ht, Ho; subst; try contradiction.
      * apply IH, Ho.
      * split; reflexivity.
      * split; reflexivity.
Qed.

(** *** The payload of a batch with missing parameters *)

Lemma pending_after_lookup (calls : list function_call) :
  forall (acc : gmap string pending_entry) (name : string),
    is_Some (pending_after USER_TOOLS history acc calls !! name) <->
    is_Some (acc !! name)
    \/ exists fc, fc ∈ calls /\ fc_name fc = name
                  /\ has_missing_ fc = true.
Proof.
  induction calls as [|fc calls IH]; intros acc name; simpl.
  - split; [auto|]. intros [H|(fc & H & _)]; [exact H|inversion H].
  - rewrite IH. unfold has_missing.
    destruct (missing_of_ fc) as [e|] eqn:E.
    + destruct (decide (fc_name fc = name)) as [Hn|Hn].
      * rewrite <- Hn, lookup_insert_eq. split.
        -- intros _. right. exists fc. rewrite E.
           repeat split. left.
        -- intros _. left. eauto.
      * rewrite lookup_insert_ne by exact Hn. split.
        -- intros [H|(fc' & Hin & Hname & Hm)]; [auto|].
           right. exists fc'. repeat split; auto. right. exact Hin.
        -- intros [H|(fc' & Hin & Hname & Hm)]; [auto|].
           apply elem_of_cons in Hin as [->|Hin]; [contradiction|].
           right. exists fc'. auto.
    + split.
      * intros [H|(fc' & Hin & Hname & Hm)]; [auto|].
        right. exists fc'. repeat split; auto. right. exact Hin.
      * intros [H|(fc' & Hin & Hname & Hm)]; [auto|].
        apply elem_of_cons in Hin as [->|Hin].
        -- rewrite E in Hm. discriminate.
        -- right. exists fc'. auto.
Qed.

Lemma pending_after_entry (calls : list function_call) :
  forall (acc : gmap string pending_entry) (name : string)
         (e : pending_entry),
    pending_after USER_TOOLS history acc calls !! name = Some e ->
    acc !! name = Some e
    \/ exists fc, fc ∈ calls /\ fc_name fc = name
                  /\ missing_of_ fc = Some e.
Proof.
  induction calls as [|fc calls IH]; intros acc name e; simpl; [auto|].
  intros H. apply IH in H as [H|(fc' & Hin & Hname & Hm)].
  - destruct (missing_of_ fc) as [e'|] eqn:E; [|auto].
    destruct (decide (fc_name fc = name)) as [Hn|Hn].
    + rewrite <- Hn, lookup_insert_eq in H. injection H as ->.
      right. exists fc. repeat split; auto. left.
    + rewrite lookup_insert_ne in H by exact Hn. auto.
  - right. exists fc'. repeat split; auto. right. exact Hin.
Qed.

Lemma execute_batch_trace (calls : list function_call) (tr : list event) :
  snd (execute_batch_ calls history user_input tr)
  = snd (run_calls_ initial_state calls tr).
Proof.
  unfold execute_batch. monad.
  destruct (run_calls_ initial_state calls tr) as [[[st|r]|e] tr'];
    reflexivity.
Qed.

(** C1, amended: a batch with a missing parameter that is neither cut
    short by a rag call nor aborted by an exception returns
    [pending_json]; the payload has exactly the tools with a missing
    parameter, each with the entry of a call of the batch; and the outside
    calls made are those of the batch without the calls that have a
    missing parameter. *)
Theorem pending_batch (response : Response)
    (r : option (tool_results Json RagResult)) (tr0 tr : list event) :
  execute_ response history user_input tr0 = (Ok r, tr) ->
  (forall x, r <> Some (RagMode x)) ->
  (exists fc, fc ∈ tool_calls_of response /\ has_missing_ fc = true) ->
  let calls := tool_calls_of response in
  let payload := pending_after USER_TOOLS history ∅ calls in
  r = Some (PendingJson payload)
  /\ (forall name,
        is_Some (payload !! name) <->
        exists fc, fc ∈ calls /\ fc_name fc = name
                   /\ has_missing_ fc = true)
  /\ (forall name e,
        payload !! name = Some e ->
        exists fc, fc ∈ calls /\ fc_name fc = name
                   /\ missing_of_ fc = Some e)
  /\ snd (execute_
            (response_with
               (List.filter (fun fc => negb (has_missing_ fc)) calls))
            history user_input tr0) = tr.
Proof.
  intros Hrun Hrag Hmiss calls payload.
  assert (Hdom : forall name,
             is_Some (payload !! name) <->
             exists fc, fc ∈ calls /\ fc_name fc = name
                        /\ has_missing_ fc = true).
  { intros name. unfold payload. rewrite pending_after_lookup.
    rewrite lookup_empty. split; [|auto].
    intros [[x Hx]|H]; [discriminate|exact H]. }
  assert (Hne : calls <> []).
  { destruct Hmiss as (fc & Hin & _). intros E. fold calls in Hin.
    rewrite E in Hin. inversion Hin. }
  rewrite execute_tool_calls_batch in Hrun. fold calls in Hrun.
  assert (Hb : execute_batch_ calls history user_input tr0 = (Ok r, tr)).
  { destruct calls; [contradiction|exact Hrun]. }
  clear Hrun. pose proof (execute_batch_trace calls tr0) as Htr.
  rewrite Hb in Htr. simpl in Htr.
  unfold execute_batch in Hb. monad.
  destruct (run_calls_ initial_state calls tr0) as [[[st|r']|e] tr']
    eqn:E; [| |discriminate].
  - injection Hb as <- <-. apply run_calls_pending in E as Hp.
    simpl in Hp. fold payload in Hp.
    repeat split.
    + unfold aggregate. rewrite Hp.
      rewrite bool_decide_eq_false_2; [reflexivity|].
      intros Hempty. destruct Hmiss as (fc & Hin & Hm).
      destruct (proj2 (Hdom (fc_name fc))) as [x Hx]; [eauto|].
      rewrite Hempty, lookup_empty in Hx. discriminate.
    + apply Hdom.
    + apply Hdom.
    + intros name e He. unfold payload in He.
      apply pending_after_entry in He as [He|He]; [|exact He].
      rewrite lookup_empty in He. discriminate.
    + rewrite execute_tool_calls_batch, tool_calls_of_response_with.
      pose proof (run_calls_erase calls initial_state initial_state tr0
                    (conj eq_refl eq_refl)) as [Ht _].
      rewrite E in Ht. simpl in Ht.
      destruct (List.filter _ calls) as [|c l].
      * rewrite Ht. reflexivity.
      * rewrite execute_batch_trace. symmetry. exact Ht.
  - injection Hb as <- <-. apply run_calls_return in E as [x ->].
    exfalso. exact (Hrag x eq_refl).
Qed.

(** *** Batches of static tools *)

Lemma run_calls_static (calls : list function_call) (texts : list string) :
  Forall2 (static_call USER_TOOLS history) calls texts ->
  forall (st : loop_state Json) (tr : list event),
  exists st',
    run_calls_ st calls tr = (Ok (Continue st'), tr)
    /\ static_texts st' = (static_texts st ++ texts)%list
    /\ pending_params st' = pending_params st
    /\ all_static st' = all_static st.
Proof.
  induction 1 as [|fc t calls texts (tool & fa & Hr & Hty & Htx) _ IH];
    intros st tr.
  - exists st. rewrite app_nil_r. repeat split.
  - rewrite run_calls_cons, (process_call_ready _ _ _ _ _ Hr).
    rewrite (dispatch_static _ _ _ _ _ _ Hty Htx).
    destruct (IH (append_summary
                    {| si_name := fc_name fc; si_type := "static";
                       si_content := RText t |}
                    (append_static_text t (track_static tool st))) tr)
      as (st' & Hrun & Hs & Hp & Ha).
    exists st'. split; [exact Hrun|].
    rewrite Hs, Hp, Ha. simpl.
    rewrite static_texts_track, pending_params_track, <- app_assoc.
    unfold track_static. rewrite Hty. simpl. repeat split.
Qed.

Lemma append_empty_r (s : string) : s +:+ EmptyString = s.
Proof.
  induction s as [|c s IH]; [reflexivity|].
  rewrite append_String, IH. reflexivity.
Qed.

(** [join] with the blank line, spelled out: the first text, then each
    further text after two line feeds. *)
Lemma join_blank_line (first : string) (rest : list string) :
  PyString.join blank_line (first :: rest)
  = first
    +:+ fold_right
          (fun t acc => String "010" (String "010" (t +:+ acc)))
          EmptyString rest.
Proof.
  revert first. induction rest as [|t rest IH]; intros first.
  - simpl. rewrite append_empty_r. reflexivity.
  - change (PyString.join blank_line (first :: t :: rest))
      with (first +:+ blank_line +:+ PyString.join blank_line (t :: rest)).
    rewrite IH. unfold blank_line.
    rewrite !append_String, append_empty. reflexivity.
Qed.

(** C2, amended: a batch, not empty, in which every call names a
    registered static tool, has its required parameters resolved and has
    a text (the fixed text, or the template formatted without error)
    returns [static_only] with the first text followed by each further
    text, in call order, after exactly two line feeds; and it makes no
    outside call. *)
Theorem static_batch_composed (response : Response) (texts : list string)
    (tr0 : list event) :
  tool_calls_of response <> [] ->
  Forall2 (static_call USER_TOOLS history) (tool_calls_of response) texts ->
  exists first rest,
    texts = first :: rest
    /\ execute_ response history user_input tr0
       = (Ok (Some (StaticOnly
                      (first
                       +:+ fold_right
                             (fun t acc =>
                                String "010" (String "010" (t +:+ acc)))
                             EmptyString rest))),
          tr0).
Proof.
  intros Hne Hall. rewrite execute_tool_calls_batch.
  destruct (tool_calls_of response) as [|fc calls] eqn:Hc;
    [contradiction|].
  destruct (run_calls_static _ _ Hall initial_state tr0)
    as (st & Hrun & Hs & Hp & Ha).
  inversion Hall as [|? first ? rest _ _]; subst.
  exists first, rest. split; [reflexivity|].
  unfold execute_batch. monad. rewrite Hrun.
  unfold aggregate. rewrite Hp, Ha, Hs.
  change (static_texts initial_state ++ first :: rest)%list
    with (first :: rest).
  rewrite join_blank_line. reflexivity.
Qed.

(** *** The rag short-circuit *)

(** C5: when the loop reaches a rag call whose required parameters are
    all resolved, [run_rag] gets the user input and the function returns
    [rag_mode] at once, whatever calls come later in the batch. *)
Theorem rag_short_circuit (response : Response)
    (earlier later : list function_call) (fc : function_call)
    (tool : tool_def) (final_args : gmap string pyval)
    (st : loop_state Json) (tr0 tr1 : list event) :
  tool_calls_of response = (earlier ++ fc :: later)%list ->
  run_calls_ initial_state earlier tr0 = (Ok (Continue st), tr1) ->
  ready USER_TOOLS history fc tool final_args ->
  td_type tool = "rag" ->
  execute_ response history user_input tr0
  = (Ok (Some (RagMode (run_rag tr1 user_input))),
     (tr1 ++ [EvRag user_input])%list).
Proof.
  intros Hc Hrun Hr Hty. rewrite execute_tool_calls_batch, Hc.
  assert (E : run_calls_ initial_state (earlier ++ fc :: later) tr0
              = (Ok (Return (RagMode (run_rag tr1 user_input))),
                 (tr1 ++ [EvRag user_input])%list)).
  { rewrite run_calls_app, Hrun, run_calls_cons.
    rewrite (process_call_ready _ _ _ _ _ Hr), (dispatch_rag _ _ _ _ _ Hty).
    reflexivity. }
  destruct (earlier ++ fc :: later)%list as [|c l] eqn:F.
  - destruct earlier; discriminate.
  - unfold execute_batch. monad. rewrite E. reflexivity.
Qed.

(** *** Supplied values that are false *)

Lemma falsy_values (v : pyval) :
  truthy v = false <->
  v = PyNone \/ v = PyBool false \/ v = PyInt 0 \/ v = PyStr EmptyString
  \/ v = PyList [] \/ v = PyDict [].
Proof.
  split.
  - destruct v as [ | [ | ] | z | [ | c s ] | [ | x l ] | [ | x l ] ];
      simpl; try discriminate; auto 7.
    intros H. apply negb_false_iff, Z.eqb_eq in H. subst. auto.
  - intros [ -> | [ -> | [ -> | [ -> | [ -> | -> ] ] ] ] ]; reflexivity.
Qed.

(** C10: a supplied value that is false counts as no value: the
    parameter resolves as if the argument were absent, and when the
    history gives nothing it is reported missing, with the empty string
    as its partial argument. *)
Theorem falsy_argument_is_absent (st : loop_state Json)
    (fc : function_call) (tool : tool_def) (param : string) (v : pyval)
    (tr : list event) :
  USER_TOOLS !! fc_name fc = Some tool ->
  param ∈ required_of tool ->
  fc_args fc !! param = Some v ->
  truthy v = false ->
  (v = PyNone \/ v = PyBool false \/ v = PyInt 0
   \/ v = PyStr EmptyString \/ v = PyList [] \/ v = PyDict [])
  /\ resolve_param (fc_args fc) history param
     = resolve_param (delete param (fc_args fc)) history param
  /\ (History.extract_value_from_history param history = Ok None ->
      forall final_args missing,
        fill_required (fc_args fc) history (required_of tool) ∅ []
        = Ok (final_args, missing) ->
        param ∈ missing
        /\ final_args !! param = Some (PyStr EmptyString)
        /\ process_ st fc tr
           = (Ok (Continue
                    (set_pending (fc_name fc)
                       {| pe_missing := missing; pe_args := final_args |}
                       (track_static tool st))), tr)).
Proof.
  intros Ht Hreq Hv Hf.
  assert (Hget : get_truthy (fc_args fc) param = None).
  { unfold get_truthy. rewrite Hv, Hf. reflexivity. }
  split; [apply falsy_values, Hf|]. split.
  - unfold resolve_param, get_truthy at 2.
    rewrite Hget, lookup_delete_eq. reflexivity.
  - intros Hx fa m Hfill.
    assert (Hm : resolve_param (fc_args fc) history param
                 = Ok MissingParam).
    { unfold resolve_param. rewrite Hget, Hx. reflexivity. }
    assert (Hin : param ∈ m).
    { rewrite (fill_required_missing _ _ _ _ _ _ _ Hfill). simpl.
      apply list_elem_of_In, filter_In. split.
      - apply list_elem_of_In, Hreq.
      - unfold is_missing. rewrite Hm. reflexivity. }
    split; [exact Hin|]. split.
    + destruct (proj1 (fill_required_lookup _ _ _ _ _ _ _ Hfill param) Hreq)
        as (r & Hr & Hl).
      rewrite Hm in Hr. injection Hr as <-. exact Hl.
    + rewrite (process_call_known _ _ _ _ Ht), Hfill.
      destruct m; [inversion Hin|reflexivity].
Qed.

(** *** Failures of an api call *)

(** Once the URL is formatted, [call_custom_api] makes one request and
    never raises: a failure of the request or of the decoding of its
    answer becomes the error content. *)
Lemma call_custom_api_recovers (tool : tool_def)
    (args : gmap string pyval) (template url : string)
    (tr : list event) :
  td_api_url tool = Some template ->
  PyFormat.format template args = Ok url ->
  let method := PyString.upper (default "GET" (td_http_method tool)) in
  let body := if String.eqb method "GET" then None else Some args in
  call_custom_api http_send tool args tr
  = (Ok (reply_content (http_send tr method url body)),
     (tr ++ [EvHttp method url body HTTP_TIMEOUT])%list).
Proof.
  intros Hu Hf method body. unfold call_custom_api. rewrite Hu. simpl.
  monad. rewrite Hf. fold method. subst body.
  destruct (String.eqb method "GET") eqn:G.
  - apply String.eqb_eq in G. rewrite G. reflexivity.
  - destruct (String.eqb method "POST") eqn:P; [|reflexivity].
    apply String.eqb_eq in P. rewrite P. reflexivity.
Qed.

(** A formatting failure is raised by [call_custom_api], before any
    request, and ends the iteration and the loop with it. *)
Lemma call_custom_api_format_raises (tool : tool_def)
    (args : gmap string pyval) (template : string) (e : exn)
    (tr : list event) :
  td_api_url tool = Some template ->
  PyFormat.format template args = Raise e ->
  call_custom_api http_send tool args tr = (Raise e, tr).
Proof.
  intros Hu Hf. unfold call_custom_api. rewrite Hu. simpl. monad.
  rewrite Hf. reflexivity.
Qed.

End EngineProperties.

(** ** The registry *)

Section RegistryFacts.
Import Registry.
Local Open Scope list_scope.

Lemma dict_lookup_app (a b : list (string * pyval)) (k : string) :
  dict_lookup (a ++ b) k
  = match dict_lookup b k with
    | Some v => Some v
    | None => dict_lookup a k
    end.
Proof.
  induction a as [|[k' v] a IH]; simpl.
  - destruct (dict_lookup b k); reflexivity.
  - rewrite IH. destruct (dict_lookup b k); reflexivity.
Qed.

Lemma text_field_app (items extra : list (string * pyval)) (k : string) :
  dict_lookup extra k = None ->
  text_field (items ++ extra) k = text_field items k.
Proof.
  intros H. unfold text_field. rewrite dict_lookup_app, H. reflexivity.
Qed.

Lemma text_field_get_or (items : list (string * pyval)) (k d : string) :
  text_field items k = true ->
  exists s, get_or items k (PyStr d) = PyStr s.
Proof.
  unfold text_field, get_or.
  destruct (dict_lookup items k) as [[ | b | z | t | l | l]|]; simpl;
    try discriminate; eauto.
Qed.

Lemma text_field_get (items : list (string * pyval)) (k : string) :
  text_field items k = true ->
  get items k = PyNone \/ exists s, get items k = PyStr s.
Proof.
  unfold text_field, get, get_or.
  destruct (dict_lookup items k) as [[ | b | z | t | l | l]|]; simpl;
    try discriminate; eauto.
Qed.

(** *** The stages of [tool_entry] on well-typed fields *)

Lemma tool_key_typed (items : list (string * pyval)) :
  text_field items "tool_id" = true ->
  text_field items "tool_name" = true ->
  exists key, tool_key (PyDict items) = Ok key.
Proof.
  intros H1 H2. unfold tool_key. cbv zeta.
  destruct (text_field_get_or _ _ EmptyString H1) as [a ->].
  destruct (text_field_get_or _ _ EmptyString H2) as [b ->].
  destruct (truthy (PyStr a)); simpl; eauto.
Qed.

Lemma infer_type_typed (items : list (string * pyval)) :
  text_field items "type" = true ->
  exists tool_type, infer_type items = Ok tool_type.
Proof.
  intros H. unfold infer_type. cbv zeta.
  destruct (text_field_get_or _ _ EmptyString H) as [a ->].
  destruct (truthy (PyStr a)); simpl; [eauto|].
  destruct (truthy (get items "url")); [eauto|].
  destruct (truthy (get items "response_text")); [eauto|].
  destruct (truthy (get items "response_prompt")); eauto.
Qed.

Lemma add_parameters_snoc (l : list pyval) (p : pyval) :
  add_parameters (l ++ [p])
  = obind (add_parameters l) (fun a => add_parameter a p).
Proof. unfold add_parameters. rewrite fold_left_app. reflexivity. Qed.

Lemma add_parameters_typed (params : list pyval) :
  forallb well_typed_parameter params = true ->
  exists acc, add_parameters params = Ok acc.
Proof.
  induction params as [|p l IH] using rev_ind; intros H.
  - exists (∅, []). reflexivity.
  - rewrite forallb_app in H. apply andb_true_iff in H as [Hl Hp].
    simpl in Hp. rewrite andb_true_r in Hp.
    destruct (IH Hl) as [acc E]. rewrite add_parameters_snoc, E. simpl.
    destruct p as [ | b | z | t | x | fields]; try discriminate Hp.
    simpl in Hp. unfold add_parameter. cbv zeta.
    destruct (text_field_get_or _ _ EmptyString Hp) as [name ->]. eauto.
Qed.

Lemma build_parameters_typed (items : list (string * pyval)) :
  match dict_lookup items "input_parameters" with
  | None => true
  | Some (PyList params) => forallb well_typed_parameter params
  | Some _ => false
  end = true ->
  exists schema,
    build_parameters (get_or items "input_parameters" (PyList []))
    = Ok schema.
Proof.
  unfold get_or, build_parameters.
  destruct (dict_lookup items "input_parameters")
    as [[ | b | z | t | params | x]|]; simpl; try discriminate.
  - intros H. destruct (add_parameters_typed _ H) as [acc ->]. simpl. eauto.
  - intros _. eauto.
Qed.

Lemma describe_typed (items : list (string * pyval)) :
  text_field items "tool_description" = true ->
  text_field items "when_to_use" = true ->
  text_field items "tool_name" = true ->
  exists description, describe items = Ok description.
Proof.
  intros H1 H2 H3. unfold describe. cbv zeta.
  destruct (text_field_get_or _ _ EmptyString H3) as [n ->].
  destruct (text_field_get _ _ H1) as [->|[a ->]];
    destruct (text_field_get _ _ H2) as [->|[b ->]]; simpl;
    repeat match goal with
           | |- context [PyString.nonempty ?x] =>
               destruct (PyString.nonempty x)
           end; simpl; eauto.
Qed.

Lemma text_if_true_typed (field : string) (items : list (string * pyval))
    (k : string) :
  text_field items k = true ->
  exists o, text_if_true field (get items k) = Ok o.
Proof.
  intros H. unfold text_if_true.
  destruct (text_field_get _ _ H) as [->|[a ->]]; simpl; [eauto|].
  destruct (PyString.nonempty a); simpl; eauto.
Qed.

Lemma with_payload_typed (items : list (string * pyval)) (base : tool_def) :
  text_field items "url" = true ->
  text_field items "method" = true ->
  text_field items "geocoding_url" = true ->
  text_field items "response_text" = true ->
  text_field items "response_prompt" = true ->
  exists entry, with_payload items base = Ok entry.
Proof.
  intros Hu Hm Hg Ht Hp. unfold with_payload. cbv zeta.
  destruct (String.eqb (td_type base) "api").
  { destruct (text_field_get_or _ _ EmptyString Hu) as [u ->].
    destruct (text_if_true_typed "method that is not a string" _ _ Hm)
      as [m ->].
    destruct (text_if_true_typed "geocoding_url that is not a string"
                _ _ Hg) as [g ->].
    simpl. eauto. }
  destruct (String.eqb (td_type base) "prompt").
  { destruct (text_field_get_or _ _ EmptyString Hp) as [t ->].
    simpl. eauto. }
  destruct (String.eqb (td_type base) "static"); [|eauto].
  unfold text_field in Ht, Hp.
  destruct (dict_lookup items "response_text")
    as [[ | b | z | t | l | l]|]; try discriminate Ht; [simpl; eauto|].
  destruct (dict_lookup items "response_prompt")
    as [[ | b | z | t | l | l]|]; try discriminate Hp; simpl; eauto.
Qed.

Lemma well_typed_fields (items : list (string * pyval)) :
  well_typed (PyDict items) = true ->
  Forall (fun k => text_field items k = true) text_fields
  /\ match dict_lookup items "input_parameters" with
     | None => true
     | Some (PyList params) => forallb well_typed_parameter params
     | Some _ => false
     end = true.
Proof.
  unfold well_typed. intros H. apply andb_true_iff in H as [Hf Hp].
  split; [|exact Hp]. apply Forall_forall. intros k Hk.
  rewrite forallb_forall in Hf. apply Hf. apply list_elem_of_In. exact Hk.
Qed.

Lemma tool_entry_typed (items : list (string * pyval)) :
  Forall (fun k => text_field items k = true) text_fields ->
  match dict_lookup items "input_parameters" with
  | None => true
  | Some (PyList params) => forallb well_typed_parameter params
  | Some _ => false
  end = true ->
  exists key entry,
    tool_key (PyDict items) = Ok key
    /\ tool_entry (PyDict items) = Ok entry.
Proof.
  intros Hf Hp. unfold text_fields in Hf.
  repeat match goal with
         | H : Forall _ (_ :: _) |- _ =>
             apply Forall_cons in H as [? H]
         end.
  destruct (tool_key_typed items) as [key Hk]; [assumption..|].
  destruct (infer_type_typed items) as [tool_type Hi]; [assumption|].
  destruct (build_parameters_typed items Hp) as [schema Hb].
  destruct (describe_typed items) as [description Hd]; [assumption..|].
  exists key. unfold tool_entry. rewrite Hk, Hi, Hb, Hd. simpl.
  destruct (with_payload_typed items
              {| td_tool_name := key; td_type := tool_type;
                 td_description := description; td_parameters := schema;
                 td_api_url := None; td_http_method := None;
                 td_geocoding_url := None; td_prompt_template := None;
                 td_response_text := None |}) as [entry He];
    [assumption..|].
  exists entry. split; [reflexivity|exact He].
Qed.

Lemma well_typed_loads (i : pyval) :
  well_typed i = true ->
  exists key entry, tool_key i = Ok key /\ tool_entry i = Ok entry.
Proof.
  destruct i as [ | b | z | t | l | items]; try discriminate.
  intros H. apply well_typed_fields in H as [Hf Hp].
  exact (tool_entry_typed items Hf Hp).
Qed.

(** *** The loop *)

Lemma convert_integrations_snoc (l : list pyval) (i : pyval) :
  convert_integrations (l ++ [i])
  = obind (convert_integrations l) (fun user_tools => register user_tools i).
Proof. unfold convert_integrations. rewrite fold_left_app. reflexivity. Qed.

Lemma register_Ok (user_tools registry : gmap string tool_def) (i : pyval) :
  register user_tools i = Ok registry ->
  exists key entry,
    tool_key i = Ok key /\ tool_entry i = Ok entry
    /\ registry = <[key := entry]> user_tools.
Proof.
  unfold register. destruct (tool_key i) as [key|e]; [|discriminate].
  destruct (tool_entry i) as [entry|e]; [|discriminate].
  simpl. intros [= <-]. eauto.
Qed.

Lemma tool_key_raises (i : pyval) (e : exn) :
  tool_key i = Raise e -> tool_entry i = Raise e.
Proof.
  destruct i as [ | b | z | t | l | items];
    try (simpl; intros [= <-]; reflexivity).
  intros H. unfold tool_entry. rewrite H. reflexivity.
Qed.

Lemma register_raises (user_tools : gmap string tool_def) (i : pyval)
    (e : exn) :
  tool_entry i = Raise e -> register user_tools i = Raise e.
Proof.
  intros H. unfold register. destruct (tool_key i) as [key|e'] eqn:K.
  - rewrite H. reflexivity.
  - apply tool_key_raises in K. rewrite K in H. injection H as ->.
    reflexivity.
Qed.

Lemma convert_integrations_raised (l : list pyval) (e : exn) :
  fold_left (fun acc i => obind acc (fun user_tools => register user_tools i))
    l (Raise e) = Raise e.
Proof. induction l as [|i l IH]; [reflexivity|exact IH]. Qed.

Lemma convert_integrations_raises (earlier later : list pyval) (i : pyval)
    (user_tools : gmap string tool_def) (e : exn) :
  convert_integrations earlier = Ok user_tools ->
  tool_entry i = Raise e ->
  convert_integrations (earlier ++ i :: later) = Raise e.
Proof.
  intros He Hi. unfold convert_integrations in *.
  rewrite fold_left_app, He. simpl.
  rewrite (register_raises _ _ _ Hi). apply convert_integrations_raised.
Qed.

Lemma convert_integrations_typed (l : list pyval) :
  Forall (fun i => well_typed i = true) l ->
  exists registry, convert_integrations l = Ok registry.
Proof.
  induction l as [|i l IH] using rev_ind; intros H.
  - exists ∅. reflexivity.
  - apply Forall_app in H as [Hl Hi]. apply Forall_cons in Hi as [Hi _].
    destruct (IH Hl) as [registry E].
    destruct (well_typed_loads i Hi) as (key & entry & Hk & He).
    rewrite convert_integrations_snoc, E. simpl. unfold register.
    rewrite Hk, He. simpl. eauto.
Qed.

(** The registry of a conversion that returned: under a key, the entry of
    the last descriptor of that key. *)
Lemma convert_integrations_lookup (l : list pyval) :
  forall registry,
    convert_integrations l = Ok registry ->
    forall key tool,
      registry !! key = Some tool <->
      exists earlier i later,
        l = earlier ++ i :: later
        /\ tool_key i = Ok key /\ tool_entry i = Ok tool
        /\ Forall (fun j => tool_key j <> Ok key) later.
Proof.
  induction l as [|x l IH] using rev_ind; intros registry.
  - intros [= <-] key tool. rewrite lookup_empty. split; [discriminate|].
    intros (earlier & i & later & H & _). destruct earlier; discriminate.
  - rewrite convert_integrations_snoc.
    destruct (convert_integrations l) as [r0|e]; [|discriminate].
    simpl. intros H.
    apply register_Ok in H as (k & entry & Hk & He & ->).
    intros key tool. split.
    + destruct (decide (k = key)) as [->|Hne].
      * rewrite lookup_insert_eq. intros [= <-].
        exists l, x, []. repeat split; auto.
      * rewrite lookup_insert_ne by exact Hne. intros H.
        apply (IH r0 eq_refl) in H
          as (earlier & i & later & -> & Hki & Hei & Hl).
        exists earlier, i, (later ++ [x]). rewrite <- app_assoc.
        repeat split; auto.
        apply Forall_app. split; [exact Hl|].
        constructor; [|constructor]. congruence.
    + intros (earlier & i & later & E & Hki & Hei & Hl).
      destruct later as [|y later _] using rev_ind.
      * apply app_inj_tail in E as [-> ->].
        assert (k = key) by congruence. subst k.
        rewrite lookup_insert_eq. congruence.
      * rewrite app_comm_cons, app_assoc in E.
        apply app_inj_tail in E as [-> ->].
        apply Forall_app in Hl as [Hl Hx].
        apply Forall_cons in Hx as [Hx _].
        rewrite lookup_insert_ne by congruence.
        apply (IH r0 eq_refl). eauto 10.
Qed.

(** *** Load-time failures *)

Lemma not_object_raises (i : pyval) :
  is_object i = false -> tool_entry i = Raise (AttributeError "get").
Proof. destruct i; try discriminate; reflexivity. Qed.

Lemma tool_name_raises (items : list (string * pyval)) (v : pyval) :
  truthy (get_or items "tool_id" (PyStr EmptyString)) = false ->
  dict_lookup items "tool_name" = Some v ->
  is_text v = false ->
  tool_entry (PyDict items) = Raise (AttributeError "lower").
Proof.
  intros Hid Hn Hv. apply tool_key_raises. unfold tool_key. cbv zeta.
  rewrite Hid. unfold get_or. rewrite Hn. simpl.
  destruct v; try discriminate Hv; reflexivity.
Qed.

Lemma input_parameters_raise (items : list (string * pyval)) (v : pyval)
    (e : exn) :
  well_typed (PyDict items) = true ->
  build_parameters v = Raise e ->
  tool_entry (PyDict (items ++ [("input_parameters", v)])) = Raise e.
Proof.
  intros H Hb. apply well_typed_fields in H as [Hf _].
  unfold text_fields in Hf.
  repeat match goal with
         | H : Forall _ (_ :: _) |- _ => apply Forall_cons in H as [? H]
         end.
  destruct (tool_key_typed (items ++ [("input_parameters", v)]))
    as [key Hk]; [rewrite text_field_app by reflexivity; assumption..|].
  destruct (infer_type_typed (items ++ [("input_parameters", v)]))
    as [tool_type Hi]; [rewrite text_field_app by reflexivity; assumption|].
  unfold tool_entry. rewrite Hk, Hi. simpl.
  unfold get_or. rewrite dict_lookup_app. simpl. rewrite Hb. reflexivity.
Qed.

Lemma not_iterable_raises (v : pyval) :
  iterable v = false ->
  build_parameters v = Raise (TypeError "not iterable").
Proof. destruct v; try discriminate; reflexivity. Qed.

Lemma add_parameters_raised (l : list pyval) (e : exn) :
  fold_left (fun acc param => obind acc (fun a => add_parameter a param))
    l (Raise e) = Raise e.
Proof. induction l as [|p l IH]; [reflexivity|exact IH]. Qed.

Lemma parameter_not_object_raises (v : pyval) (params more : list pyval)
    (p : pyval) :
  py_iter v = Ok (params ++ p :: more) ->
  forallb well_typed_parameter params = true ->
  is_object p = false ->
  build_parameters v = Raise (AttributeError "get").
Proof.
  intros Hv Hp Ho. unfold build_parameters. rewrite Hv. simpl.
  destruct (add_parameters_typed _ Hp) as [acc E].
  unfold add_parameters in *. rewrite fold_left_app, E. simpl.
  assert (F : add_parameter acc p = Raise (AttributeError "get"))
    by (destruct p; try discriminate Ho; reflexivity).
  rewrite F, add_parameters_raised. reflexivity.
Qed.

Lemma response_prompt_raises (items : list (string * pyval)) (v : pyval) :
  well_typed (PyDict items) = true ->
  is_text v = false ->
  tool_entry
    (PyDict (items ++ [("type", PyStr "prompt"); ("response_prompt", v)]))
  = Raise (TypeError "expected string").
Proof.
  intros H Hv. apply well_typed_fields in H as [Hf Hp].
  unfold text_fields in Hf.
  repeat match goal with
         | H : Forall _ (_ :: _) |- _ => apply Forall_cons in H as [? H]
         end.
  set (items' := items ++ [("type", PyStr "prompt"); ("response_prompt", v)]).
  destruct (tool_key_typed items') as [key Hk];
    [unfold items'; rewrite text_field_app by reflexivity; assumption..|].
  assert (Hi : infer_type items' = Ok "prompt").
  { unfold infer_type, get_or, items'. rewrite dict_lookup_app.
    reflexivity. }
  destruct (build_parameters_typed items') as [schema Hb].
  { unfold items'. rewrite dict_lookup_app. exact Hp. }
  destruct (describe_typed items') as [description Hd];
    [unfold items'; rewrite text_field_app by reflexivity; assumption..|].
  unfold tool_entry. fold items'. rewrite Hk, Hi, Hb, Hd. simpl.
  unfold with_payload, get_or, items'. simpl.
  rewrite dict_lookup_app. simpl.
  destruct v; try discriminate Hv; reflexivity.
Qed.

Lemma convert_workflow_list (workflow_config : pyval)
    (integrations : list pyval) :
  integrations_of workflow_config = Ok integrations ->
  convert_workflow_to_user_tools workflow_config
  = convert_integrations integrations.
Proof.
  intros H. unfold convert_workflow_to_user_tools. rewrite H. reflexivity.
Qed.

(** C9, amended: the conversion validates nothing.  Descriptors of the
    expected JSON types are always converted, whatever they lack or get
    wrong, and the registry has under a key exactly the entry of the last
    descriptor of that key.  The conversion fails only where one of its
    operations meets a value of the wrong JSON type, with the exception
    of that operation, and the first entry that fails ends the conversion
    with no tool registered: an entry that is not an object, a
    [tool_name] that is not a string when [tool_id] is false or absent,
    [input_parameters] that cannot be iterated or hold something that is
    not an object, a [response_prompt] that is not a string for a prompt
    tool. *)
Theorem conversion_validates_nothing :
  (forall workflow_config integrations,
      integrations_of workflow_config = Ok integrations ->
      Forall (fun i => well_typed i = true) integrations ->
      exists registry,
        convert_workflow_to_user_tools workflow_config = Ok registry
        /\ forall key tool,
            registry !! key = Some tool <->
            exists earlier i later,
              integrations = earlier ++ i :: later
              /\ tool_key i = Ok key /\ tool_entry i = Ok tool
              /\ Forall (fun j => tool_key j <> Ok key) later)
  /\ (forall workflow_config earlier i later e,
         integrations_of workflow_config = Ok (earlier ++ i :: later) ->
         Forall (fun j => well_typed j = true) earlier ->
         tool_entry i = Raise e ->
         (forall what, e <> NotModelled what) ->
         convert_workflow_to_user_tools workflow_config = Raise e)
  /\ (forall i,
         is_object i = false ->
         tool_entry i = Raise (AttributeError "get"))
  /\ (forall items v,
         truthy (get_or items "tool_id" (PyStr EmptyString)) = false ->
         dict_lookup items "tool_name" = Some v ->
         is_text v = false ->
         tool_entry (PyDict items) = Raise (AttributeError "lower"))
  /\ (forall items v,
         well_typed (PyDict items) = true ->
         iterable v = false ->
         tool_entry (PyDict (items ++ [("input_parameters", v)]))
         = Raise (TypeError "not iterable"))
  /\ (forall items v params p more,
         well_typed (PyDict items) = true ->
         py_iter v = Ok (params ++ p :: more) ->
         forallb well_typed_parameter params = true ->
         is_object p = false ->
         tool_entry (PyDict (items ++ [("input_parameters", v)]))
         = Raise (AttributeError "get"))
  /\ (forall items v,
         well_typed (PyDict items) = true ->
         is_text v = false ->
         tool_entry
           (PyDict (items ++ [ ("type", PyStr "prompt");
                               ("response_prompt", v) ]))
         = Raise (TypeError "expected string")).
Proof.
  split; [|split; [|split; [|split; [|split; [|split]]]]].
  - intros workflow_config integrations Hc Ht.
    destruct (convert_integrations_typed _ Ht) as [registry E].
    exists registry. rewrite (convert_workflow_list _ _ Hc).
    split; [exact E|]. exact (convert_integrations_lookup _ _ E).
  - intros workflow_config earlier i later e Hc Ht Hi _.
    destruct (convert_integrations_typed _ Ht) as [registry E].
    rewrite (convert_workflow_list _ _ Hc).
    exact (convert_integrations_raises _ _ _ _ _ E Hi).
  - exact not_object_raises.
  - exact tool_name_raises.
  - intros items v H Hv.
    exact (input_parameters_raise _ _ _ H (not_iterable_raises _ Hv)).
  - intros items v params p more H Hv Hp Ho.
    exact (input_parameters_raise _ _ _ H
             (parameter_not_object_raises _ _ _ _ Hv Hp Ho)).
  - exact response_prompt_raises.
Qed.

(** Two descriptors of one key with a third between them, all accepted;
    and a load that fails on the second entry, whose [input_parameters]
    is a string. *)
Lemma conversion_validates_nothing_witness :
  let integrations :=
    [ Demo.teleport_tool; Demo.cloth_combination; Demo.teleport_tool ] in
  let broken :=
    PyDict [ ("tool_id", PyStr "broken");
             ("input_parameters", PyStr "coin") ] in
  integrations_of (Demo.config integrations) = Ok integrations
  /\ Forall (fun i => well_typed i = true) integrations
  /\ (exists registry,
        convert_workflow_to_user_tools (Demo.config integrations)
        = Ok registry
        /\ registry !! "teleport_tool"
           = Some (Demo.entry Demo.teleport_tool))
  /\ tool_entry broken = Raise (AttributeError "get")
  /\ convert_workflow_to_user_tools
       (Demo.config [Demo.cloth_combination; broken; Demo.crypto_api])
     = Raise (AttributeError "get").
Proof.
  intros integrations broken.
  assert (Hc : integrations_of (Demo.config integrations) = Ok integrations)
    by reflexivity.
  assert (Ht : Forall (fun i => well_typed i = true) integrations)
    by (repeat constructor).
  assert (Hb : tool_entry broken = Raise (AttributeError "get")).
  { apply (proj1 (proj2 (proj2 (proj2 (proj2 (proj2
                   conversion_validates_nothing)))))
             [("tool_id", PyStr "broken")] (PyStr "coin") []
             (PyStr "c") [PyStr "o"; PyStr "i"; PyStr "n"]);
      reflexivity. }
  split; [exact Hc|]. split; [exact Ht|]. split; [|split; [exact Hb|]].
  - destruct (proj1 conversion_validates_nothing _ _ Hc Ht)
      as (registry & E & Hl).
    exists registry. split; [exact E|]. apply Hl.
    exists [Demo.teleport_tool; Demo.cloth_combination],
      Demo.teleport_tool, [].
    repeat split; try reflexivity. constructor.
  - apply (proj1 (proj2 conversion_validates_nothing) _
             [Demo.cloth_combination] broken [Demo.crypto_api]).
    + reflexivity.
    + repeat constructor.
    + exact Hb.
    + intros what. discriminate.
Defined.

(** C9 as stated fails: a descriptor with an unknown type, no description
    and no payload is converted without complaint, and what is wrong with
    it shows when the tool is called. *)
Lemma malformed_descriptor_accepted :
  let tools := Demo.registry [Demo.teleport_tool] in
  convert_workflow_to_user_tools (Demo.config [Demo.teleport_tool])
  = Ok tools
  /\ tools !! "teleport_tool" = Some (Demo.entry Demo.teleport_tool)
  /\ Stated.well_formed_definition (Demo.entry Demo.teleport_tool) = false
  /\ Demo.execute tools [Demo.call "teleport_tool" []] [] "beam me up"
     = (Ok (Some (Mixed
                    [ {| si_name := "teleport_tool";
                         si_type := "teleport";
                         si_content := RError "Unsupported tool type." |} ])),
        []).
Proof. vm_compute. repeat split. Qed.

End RegistryFacts.

(** ** The engine on concrete batches *)

Section EngineExamples.
Import Demo.

Lemma pending_batch_witness :
  let calls := [bitcoin_call; call "schedule_meeting" []] in
  let payload := pending_after USER_TOOLS [] ∅ calls in
  execute USER_TOOLS calls [] "hi"
  = (Ok (Some (PendingJson payload)), [bitcoin_request])
  /\ (exists fc, fc ∈ tool_calls_of (response_with calls)
                 /\ has_missing USER_TOOLS [] fc = true)
  /\ snd (execute USER_TOOLS
            (List.filter (fun fc => negb (has_missing USER_TOOLS [] fc))
               (tool_calls_of (response_with calls))) [] "hi")
     = [bitcoin_request].
Proof.
  intros calls payload.
  assert (H1 : execute USER_TOOLS calls [] "hi"
               = (Ok (Some (PendingJson payload)), [bitcoin_request]))
    by (vm_compute; reflexivity).
  assert (H2 : exists fc, fc ∈ tool_calls_of (response_with calls)
                          /\ has_missing USER_TOOLS [] fc = true).
  { exists (call "schedule_meeting" []). split.
    - right. left.
    - vm_compute. reflexivity. }
  split; [exact H1|]. split; [exact H2|].
  refine (proj2 (proj2 (proj2
            (pending_batch string string http_send generate_content
               run_rag USER_TOOLS [] "hi" (response_with calls)
               (Some (PendingJson payload)) [] [bitcoin_request]
               H1 _ H2)))).
  intros x. discriminate.
Defined.

(** C1 as stated fails: the call with resolved parameters that precedes
    the call with a missing one is executed, so a request goes to HTTP
    although the batch ends in [pending_json]. *)
Lemma stated_pending_batch_counterexample :
  ~ stated_pending_batch http_send generate_content run_rag USER_TOOLS
      [bitcoin_call; call "schedule_meeting" []] [] "hi".
Proof.
  intros H. destruct H as (payload & tr & Hrun & _ & Hev).
  - exists (call "schedule_meeting" []). split.
    + right. left.
    + vm_compute. reflexivity.
  - assert (E : snd (execute USER_TOOLS
                       [bitcoin_call; call "schedule_meeting" []] [] "hi")
                = [bitcoin_request]) by (vm_compute; reflexivity).
    unfold execute in E. rewrite Hrun in E. simpl in E. subst tr.
    destruct (Hev bitcoin_request) as [Hh _]; [left|].
    discriminate.
Qed.

Lemma static_batch_composed_witness :
  let calls := [call "cloth_combination" []; meeting_call] in
  tool_calls_of (response_with calls) <> []
  /\ Forall2 (static_call USER_TOOLS [])
       (tool_calls_of (response_with calls)) [cloth_text; meeting_text]
  /\ execute USER_TOOLS calls [] "hi"
     = (Ok (Some (StaticOnly
                    (cloth_text
                     +:+ String "010" (String "010" meeting_text)))),
        []).
Proof.
  intros calls.
  assert (Hne : tool_calls_of (response_with calls) <> [])
    by discriminate.
  assert (Hall : Forall2 (static_call USER_TOOLS [])
                   (tool_calls_of (response_with calls))
                   [cloth_text; meeting_text]).
  { constructor; [|constructor; [|constructor]].
    - exists (entry cloth_combination), ∅.
      repeat split; vm_compute; reflexivity.
    - exists (entry schedule_meeting), meeting_args.
      repeat split; vm_compute; reflexivity. }
  split; [exact Hne|]. split; [exact Hall|].
  destruct (static_batch_composed string string http_send generate_content
              run_rag USER_TOOLS [] "hi" (response_with calls)
              [cloth_text; meeting_text] [] Hne Hall)
    as (first & rest & E & H).
  injection E as <- <-. exact H.
Defined.

(** C2 as stated fails: the template of the static tool names [place],
    which is not a required parameter and so is not in [final_args]; no
    call of the batch has a missing parameter and both tools are static,
    yet the [KeyError] of [format] leaves [execute_tool_calls] and nothing
    is returned. *)
Lemma stated_static_batch_counterexample :
  let tools := registry [cloth_combination; venue_tool] in
  let calls :=
    [ call "cloth_combination" [];
      call "venue_tool"
        [("topic", PyStr "budget"); ("place", PyStr "room 4")] ] in
  Registry.convert_workflow_to_user_tools
    (config [cloth_combination; venue_tool]) = Ok tools
  /\ Forall (fun fc => has_missing tools [] fc = false) calls
  /\ execute tools calls [] "hi" = (Raise (KeyError "place"), [])
  /\ ~ stated_static_batch http_send generate_content run_rag tools
        calls [] "hi".
Proof.
  intros tools calls.
  assert (E : execute tools calls [] "hi" = (Raise (KeyError "place"), []))
    by (vm_compute; reflexivity).
  split; [vm_compute; reflexivity|].
  split; [repeat constructor|]. split; [exact E|].
  intros H. destruct H as (texts & tr & _ & Hrun & _).
  - discriminate.
  - constructor; [|constructor; [|constructor]].
    + exists (entry cloth_combination), ∅.
      repeat split; vm_compute; reflexivity.
    + exists (entry venue_tool), {[ "topic" := PyStr "budget" ]}.
      repeat split; vm_compute; reflexivity.
  - unfold execute in E. rewrite Hrun in E. discriminate.
Qed.

Lemma rag_short_circuit_witness :
  let earlier := [call "cloth_combination" []] in
  let fc := call "rag_tool" [("user_query", PyStr "refund policy")] in
  let later := [bitcoin_call] in
  execute USER_TOOLS (earlier ++ fc :: later) [] "what is the refund policy"
  = (Ok (Some (RagMode (run_rag [] "what is the refund policy"))),
     [EvRag "what is the refund policy"]).
Proof.
  intros earlier fc later.
  apply (rag_short_circuit string string http_send generate_content
           run_rag USER_TOOLS [] "what is the refund policy"
           (response_with (earlier ++ fc :: later)) earlier later fc
           (entry rag_tool)
           {[ "user_query" := PyStr "refund policy" ]}
           (append_summary
              {| si_name := "cloth_combination"; si_type := "static";
                 si_content := RText cloth_text |}
              (append_static_text cloth_text initial_state))
           [] []).
  - reflexivity.
  - vm_compute. reflexivity.
  - split; vm_compute; reflexivity.
  - reflexivity.
Defined.

Lemma call_resolves_once_witness :
  let fc := call "cloth_combination" [] in
  let st' :=
    append_summary
      {| si_name := "cloth_combination"; si_type := "static";
         si_content := RText cloth_text |}
      (append_static_text cloth_text (@initial_state string)) in
  process_call http_send generate_content run_rag USER_TOOLS [] "hi"
    initial_state fc []
  = (Ok (Continue st'), [])
  /\ match USER_TOOLS !! fc_name fc with
     | Some _ =>
         (executed_once fc initial_state st'
          \/ pending_once fc initial_state st')
         /\ ~ (executed_once fc initial_state st'
               /\ pending_once fc initial_state st')
     | None =>
         summary_items st' = summary_items (@initial_state string)
         /\ pending_params st' = pending_params (@initial_state string)
     end.
Proof.
  intros fc st'.
  assert (H : process_call http_send generate_content run_rag USER_TOOLS
                [] "hi" initial_state fc []
              = (Ok (Continue st'), [])) by (vm_compute; reflexivity).
  split; [exact H|].
  exact (call_resolves_once string string http_send generate_content
           run_rag USER_TOOLS [] "hi" initial_state st' fc [] [] H).
Defined.

(** C6 as stated fails: a call that names no registered tool goes
    through the loop and leaves neither a result nor a pending entry. *)
Lemma unknown_call_resolves_to_nothing :
  let fc := call "open_pod_bay_doors" [] in
  exists st',
    process_call http_send generate_content run_rag USER_TOOLS [] "hi"
      initial_state fc []
    = (Ok (Continue st'), [])
    /\ ~ (executed_once fc initial_state st'
          \/ pending_once fc initial_state st')
    /\ execute USER_TOOLS [fc] [] "hi" = (Ok None, []).
Proof.
  intros fc. exists (clear_all_static initial_state).
  split; [vm_compute; reflexivity|]. split; [|vm_compute; reflexivity].
  intros [(item & Hs & _)|(e & Hp & _)].
  - simpl in Hs. discriminate.
  - simpl in Hp. symmetry in Hp.
    exact (insert_non_empty _ _ _ Hp).
Qed.

Lemma falsy_argument_is_absent_witness :
  let fc := call "motivation_tool" [("topic", PyInt 0)] in
  let tool := entry motivation_tool in
  USER_TOOLS !! fc_name fc = Some tool
  /\ "topic" ∈ required_of tool
  /\ fc_args fc !! "topic" = Some (PyInt 0)
  /\ truthy (PyInt 0) = false
  /\ resolve_param (fc_args fc) [user_turn "cheer me up"] "topic"
     = resolve_param (delete "topic" (fc_args fc))
         [user_turn "cheer me up"] "topic".
Proof.
  intros fc tool.
  assert (H1 : USER_TOOLS !! fc_name fc = Some tool)
    by (vm_compute; reflexivity).
  assert (H2 : "topic" ∈ required_of tool) by left.
  assert (H3 : fc_args fc !! "topic" = Some (PyInt 0))
    by (vm_compute; reflexivity).
  repeat (split; [assumption || reflexivity|]).
  exact (proj1 (proj2
           (falsy_argument_is_absent string string http_send
              generate_content run_rag USER_TOOLS
              [user_turn "cheer me up"] "hi" initial_state fc tool
              "topic" (PyInt 0) [] H1 H2 H3 eq_refl))).
Defined.

(** The value [0] supplied for a required parameter is reported
    missing. *)
Example zero_is_reported_missing :
  execute USER_TOOLS [call "motivation_tool" [("topic", PyInt 0)]]
    [user_turn "cheer me up"] "cheer me up"
  = (Ok (Some (PendingJson
                 {[ "motivation_tool" :=
                      {| pe_missing := ["topic"];
                         pe_args := {[ "topic" := PyStr EmptyString ]} |}
                 ]})), []).
Proof. vm_compute. reflexivity. Qed.

(** A call that names no registered tool is not of type static: next to
    a static call it makes the batch a mixed one. *)
Example unknown_call_makes_batch_mixed :
  execute USER_TOOLS
    [call "open_pod_bay_doors" []; call "cloth_combination" []] [] "hi"
  = (Ok (Some (Mixed
                 [ {| si_name := "cloth_combination"; si_type := "static";
                      si_content := RText cloth_text |} ])), []).
Proof. vm_compute. reflexivity. Qed.

(** A static call and an api call that succeeds: a mixed batch, with both
    entries in call order and one request. *)
Example mixed_batch :
  execute USER_TOOLS [call "cloth_combination" []; bitcoin_call] []
    "what to wear, and bitcoin"
  = (Ok (Some (Mixed
                 [ {| si_name := "cloth_combination"; si_type := "static";
                      si_content := RText cloth_text |};
                   {| si_name := "crypto_api"; si_type := "api";
                      si_content :=
                        RJson
                          "body of https://api.coingecko.com/api/v3/simple/price?ids=bitcoin&vs_currencies=usd"
                   |} ])),
     [bitcoin_request]).
Proof. vm_compute. reflexivity. Qed.

(** C3 on a failing input: the URL template of the tool names [unit],
    which is not a required parameter, so [final_args] has no such key;
    the [KeyError] of [format] leaves [call_custom_api] and
    [execute_tool_calls], no request is made, and the static call that
    follows is not processed. *)
Theorem format_failure_aborts_batch :
  let tools := registry [forecast_api; cloth_combination] in
  Registry.convert_workflow_to_user_tools
    (config [forecast_api; cloth_combination]) = Ok tools
  /\ execute tools
       [ call "forecast_api"
           [("location", PyStr "Rome"); ("unit", PyStr "metric")];
         call "cloth_combination" [] ]
       [] "weather in Rome"
     = (Raise (KeyError "unit"), []).
Proof. split; vm_compute; reflexivity. Qed.

(** The same batch when the template names required parameters only: a
    failing request becomes the error content and the static call is
    processed. *)
Example transport_failure_is_recovered :
  execute_tool_calls
    (fun _ _ _ _ => HttpFailed "connection refused")
    generate_content run_rag USER_TOOLS
    (response_with [bitcoin_call; call "cloth_combination" []])
    [] "bitcoin and clothes" []
  = (Ok (Some (Mixed
                 [ {| si_name := "crypto_api"; si_type := "api";
                      si_content :=
                        @RError string "connection refused" |};
                   {| si_name := "cloth_combination"; si_type := "static";
                      si_content := RText cloth_text |} ])),
     [bitcoin_request]).
Proof. vm_compute. reflexivity. Qed.

End EngineExamples.

(** ** The audio loop *)

Section AudioLoopFacts.
Import AudioLoop.
Local Open Scope list_scope.

Lemma enqueued_cons (l : label) (ls : list label) :
  enqueued (l :: ls) = (enqueued [l] ++ enqueued ls)%list.
Proof.
  unfold enqueued. simpl.
  destruct l as [| | | | |[[|b d]|]| | |]; reflexivity.
Qed.

Lemma play_next_audio (s : state) :
  (written (play_next s) = written s
   /\ audio_in_queue (play_next s) = audio_in_queue s)
  \/ exists c,
      audio_in_queue s = c :: audio_in_queue (play_next s)
      /\ written (play_next s) = (written s ++ [c])%list.
Proof.
  unfold play_next. destruct (audio_in_queue s) as [|c q] eqn:E; simpl.
  - left. auto.
  - right. exists c. auto.
Qed.

(** What a step does to [audio_in_queue] and to the chunks written: it
    appends what it receives, or empties the queue, or moves the head of
    the queue to the chunks written. *)
Lemma step_audio (s s1 : state) (l : label) :
  step s l = Some s1 ->
  (written s1 = written s
   /\ audio_in_queue s1 = (audio_in_queue s ++ enqueued [l])%list)
  \/ (written s1 = written s /\ audio_in_queue s1 = []
      /\ enqueued [l] = [])
  \/ (exists c,
        audio_in_queue s = c :: audio_in_queue s1
        /\ written s1 = (written s ++ [c])%list
        /\ enqueued [l] = []).
Proof.
  destruct l as [chunk| |frame| | |[[|b d]|]| | |]; simpl.
  - destruct (listening s); [|discriminate].
    destruct (ai_speaking s); [|destruct (full (out_queue s))];
      intros [= <-]; left; simpl; rewrite app_nil_r; auto.
  - destruct (listening s); [discriminate|].
    destruct (full (out_queue s)); [discriminate|].
    intros [= <-]. left. simpl. rewrite app_nil_r. auto.
  - destruct (full (out_queue s)); [discriminate|].
    intros [= <-]. left. simpl. rewrite app_nil_r. auto.
  - destruct (sending s); [|discriminate].
    destruct (out_queue s) eqn:E; [discriminate|].
    intros [= <-]. left. unfold send_next. rewrite E. simpl.
    rewrite app_nil_r. auto.
  - destruct (sending s); [discriminate|].
    intros [= <-]. left. unfold send_next.
    destruct (out_queue s); simpl; rewrite app_nil_r; auto.
  - intros [= <-]. left. rewrite app_nil_r. auto.
  - intros [= <-]. left. auto.
  - intros [= <-]. left. rewrite app_nil_r. auto.
  - intros [= <-]. right. left. auto.
  - destruct (playing s); [|discriminate].
    destruct (audio_in_queue s) eqn:E; [discriminate|].
    intros [= <-].
    destruct (play_next_audio s) as [[Hw Hq]|(c & Hq & Hw)].
    + left. rewrite app_nil_r. rewrite E in Hq. auto.
    + right. right. exists c. rewrite E in Hq. auto.
  - destruct (playing s); [discriminate|].
    intros [= <-].
    destruct (play_next_audio s) as [[Hw Hq]|(c & Hq & Hw)].
    + left. rewrite app_nil_r. auto.
    + right. right. exists c. auto.
Qed.

(** The chunks written during a run, followed by those still buffered,
    are among those buffered at the start followed by those received
    during the run, and in that order. *)
Lemma run_written (ls : list label) :
  forall s s',
    run s ls = Some s' ->
    exists w,
      written s' = (written s ++ w)%list
      /\ (w ++ audio_in_queue s') `sublist_of`
           (audio_in_queue s ++ enqueued ls).
Proof.
  induction ls as [|l ls IH]; intros s s'; simpl run.
  - intros [= <-]. exists []. simpl. rewrite !app_nil_r.
    split; reflexivity.
  - destruct (step s l) as [s1|] eqn:E; [|discriminate].
    intros H. destruct (IH _ _ H) as (w & Hw & Hsub).
    rewrite enqueued_cons.
    destruct (step_audio _ _ _ E)
      as [[Hw1 Hq1]|[(Hw1 & Hq1 & He)|(c & Hq1 & Hw1 & He)]].
    + exists w. rewrite Hw, Hw1. split; [reflexivity|].
      rewrite Hq1, <- app_assoc in Hsub. exact Hsub.
    + exists w. rewrite Hw, Hw1. split; [reflexivity|].
      rewrite Hq1 in Hsub. rewrite He. simpl in *.
      apply sublist_inserts_l, Hsub.
    + exists (c :: w). rewrite Hw, Hw1, <- app_assoc. split; [reflexivity|].
      rewrite Hq1, He. simpl. apply sublist_skip, Hsub.
Qed.

(** C7: the end of a turn empties [audio_in_queue]; every chunk handed to
    [stream.write] from then on, and every chunk buffered, was received
    after it. *)
Theorem turn_complete_discards_buffered (s1 s2 s3 : state)
    (ls : list label) :
  step s1 TurnComplete = Some s2 ->
  run s2 ls = Some s3 ->
  audio_in_queue s2 = []
  /\ exists w,
      written s3 = (written s1 ++ w)%list
      /\ (w ++ audio_in_queue s3) `sublist_of` enqueued ls.
Proof.
  simpl. intros [= <-] H. split; [reflexivity|].
  exact (run_written _ _ _ H).
Qed.

Lemma turn_complete_discards_buffered_witness :
  let ls := [Received (Some (Demo.chunk 4)); PlayDone;
             Received (Some (Demo.chunk 5))] in
  step Demo.mid_answer TurnComplete = Some (with_in Demo.mid_answer [])
  /\ run (with_in Demo.mid_answer []) ls
     = Some (with_in (play_next
                        (with_in Demo.mid_answer [Demo.chunk 4]))
               [Demo.chunk 5])
  /\ exists w,
      written (with_in (play_next
                          (with_in Demo.mid_answer [Demo.chunk 4]))
                 [Demo.chunk 5])
      = (written Demo.mid_answer ++ w)%list
      /\ (w ++ [Demo.chunk 5]) `sublist_of` enqueued ls.
Proof.
  intros ls.
  assert (H1 : step Demo.mid_answer TurnComplete
               = Some (with_in Demo.mid_answer [])) by reflexivity.
  assert (H2 : run (with_in Demo.mid_answer []) ls
               = Some (with_in (play_next
                                  (with_in Demo.mid_answer [Demo.chunk 4]))
                         [Demo.chunk 5])) by reflexivity.
  split; [exact H1|]. split; [exact H2|].
  exact (proj2 (turn_complete_discards_buffered _ _ _ ls H1 H2)).
Defined.

Lemma full_false (q : list message) :
  full q = false -> (length q < OUT_QUEUE_MAXSIZE)%nat.
Proof. unfold full. apply Nat.leb_gt. Qed.

Lemma step_well_formed (s s' : state) (l : label) :
  well_formed s -> step s l = Some s' -> well_formed s'.
Proof.
  unfold well_formed. intros [Hlen Hput].
  destruct l as [chunk| |frame| | |[[|b d]|]| | |]; unfold step.
  - destruct (listening s) eqn:L; [|discriminate].
    destruct (ai_speaking s).
    + intros [= <-]. rewrite L. split; [exact Hlen|discriminate].
    + destruct (full (out_queue s)) eqn:F; intros [= <-]; simpl.
      * split; [exact Hlen|]. intros msg [= <-]. eauto.
      * apply full_false in F. rewrite length_app. simpl.
        split; [lia|discriminate].
  - destruct (listening s) eqn:L; [discriminate|].
    destruct (full (out_queue s)) eqn:F; [discriminate|].
    intros [= <-]. simpl. apply full_false in F.
    rewrite length_app. simpl. split; [lia|discriminate].
  - destruct (full (out_queue s)) eqn:F; [discriminate|].
    intros [= <-]. simpl. apply full_false in F.
    rewrite length_app. simpl. split; [lia|exact Hput].
  - destruct (sending s); [|discriminate].
    destruct (out_queue s) eqn:E; [discriminate|].
    intros [= <-]. unfold send_next. rewrite E. simpl in *.
    split; [lia|exact Hput].
  - destruct (sending s); [discriminate|].
    intros [= <-]. unfold send_next.
    destruct (out_queue s); simpl in *; split; try lia; exact Hput.
  - intros [= <-]. auto.
  - intros [= <-]. auto.
  - intros [= <-]. auto.
  - intros [= <-]. auto.
  - destruct (playing s); [|discriminate].
    destruct (audio_in_queue s) eqn:E; [discriminate|].
    intros [= <-]. unfold play_next. rewrite E. auto.
  - destruct (playing s); [discriminate|].
    intros [= <-]. unfold play_next.
    destruct (audio_in_queue s); auto.
Qed.

Lemma run_well_formed (ls : list label) :
  forall s s', well_formed s -> run s ls = Some s' -> well_formed s'.
Proof.
  induction ls as [|l ls IH]; intros s s' Hs; simpl.
  - intros [= <-]. exact Hs.
  - destruct (step s l) as [s1|] eqn:E; [|discriminate].
    apply IH. exact (step_well_formed _ _ _ Hs E).
Qed.

Lemma initial_well_formed : well_formed initial.
Proof. split; [simpl; unfold OUT_QUEUE_MAXSIZE; lia|discriminate]. Qed.

(** C8, amended: [listen_audio] reads the flag once, when the frame has
    been read.  With the flag up the frame is dropped.  With the flag
    down the frame goes, as an audio/pcm message, on the bounded queue:
    at once when there is room, and else when the suspended [put] goes
    on, whatever the flag is by then. *)
Theorem capture_gated_by_flag (ls : list label) (s s' : state)
    (l : label) :
  run initial ls = Some s ->
  step s l = Some s' ->
  (length (out_queue s') <= OUT_QUEUE_MAXSIZE)%nat
  /\ match l with
     | MicRead chunk =>
         if ai_speaking s then s' = s
         else (full (out_queue s) = false
               /\ out_queue s' = (out_queue s ++ [pcm chunk])%list
               /\ listening s' = Reading)
              \/ (full (out_queue s) = true
                  /\ out_queue s' = out_queue s
                  /\ listening s' = Putting (pcm chunk))
     | PutResumed =>
         exists chunk,
           listening s = Putting (pcm chunk)
           /\ out_queue s' = (out_queue s ++ [pcm chunk])%list
           /\ listening s' = Reading
     | _ => True
     end.
Proof.
  intros Hrun Hstep.
  pose proof (run_well_formed _ _ _ initial_well_formed Hrun) as Hs.
  pose proof (step_well_formed _ _ _ Hs Hstep) as [Hlen _].
  split; [exact Hlen|].
  destruct l as [chunk| |frame| | |c| | |]; try exact I; simpl in Hstep.
  - destruct (listening s); [|discriminate].
    destruct (ai_speaking s); [congruence|].
    destruct (full (out_queue s)); injection Hstep as <-; auto.
  - destruct (listening s) as [|msg] eqn:L; [discriminate|].
    destruct (full (out_queue s)); [discriminate|].
    injection Hstep as <-.
    destruct (proj2 Hs msg L) as [chunk ->]. exists chunk. auto.
Qed.

Lemma capture_gated_by_flag_witness :
  run initial [MicRead (Demo.chunk 0); SendGet]
  = Some (with_send initial [] (Sending (pcm (Demo.chunk 0))))
  /\ step (with_send initial [] (Sending (pcm (Demo.chunk 0))))
       (MicRead (Demo.chunk 1))
     = Some (with_out
               (with_send initial [] (Sending (pcm (Demo.chunk 0))))
               [pcm (Demo.chunk 1)] Reading)
  /\ (length [pcm (Demo.chunk 1)] <= OUT_QUEUE_MAXSIZE)%nat.
Proof.
  assert (H1 : run initial [MicRead (Demo.chunk 0); SendGet]
               = Some (with_send initial [] (Sending (pcm (Demo.chunk 0)))))
    by reflexivity.
  assert (H2 : step (with_send initial [] (Sending (pcm (Demo.chunk 0))))
                 (MicRead (Demo.chunk 1))
               = Some (with_out
                         (with_send initial []
                            (Sending (pcm (Demo.chunk 0))))
                         [pcm (Demo.chunk 1)] Reading))
    by reflexivity.
  split; [exact H1|]. split; [exact H2|].
  exact (proj1 (capture_gated_by_flag _ _ _ _ H1 H2)).
Defined.

(** C8 as stated fails: a frame read while the flag was down, and held
    by a [put] suspended on the full queue, is put on the queue while the
    flag is up. *)
Lemma frame_enqueued_while_speaking :
  exists s s',
    run initial Demo.slow_network = Some s
    /\ step s PutResumed = Some s'
    /\ ai_speaking s = true
    /\ ai_speaking s' = true
    /\ out_queue s' = (out_queue s ++ [pcm (Demo.chunk 6)])%list.
Proof.
  eexists _, _. split; [vm_compute; reflexivity|].
  split; [vm_compute; reflexivity|]. repeat split.
Qed.

End AudioLoopFacts.

(** ** Trimming the history *)

Section TrimFacts.
Import Trim.
Local Open Scope list_scope.

Lemma fold_add_item_snoc (l : list Content) (x : Content)
    (acc : list (list Content) * list Content) :
  fold_left add_item (l ++ [x]) acc = add_item (fold_left add_item l acc) x.
Proof. rewrite fold_left_app. reflexivity. Qed.

Lemma shaped_snoc (blocks : list (list Content)) (b : list Content) :
  shaped blocks -> blocks <> [] -> user_block b -> shaped (blocks ++ [b]).
Proof.
  destruct blocks as [|b0 later]; [congruence|].
  simpl. intros [H0 Hl] _ Hb. split; [exact H0|].
  apply Forall_app. split; [exact Hl|]. constructor; [exact Hb|constructor].
Qed.

Lemma block_ok_snoc (b : list Content) (x : Content) :
  block_ok b -> History.is_user x = false -> block_ok (b ++ [x]).
Proof.
  destruct b as [|y r]; simpl; [tauto|].
  intros H Hx. apply Forall_app. split; [exact H|].
  constructor; [exact Hx|constructor].
Qed.

Lemma user_block_snoc (b : list Content) (x : Content) :
  user_block b -> History.is_user x = false -> user_block (b ++ [x]).
Proof.
  destruct b as [|y r]; simpl; [tauto|].
  intros [Hy H] Hx. split; [exact Hy|]. apply Forall_app.
  split; [exact H|]. constructor; [exact Hx|constructor].
Qed.

Lemma shaped_extend_last (blocks : list (list Content))
    (cur : list Content) (x : Content) :
  shaped (blocks ++ [cur]) -> History.is_user x = false ->
  shaped (blocks ++ [cur ++ [x]]).
Proof.
  destruct blocks as [|b0 later]; simpl.
  - intros [H _] Hx. split; [apply block_ok_snoc; assumption|constructor].
  - intros [H0 Hl] Hx. split; [exact H0|].
    apply Forall_app in Hl as [Hl Hc]. apply Forall_app. split; [exact Hl|].
    inversion Hc; subst. constructor; [|constructor].
    apply user_block_snoc; assumption.
Qed.

(** What the loop of [trim_history_blocks] has built after a prefix of the
    history: the blocks and the current block hold the prefix, in order,
    and have the shape of blocks. *)
Lemma split_invariant (history : list Content) :
  let acc := fold_left add_item history ([], []) in
  concat (fst acc) ++ snd acc = history
  /\ ((fst acc = [] /\ snd acc = [])
      \/ (snd acc <> [] /\ shaped (fst acc ++ [snd acc]))).
Proof.
  induction history as [|x l IH] using rev_ind; simpl.
  - split; [reflexivity|]. left. auto.
  - rewrite fold_add_item_snoc.
    destruct (fold_left add_item l ([], [])) as [blocks cur].
    simpl in IH. destruct IH as [Hc Hs]. unfold add_item. simpl.
    destruct (History.is_user x) eqn:Hx; simpl.
    + destruct Hs as [[-> ->]|[Hn Hs]].
      * simpl in *. subst l. split; [reflexivity|]. right.
        split; [discriminate|]. simpl. auto.
      * destruct cur as [|c cur]; [congruence|].
        split.
        -- rewrite concat_app. simpl. rewrite app_nil_r, Hc. reflexivity.
        -- right. split; [discriminate|].
           apply shaped_snoc; [exact Hs| |simpl; auto].
           destruct blocks; discriminate.
    + destruct Hs as [[-> ->]|[Hn Hs]].
      * simpl in *. subst l. split; [reflexivity|]. right.
        split; [discriminate|]. simpl. auto.
      * split; [rewrite app_assoc, Hc; reflexivity|]. right.
        split; [destruct cur; discriminate|].
        apply shaped_extend_last; assumption.
Qed.

Lemma split_blocks_concat (history : list Content) :
  concat (split_blocks history) = history.
Proof.
  unfold split_blocks, close_blocks.
  destruct (split_invariant history) as [Hc _].
  destruct (fold_left add_item history ([], [])) as [blocks cur].
  simpl in *. destruct cur.
  - rewrite app_nil_r in Hc. exact Hc.
  - rewrite concat_app. simpl. rewrite app_nil_r. exact Hc.
Qed.

Lemma split_blocks_shaped (history : list Content) :
  shaped (split_blocks history).
Proof.
  unfold split_blocks, close_blocks.
  destruct (split_invariant history) as [_ Hs].
  destruct (fold_left add_item history ([], [])) as [blocks cur].
  simpl in *. destruct Hs as [[-> ->]|[Hn Hs]]; [exact I|].
  destruct cur; [congruence|exact Hs].
Qed.

Lemma slice_from_drop {A : Type} (start : Z) (l : list A) :
  exists k, slice_from start l = drop k l.
Proof. unfold slice_from. destruct (start <? 0); eauto. Qed.

Lemma slice_last (n : Z) {A : Type} (l : list A) :
  0 < n ->
  slice_from (- n) l = drop (length l - Z.to_nat n) l.
Proof.
  intros Hn. unfold slice_from.
  destruct (Z.ltb_spec (- n) 0); [|lia]. f_equal. lia.
Qed.

Lemma user_turns_app (a b : list Content) :
  user_turns (a ++ b) = (user_turns a + user_turns b)%nat.
Proof. unfold user_turns. rewrite List.filter_app, length_app. reflexivity. Qed.

Lemma user_turns_none (r : list Content) :
  Forall (fun item => History.is_user item = false) r -> user_turns r = 0%nat.
Proof.
  unfold user_turns. induction 1 as [|x r Hx _ IH]; [reflexivity|].
  simpl. rewrite Hx. exact IH.
Qed.

Lemma user_turns_user_block (b : list Content) :
  user_block b -> user_turns b = 1%nat.
Proof.
  destruct b as [|x r]; simpl; [tauto|]. intros [Hx Hr].
  change (x :: r) with ([x] ++ r). rewrite user_turns_app, (user_turns_none _ Hr).
  unfold user_turns. simpl. rewrite Hx. reflexivity.
Qed.

Lemma user_turns_block_ok (b : list Content) :
  block_ok b -> (user_turns b <= 1)%nat.
Proof.
  destruct b as [|x r]; simpl; [tauto|]. intros Hr.
  change (x :: r) with ([x] ++ r). rewrite user_turns_app, (user_turns_none _ Hr).
  unfold user_turns. simpl. destruct (History.is_user x); simpl; lia.
Qed.

Lemma user_turns_user_blocks (later : list (list Content)) :
  Forall user_block later -> user_turns (concat later) = length later.
Proof.
  induction 1 as [|b later Hb _ IH]; [reflexivity|].
  simpl. rewrite user_turns_app, IH, (user_turns_user_block _ Hb).
  reflexivity.
Qed.

Lemma shaped_drop (blocks : list (list Content)) (k : nat) :
  shaped blocks -> (0 < k)%nat -> Forall user_block (drop k blocks).
Proof.
  destruct blocks as [|b later]; simpl.
  - intros _ _. rewrite drop_nil. constructor.
  - intros [_ Hl] Hk. destruct k as [|k]; [lia|]. simpl.
    apply Forall_drop, Hl.
Qed.

Lemma shaped_user_turns (blocks : list (list Content)) :
  shaped blocks ->
  (length blocks <= user_turns (concat blocks) + 1)%nat
  /\ (user_turns (concat blocks) <= length blocks)%nat.
Proof.
  destruct blocks as [|b later]; simpl; [intros _; split; cbv; lia|].
  intros [Hb Hl]. rewrite user_turns_app, (user_turns_user_blocks _ Hl).
  pose proof (user_turns_block_ok _ Hb). lia.
Qed.

End TrimFacts.

Section TrimProperties.
Import Trim.
Local Open Scope list_scope.

Lemma fold_no_user (r : list Content) :
  Forall (fun item => History.is_user item = false) r ->
  forall blocks cur,
    fold_left add_item r (blocks, cur) = (blocks, cur ++ r).
Proof.
  induction 1 as [|x r Hx _ IH]; intros blocks cur; simpl.
  - rewrite app_nil_r. reflexivity.
  - unfold add_item at 2. rewrite Hx. simpl. rewrite IH, <- app_assoc.
    reflexivity.
Qed.

Lemma fold_user_block (b : list Content)
    (acc : list (list Content) * list Content) :
  user_block b -> fold_left add_item b acc = (close_blocks acc, b).
Proof.
  destruct b as [|x r]; simpl; [tauto|]. intros [Hx Hr].
  unfold add_item at 2. rewrite Hx. rewrite (fold_no_user _ Hr).
  reflexivity.
Qed.

Lemma close_user_blocks (later : list (list Content)) :
  Forall user_block later ->
  forall acc,
    close_blocks (fold_left add_item (concat later) acc)
    = close_blocks acc ++ later.
Proof.
  induction 1 as [|b later Hb _ IH]; intros acc; simpl.
  - rewrite app_nil_r. reflexivity.
  - rewrite fold_left_app, (fold_user_block _ _ Hb), IH.
    destruct b as [|x r]; [destruct Hb|].
    unfold close_blocks at 1. simpl. rewrite <- app_assoc. reflexivity.
Qed.

Lemma split_user_blocks (later : list (list Content)) :
  Forall user_block later -> split_blocks (concat later) = later.
Proof. intros H. exact (close_user_blocks _ H ([], [])). Qed.

Lemma trim_nothing (history : list Content) :
  trim_history_blocks history 0 = history.
Proof.
  unfold trim_history_blocks, slice_from. simpl. rewrite drop_0.
  apply split_blocks_concat.
Qed.

Lemma trim_at_most (history : list Content) (max_users : Z) :
  0 < max_users ->
  (user_turns (trim_history_blocks history max_users)
   <= Z.to_nat max_users)%nat.
Proof.
  intros Hn. unfold trim_history_blocks. rewrite (slice_last _ _ Hn).
  pose proof (split_blocks_shaped history) as Hs.
  pose proof (shaped_user_turns _ Hs) as [_ H2].
  rewrite split_blocks_concat in H2.
  destruct (Nat.le_gt_cases (length (split_blocks history))
              (Z.to_nat max_users)) as [Hle|Hgt].
  - replace (length (split_blocks history) - Z.to_nat max_users)%nat
      with 0%nat by lia.
    rewrite drop_0, split_blocks_concat. lia.
  - rewrite user_turns_user_blocks by (apply shaped_drop; [exact Hs|lia]).
    rewrite length_drop. lia.
Qed.

Lemma trim_drops_front (history : list Content) (max_users : Z) :
  exists dropped,
    history = (dropped ++ trim_history_blocks history max_users)%list.
Proof.
  unfold trim_history_blocks.
  destruct (slice_from_drop (- max_users) (split_blocks history)) as [k ->].
  exists (concat (take k (split_blocks history))).
  rewrite <- concat_app, take_drop. symmetry. apply split_blocks_concat.
Qed.

Lemma kept_user_turns (history : list Content) (max_users : Z) :
  0 < max_users ->
  user_turns (trim_history_blocks history max_users)
  = Nat.min (user_turns history) (Z.to_nat max_users).
Proof.
  intros Hn. unfold trim_history_blocks. rewrite (slice_last _ _ Hn).
  pose proof (split_blocks_shaped history) as Hs.
  pose proof (shaped_user_turns _ Hs) as [H1 H2].
  rewrite split_blocks_concat in H1, H2.
  destruct (Nat.le_gt_cases (length (split_blocks history))
              (Z.to_nat max_users)) as [Hle|Hgt].
  - replace (length (split_blocks history) - Z.to_nat max_users)%nat
      with 0%nat by lia.
    rewrite drop_0, split_blocks_concat. lia.
  - rewrite user_turns_user_blocks by (apply shaped_drop; [exact Hs|lia]).
    rewrite length_drop. lia.
Qed.

(** A user turn followed by fewer than [max_users] user turns is not
    trimmed away. *)
Lemma trim_keeps_recent (a rest : list Content) (u : Content)
    (max_users : Z) :
  History.is_user u = true ->
  (user_turns rest < Z.to_nat max_users)%nat ->
  u ∈ trim_history_blocks (a ++ u :: rest) max_users.
Proof.
  intros Hu Hlt. assert (Hn : 0 < max_users) by lia.
  destruct (trim_drops_front (a ++ u :: rest) max_users) as [dropped Hd].
  pose proof (kept_user_turns (a ++ u :: rest) max_users Hn) as Hk.
  set (kept := trim_history_blocks (a ++ u :: rest) max_users) in *.
  assert (Hh : user_turns (a ++ u :: rest)
               = (user_turns a + 1 + user_turns rest)%nat).
  { change (u :: rest) with ([u] ++ rest). rewrite !user_turns_app.
    unfold user_turns at 2. simpl. rewrite Hu. simpl. lia. }
  apply app_eq_app in Hd as [l [[_ E]|[_ E]]].
  - rewrite E. apply elem_of_app. right. left.
  - destruct l as [|x l'].
    + simpl in E. rewrite <- E. left.
    + simpl in E. injection E as _ E.
      assert (Hr : user_turns rest
                   = (user_turns l' + user_turns kept)%nat)
        by (rewrite E; apply user_turns_app).
      lia.
Qed.

(** X1: trimming only drops turns from the front: what
    [trim_history_blocks] returns is a suffix of the history, whatever
    [max_users] is. *)
Theorem trim_is_suffix (history : list Content) (max_users : Z) :
  trim_history_blocks history max_users `suffix_of` history.
Proof.
  unfold trim_history_blocks.
  destruct (slice_from_drop (- max_users) (split_blocks history)) as [k ->].
  exists (concat (take k (split_blocks history))).
  rewrite <- concat_app, take_drop. symmetry. apply split_blocks_concat.
Qed.

(** X2: with a positive [max_users], the trimmed history has the user turns
    of the history up to [max_users] of them. *)
Theorem trim_user_turns (history : list Content) (max_users : Z) :
  0 < max_users ->
  user_turns (trim_history_blocks history max_users)
  = Nat.min (user_turns history) (Z.to_nat max_users).
Proof.
  intros Hn. unfold trim_history_blocks. rewrite (slice_last _ _ Hn).
  pose proof (split_blocks_shaped history) as Hs.
  pose proof (shaped_user_turns _ Hs) as [H1 H2].
  rewrite split_blocks_concat in H1, H2.
  destruct (Nat.le_gt_cases (length (split_blocks history))
              (Z.to_nat max_users)) as [Hle|Hgt].
  - replace (length (split_blocks history) - Z.to_nat max_users)%nat
      with 0%nat by lia.
    rewrite drop_0, split_blocks_concat. lia.
  - rewrite user_turns_user_blocks by (apply shaped_drop; [exact Hs|lia]).
    rewrite length_drop. lia.
Qed.

Lemma trim_user_turns_witness :
  0 < 2
  /\ user_turns (trim_history_blocks Samples.three_exchanges 2)
     = Nat.min (user_turns Samples.three_exchanges) (Z.to_nat 2).
Proof.
  split; [reflexivity|].
  apply (trim_user_turns Samples.three_exchanges 2). reflexivity.
Defined.

(** X3: [max_users = 0] trims nothing, since [blocks[-0:]] is the whole
    list; nor is anything trimmed from a history of fewer user turns than
    [max_users]. *)
Theorem trim_keeps_everything (history : list Content) (max_users : Z) :
  max_users = 0 \/ Z.of_nat (user_turns history) < max_users ->
  trim_history_blocks history max_users = history.
Proof.
  intros [->|Hlt].
  - unfold trim_history_blocks, slice_from. simpl. rewrite drop_0.
    apply split_blocks_concat.
  - unfold trim_history_blocks. rewrite slice_last by lia.
    pose proof (shaped_user_turns _ (split_blocks_shaped history)) as [H1 _].
    rewrite split_blocks_concat in H1.
    replace (length (split_blocks history) - Z.to_nat max_users)%nat
      with 0%nat by lia.
    rewrite drop_0. apply split_blocks_concat.
Qed.

Lemma trim_keeps_everything_witness :
  (0 = 0 \/ Z.of_nat (user_turns Samples.three_exchanges) < 0)
  /\ trim_history_blocks Samples.three_exchanges 0 = Samples.three_exchanges.
Proof.
  assert (H : 0 = 0 \/ Z.of_nat (user_turns Samples.three_exchanges) < 0)
    by (left; reflexivity).
  split; [exact H|].
  exact (trim_keeps_everything Samples.three_exchanges 0 H).
Defined.

(** X4: when a positive [max_users] makes [trim_history_blocks] drop
    something, what is left opens with a user turn: a block is never cut
    in the middle. *)
Theorem trim_starts_with_user (history : list Content) (max_users : Z) :
  0 < max_users ->
  trim_history_blocks history max_users <> history ->
  exists x r,
    trim_history_blocks history max_users = x :: r
    /\ History.is_user x = true.
Proof.
  intros Hn Hne. unfold trim_history_blocks in *.
  rewrite (slice_last _ _ Hn) in *.
  pose proof (split_blocks_shaped history) as Hs.
  destruct (Nat.le_gt_cases (length (split_blocks history))
              (Z.to_nat max_users)) as [Hle|Hgt].
  - exfalso. apply Hne.
    replace (length (split_blocks history) - Z.to_nat max_users)%nat
      with 0%nat by lia.
    rewrite drop_0. apply split_blocks_concat.
  - assert (Hu : Forall user_block
                   (drop (length (split_blocks history)
                          - Z.to_nat max_users) (split_blocks history)))
      by (apply shaped_drop; [exact Hs|lia]).
    assert (Hl : length (drop (length (split_blocks history)
                               - Z.to_nat max_users) (split_blocks history))
                 = Z.to_nat max_users) by (rewrite length_drop; lia).
    destruct (drop _ (split_blocks history)) as [|b rest];
      [simpl in Hl; lia|].
    inversion Hu as [|? ? Hb _]; subst.
    destruct b as [|x r]; [destruct Hb|]. destruct Hb as [Hx _].
    exists x, (r ++ concat rest). split; [reflexivity|exact Hx].
Qed.

Lemma trim_starts_with_user_witness :
  0 < 2
  /\ trim_history_blocks Samples.three_exchanges 2
     <> Samples.three_exchanges
  /\ exists x r,
      trim_history_blocks Samples.three_exchanges 2 = x :: r
      /\ History.is_user x = true.
Proof.
  assert (H : trim_history_blocks Samples.three_exchanges 2
              <> Samples.three_exchanges) by (vm_compute; discriminate).
  split; [reflexivity|]. split; [exact H|].
  exact (trim_starts_with_user Samples.three_exchanges 2 eq_refl H).
Defined.

(** X5: for [max_users] not negative, trimming twice is trimming once. *)
Theorem trim_idempotent (history : list Content) (max_users : Z) :
  0 <= max_users ->
  trim_history_blocks (trim_history_blocks history max_users) max_users
  = trim_history_blocks history max_users.
Proof.
  intros Hn. destruct (Z.eq_dec max_users 0) as [->|Hz].
  - rewrite !trim_nothing. reflexivity.
  - assert (Hp : 0 < max_users) by lia.
    destruct (Nat.le_gt_cases (length (split_blocks history))
                (Z.to_nat max_users)) as [Hle|Hgt].
    + assert (E : trim_history_blocks history max_users = history).
      { unfold trim_history_blocks. rewrite (slice_last _ _ Hp).
        replace (length (split_blocks history) - Z.to_nat max_users)%nat
          with 0%nat by lia.
        rewrite drop_0. apply split_blocks_concat. }
      rewrite !E. reflexivity.
    + unfold trim_history_blocks at 2. rewrite (slice_last _ _ Hp).
      set (kept := drop (length (split_blocks history)
                         - Z.to_nat max_users) (split_blocks history)).
      assert (Hu : Forall user_block kept)
        by (apply shaped_drop; [apply split_blocks_shaped|lia]).
      assert (Hl : length kept = Z.to_nat max_users)
        by (unfold kept; rewrite length_drop; lia).
      unfold trim_history_blocks. rewrite (split_user_blocks _ Hu).
      rewrite !(slice_last _ _ Hp), Hl, Nat.sub_diag, drop_0. reflexivity.
Qed.

Lemma trim_idempotent_witness :
  0 <= 2
  /\ trim_history_blocks (trim_history_blocks Samples.three_exchanges 2) 2
     = trim_history_blocks Samples.three_exchanges 2.
Proof.
  split; [discriminate|].
  apply (trim_idempotent Samples.three_exchanges 2). discriminate.
Defined.

End TrimProperties.

(** ** What [extract_value_from_history] returns *)

Section ExtractionProperties.
Import PyString History.

Lemma lower_char_idempotent (c : ascii) :
  lower_char (lower_char c) = lower_char c.
Proof.
  destruct c as [[|] [|] [|] [|] [|] [|] [|] [|]]; reflexivity.
Qed.

Lemma lower_idempotent (s : string) : lower (lower s) = lower s.
Proof.
  unfold lower. induction s as [|c s IH]; simpl; [reflexivity|].
  rewrite lower_char_idempotent, IH. reflexivity.
Qed.

Lemma lower_append (a b : string) : lower (a +:+ b) = lower a +:+ lower b.
Proof.
  unfold lower. induction a as [|c a IH]; [reflexivity|].
  rewrite append_String. simpl. rewrite IH. reflexivity.
Qed.

Lemma lower_length (s : string) : String.length (lower s) = String.length s.
Proof.
  unfold lower. induction s as [|c s IH]; simpl; [reflexivity|].
  rewrite IH. reflexivity.
Qed.

(** The parts of a lower-case string are lower-case. *)
Lemma lower_parts (a b : string) :
  lower (a +:+ b) = a +:+ b -> lower a = a /\ lower b = b.
Proof.
  rewrite lower_append. intros H.
  apply append_same_length; [exact H|apply lower_length].
Qed.

Lemma lstrip_suffix (s : string) : exists pre, s = pre +:+ lstrip s.
Proof.
  induction s as [|c s [pre IH]]; simpl.
  - exists EmptyString. reflexivity.
  - destruct (is_space c).
    + exists (String c pre). rewrite append_String, <- IH. reflexivity.
    + exists EmptyString. reflexivity.
Qed.

Lemma rstrip_prefix (s : string) : exists post, s = rstrip s +:+ post.
Proof.
  induction s as [|c s [post IH]]; simpl.
  - exists EmptyString. reflexivity.
  - destruct (is_space c && negb (nonempty (rstrip s)))%bool.
    + exists (String c s). reflexivity.
    + exists post. rewrite append_String, <- IH. reflexivity.
Qed.

Lemma lower_strip (s : string) : lower s = s -> lower (strip s) = strip s.
Proof.
  intros H. unfold strip.
  destruct (lstrip_suffix s) as [pre Hl].
  destruct (rstrip_prefix (lstrip s)) as [post Hr].
  rewrite Hl in H. apply lower_parts in H as [_ H].
  rewrite Hr in H. apply lower_parts in H as [H _]. exact H.
Qed.

Lemma rstrip_idempotent (s : string) : rstrip (rstrip s) = rstrip s.
Proof.
  induction s as [|c s IH]; simpl; [reflexivity|].
  destruct (is_space c && negb (nonempty (rstrip s)))%bool eqn:E;
    [reflexivity|].
  simpl. rewrite IH, E. reflexivity.
Qed.

(** A string that does not open with white space keeps its first
    character under [rstrip], so [lstrip] has nothing to take from the
    result. *)
Lemma lstrip_rstrip_lstrip (s : string) :
  lstrip (rstrip (lstrip s)) = rstrip (lstrip s).
Proof.
  induction s as [|c s IH]; simpl; [reflexivity|].
  destruct (is_space c) eqn:E; [exact IH|].
  simpl. rewrite E. simpl. rewrite E. reflexivity.
Qed.

Lemma strip_idempotent (s : string) : strip (strip s) = strip s.
Proof.
  unfold strip. rewrite lstrip_rstrip_lstrip. apply rstrip_idempotent.
Qed.

Lemma scan_result (p : string) (items : list Content) (t : string) :
  scan p items = Ok (Some t) ->
  exists item rest,
    item ∈ items /\ History.is_user item = true
    /\ split_after p (turn_content item) = Some rest
    /\ t = strip rest /\ nonempty t = true.
Proof.
  induction items as [|item items IH]; simpl; [discriminate|].
  assert (Hlater : scan p items = Ok (Some t) ->
                   exists item0 rest,
                     item0 ∈ item :: items /\ History.is_user item0 = true
                     /\ split_after p (turn_content item0) = Some rest
                     /\ t = strip rest /\ nonempty t = true).
  { intros H. destruct (IH H) as (i & r & Hin & Hrest).
    exists i, r. split; [right; exact Hin|exact Hrest]. }
  destruct (History.is_user item) eqn:Hu; simpl; [|exact Hlater].
  destruct (nonempty (turn_content item)); simpl; [|exact Hlater].
  destruct (split_after p (turn_content item)) as [rest|] eqn:Hs;
    [|exact Hlater].
  destruct (nonempty p); simpl; [|discriminate].
  destruct (nonempty (strip rest)) eqn:Hn; [|exact Hlater].
  intros [= <-]. exists item, rest. repeat split; auto. left.
Qed.

Lemma turn_content_lower (item : Content) :
  lower (turn_content item) = turn_content item.
Proof. unfold turn_content. apply lower_idempotent. Qed.

(** X6: a value inferred from the history is never empty, has no white
    space around it, and is in lower case whatever the user typed. *)
Theorem inferred_value_shape (param : string) (history : list Content)
    (t : string) :
  extract_value_from_history param history = Ok (Some t) ->
  t <> EmptyString /\ strip t = t /\ lower t = t.
Proof.
  unfold extract_value_from_history. intros H.
  apply scan_result in H as (item & rest & _ & _ & Hs & -> & Hn).
  split; [apply nonempty_true, Hn|]. split; [apply strip_idempotent|].
  apply lower_strip.
  destruct (split_after_Some _ _ _ Hs) as (pre & Hc & _).
  pose proof (turn_content_lower item) as Hl. rewrite Hc in Hl.
  apply lower_parts in Hl as [_ Hl]. apply lower_parts in Hl as [_ Hl].
  exact Hl.
Qed.

Lemma inferred_value_shape_witness :
  extract_value_from_history "location"
    [Demo.user_turn "My LOCATION is  Rome, Italy  "]
  = Ok (Some "is  rome, italy")
  /\ "is  rome, italy" <> EmptyString
  /\ strip "is  rome, italy" = "is  rome, italy"
  /\ lower "is  rome, italy" = "is  rome, italy".
Proof.
  assert (H : extract_value_from_history "location"
                [Demo.user_turn "My LOCATION is  Rome, Italy  "]
              = Ok (Some "is  rome, italy")) by (vm_compute; reflexivity).
  split; [exact H|].
  exact (inferred_value_shape _ _ _ H).
Defined.

Lemma scan_users_only (p : string) (items : list Content) :
  scan p (List.filter is_user items) = scan p items.
Proof.
  induction items as [|item items IH]; [reflexivity|].
  simpl. destruct (is_user item) eqn:Hu; simpl; [|exact IH].
  rewrite Hu, IH. reflexivity.
Qed.

Lemma filter_rev_commute {A : Type} (f : A -> bool) (l : list A) :
  List.filter f (rev l) = rev (List.filter f l).
Proof.
  induction l as [|x l IH]; [reflexivity|].
  simpl. rewrite List.filter_app, IH. simpl.
  destruct (f x); simpl; [reflexivity|apply app_nil_r].
Qed.

(** X7: only the user turns of the history count: the turns of the model,
    function calls and responses included, can be taken out without
    changing what is inferred, or raised. *)
Theorem extraction_reads_user_turns_only (param : string)
    (history : list Content) :
  extract_value_from_history param (List.filter is_user history)
  = extract_value_from_history param history.
Proof.
  unfold extract_value_from_history.
  rewrite <- filter_rev_commute. apply scan_users_only.
Qed.

Lemma scan_empty_name (items : list Content) :
  scan EmptyString items
  = if existsb (fun item =>
                  (is_user item && nonempty (turn_content item))%bool) items
    then Raise (ValueError "empty separator")
    else Ok None.
Proof.
  induction items as [|item items IH]; [reflexivity|].
  simpl. destruct (is_user item); simpl; [|exact IH].
  destruct (turn_content item) as [|c s] eqn:E; simpl; [exact IH|].
  reflexivity.
Qed.

Lemma existsb_reverse {A : Type} (f : A -> bool) (l : list A) :
  existsb f (rev l) = existsb f l.
Proof.
  induction l as [|x l IH]; [reflexivity|].
  simpl. rewrite existsb_app, IH. simpl.
  rewrite orb_false_r. apply orb_comm.
Qed.

(** X8: for a parameter whose name is the empty string the extraction
    raises [ValueError] as soon as some user turn has text, and finds
    nothing otherwise. *)
Theorem extraction_of_empty_name (history : list Content) :
  extract_value_from_history EmptyString history
  = if existsb (fun item =>
                  (is_user item && nonempty (turn_content item))%bool)
         history
    then Raise (ValueError "empty separator")
    else Ok None.
Proof.
  unfold extract_value_from_history. simpl lower.
  rewrite scan_empty_name, existsb_reverse. reflexivity.
Qed.

End ExtractionProperties.

(** ** What the converter builds *)

Section ConverterProperties.
Import Registry.
Local Open Scope list_scope.

Lemma with_payload_fields (items : list (string * pyval))
    (base tool : tool_def) :
  td_api_url base = None ->
  td_prompt_template base = None ->
  td_response_text base = None ->
  with_payload items base = Ok tool ->
  td_tool_name tool = td_tool_name base
  /\ td_type tool = td_type base
  /\ td_parameters tool = td_parameters base
  /\ (td_type tool = "api" -> is_Some (td_api_url tool))
  /\ (td_type tool = "prompt" -> is_Some (td_prompt_template tool))
  /\ (td_type tool <> "api" -> td_api_url tool = None)
  /\ (is_Some (td_prompt_template tool) -> td_response_text tool = None).
Proof.
  intros Hu Hp Ht. unfold with_payload. cbv zeta.
  assert (Hnone : forall A, @is_Some A None -> False)
    by (intros A [x Hx]; discriminate).
  destruct (String.eqb_spec (td_type base) "api") as [A|A].
  { destruct (as_text _ _) as [u|e]; [|discriminate].
    destruct (text_if_true _ (get items "method")) as [m|e];
      [|discriminate].
    destruct (text_if_true _ (get items "geocoding_url")) as [g|e];
      [|discriminate].
    simpl. intros [= <-]. simpl. repeat split; eauto; congruence. }
  destruct (String.eqb_spec (td_type base) "prompt") as [P|P].
  { destruct (sub_placeholders _) as [t|e]; [|discriminate].
    simpl. intros [= <-]. simpl. repeat split; eauto; congruence. }
  destruct (String.eqb_spec (td_type base) "static") as [S|S].
  { destruct (dict_lookup items "response_text") as [v|].
    - destruct (as_text _ v) as [t|e]; [|discriminate].
      simpl. intros [= <-]. simpl.
      repeat split; eauto; try congruence.
      intros H. destruct (Hnone _ H).
    - destruct (dict_lookup items "response_prompt") as [v|].
      + destruct (sub_placeholders v) as [t|e]; [|discriminate].
        simpl. intros [= <-]. simpl. repeat split; eauto; congruence.
      + intros [= <-]. rewrite Hu, Hp, Ht.
        repeat split; eauto; congruence. }
  intros [= <-]. rewrite Hu, Hp, Ht. repeat split; eauto; congruence.
Qed.

(** What is known of an entry the converter has built. *)
Lemma tool_entry_Ok (i : pyval) (tool : tool_def) :
  tool_entry i = Ok tool ->
  exists items,
    i = PyDict items
    /\ tool_key i = Ok (td_tool_name tool)
    /\ infer_type items = Ok (td_type tool)
    /\ build_parameters (get_or items "input_parameters" (PyList []))
       = Ok (td_parameters tool)
    /\ (td_type tool = "api" -> is_Some (td_api_url tool))
    /\ (td_type tool = "prompt" -> is_Some (td_prompt_template tool))
    /\ (td_type tool <> "api" -> td_api_url tool = None)
    /\ (is_Some (td_prompt_template tool) -> td_response_text tool = None).
Proof.
  destruct i as [ | b | z | t | l | items]; try discriminate.
  unfold tool_entry.
  destruct (tool_key (PyDict items)) as [key|e] eqn:Hk; [|discriminate].
  destruct (infer_type items) as [tool_type|e] eqn:Hi; [|discriminate].
  destruct (build_parameters _) as [schema|e] eqn:Hb; [|discriminate].
  destruct (describe items) as [description|e]; [|discriminate].
  simpl. intros H.
  apply with_payload_fields in H as (Hn & Hty & Hpa & H);
    try reflexivity.
  simpl in Hn, Hty, Hpa. exists items.
  split; [reflexivity|]. split; [rewrite Hn; reflexivity|].
  split; [rewrite Hty; exact Hi|].
  split; [rewrite Hpa; exact Hb|exact H].
Qed.

Lemma convert_workflow_Ok (workflow_config : pyval)
    (registry : gmap string tool_def) :
  convert_workflow_to_user_tools workflow_config = Ok registry ->
  exists integrations,
    integrations_of workflow_config = Ok integrations
    /\ convert_integrations integrations = Ok registry.
Proof.
  unfold convert_workflow_to_user_tools.
  destruct (integrations_of workflow_config) as [integrations|e];
    [|discriminate].
  simpl. eauto.
Qed.

Lemma convert_lookup (workflow_config : pyval)
    (registry : gmap string tool_def) (key : string) (tool : tool_def) :
  convert_workflow_to_user_tools workflow_config = Ok registry ->
  registry !! key = Some tool ->
  exists integrations i,
    integrations_of workflow_config = Ok integrations
    /\ i ∈ integrations /\ tool_key i = Ok key /\ tool_entry i = Ok tool.
Proof.
  intros H Hl. apply convert_workflow_Ok in H as (integrations & Hi & Hc).
  apply (convert_integrations_lookup _ _ Hc) in Hl
    as (earlier & i & later & -> & Hk & He & _).
  exists (earlier ++ i :: later), i. repeat split; auto.
  apply elem_of_app. right. left.
Qed.

(** X9: the registry holds nothing but converted descriptors, each under
    the name it carries, so the names declared to the model are the keys
    [execute_tool_calls] looks up. *)
Theorem registry_keyed_by_tool_name (workflow_config : pyval)
    (registry : gmap string tool_def) (key : string) (tool : tool_def) :
  convert_workflow_to_user_tools workflow_config = Ok registry ->
  registry !! key = Some tool ->
  td_tool_name tool = key
  /\ exists integrations i,
      integrations_of workflow_config = Ok integrations
      /\ i ∈ integrations /\ tool_key i = Ok key /\ tool_entry i = Ok tool.
Proof.
  intros H Hl.
  destruct (convert_lookup _ _ _ _ H Hl) as (integrations & i & Hi & Hin
                                             & Hk & He).
  split; [|eauto 6].
  apply tool_entry_Ok in He as (items & _ & Hk' & _). congruence.
Qed.

Lemma registry_keyed_by_tool_name_witness :
  convert_workflow_to_user_tools Demo.WORKFLOW_CONFIG = Ok Demo.USER_TOOLS
  /\ Demo.USER_TOOLS !! "crypto_api" = Some (Demo.entry Demo.crypto_api)
  /\ td_tool_name (Demo.entry Demo.crypto_api) = "crypto_api".
Proof.
  assert (H : convert_workflow_to_user_tools Demo.WORKFLOW_CONFIG
              = Ok Demo.USER_TOOLS) by (vm_compute; reflexivity).
  assert (Hl : Demo.USER_TOOLS !! "crypto_api"
               = Some (Demo.entry Demo.crypto_api))
    by (vm_compute; reflexivity).
  split; [exact H|]. split; [exact Hl|].
  exact (proj1 (registry_keyed_by_tool_name _ _ _ _ H Hl)).
Defined.

(** X10: in a registry built by the converter every api tool has a URL
    template and every prompt tool a prompt template, so neither
    [tool["api_url"]] nor [tool["prompt_template"]] can fail in the
    engine; no other tool has a URL, and no tool has both a template and a
    fixed text. *)
Theorem registry_payloads (workflow_config : pyval)
    (registry : gmap string tool_def) (key : string) (tool : tool_def) :
  convert_workflow_to_user_tools workflow_config = Ok registry ->
  registry !! key = Some tool ->
  (td_type tool = "api" -> is_Some (td_api_url tool))
  /\ (td_type tool = "prompt" -> is_Some (td_prompt_template tool))
  /\ (td_type tool <> "api" -> td_api_url tool = None)
  /\ (is_Some (td_prompt_template tool) -> td_response_text tool = None).
Proof.
  intros H Hl.
  destruct (convert_lookup _ _ _ _ H Hl) as (integrations & i & _ & _
                                             & _ & He).
  apply tool_entry_Ok in He as (items & _ & _ & _ & _ & Hp). exact Hp.
Qed.

Lemma registry_payloads_witness :
  convert_workflow_to_user_tools Demo.WORKFLOW_CONFIG = Ok Demo.USER_TOOLS
  /\ Demo.USER_TOOLS !! "motivation_tool"
     = Some (Demo.entry Demo.motivation_tool)
  /\ (td_type (Demo.entry Demo.motivation_tool) = "prompt" ->
      is_Some (td_prompt_template (Demo.entry Demo.motivation_tool))).
Proof.
  assert (H : convert_workflow_to_user_tools Demo.WORKFLOW_CONFIG
              = Ok Demo.USER_TOOLS) by (vm_compute; reflexivity).
  assert (Hl : Demo.USER_TOOLS !! "motivation_tool"
               = Some (Demo.entry Demo.motivation_tool))
    by (vm_compute; reflexivity).
  split; [exact H|]. split; [exact Hl|].
  exact (proj1 (proj2 (registry_payloads _ _ _ _ H Hl))).
Defined.

Lemma add_parameter_Ok (acc acc' : gmap string property_schema * list string)
    (p : pyval) :
  add_parameter acc p = Ok acc' ->
  exists props,
    fst acc' = <[parameter_name p := props]> (fst acc)
    /\ snd acc' = snd acc ++ (if is_required p then [parameter_name p]
                              else []).
Proof.
  destruct p as [ | b | z | t | l | fields]; try discriminate.
  unfold add_parameter, parameter_name, is_required. cbv zeta.
  destruct (get_or fields "name" (PyStr EmptyString))
    as [ | b | z | name | l | l]; try discriminate.
  intros [= <-]. simpl. eexists. split; [reflexivity|].
  destruct (truthy _); [reflexivity|]. rewrite app_nil_r. reflexivity.
Qed.

Lemma add_parameters_Ok (l : list pyval) :
  forall acc,
    add_parameters l = Ok acc ->
    snd acc = map parameter_name (List.filter is_required l)
    /\ forall p, p ∈ l -> is_Some (fst acc !! parameter_name p).
Proof.
  induction l as [|q l IH] using rev_ind; intros acc.
  - intros [= <-]. split; [reflexivity|]. intros p Hp. inversion Hp.
  - rewrite add_parameters_snoc.
    destruct (add_parameters l) as [acc0|e]; [|discriminate].
    simpl. intros H. apply add_parameter_Ok in H as (props & Hf & Hs).
    destruct (IH acc0 eq_refl) as [Hr Hp]. split.
    + rewrite Hs, Hr, List.filter_app, map_app. simpl.
      destruct (is_required q); reflexivity.
    + intros p Hin. rewrite Hf.
      destruct (decide (parameter_name q = parameter_name p)) as [E|E].
      * rewrite E, lookup_insert_eq. eauto.
      * rewrite lookup_insert_ne by exact E. apply Hp.
        apply elem_of_app in Hin as [Hin|Hin]; [exact Hin|].
        apply list_elem_of_singleton in Hin. subst. contradiction.
Qed.

(** X11: the required parameters of a converted tool are the names of the
    descriptors flagged required, in the order of the descriptor list, and
    every parameter of the list has its schema under its name. *)
Theorem converted_parameters (i : pyval) (tool : tool_def) :
  tool_entry i = Ok tool ->
  exists items params,
    i = PyDict items
    /\ py_iter (get_or items "input_parameters" (PyList [])) = Ok params
    /\ required_of tool
       = map parameter_name (List.filter is_required params)
    /\ forall p,
        p ∈ params ->
        is_Some (properties (td_parameters tool) !! parameter_name p).
Proof.
  intros H. apply tool_entry_Ok in H as (items & -> & _ & _ & Hb & _).
  exists items. unfold build_parameters in Hb.
  destruct (py_iter _) as [params|e]; [|discriminate].
  exists params. simpl in Hb.
  destruct (add_parameters params) as [acc|e] eqn:E; [|discriminate].
  injection Hb as Hb. destruct (add_parameters_Ok _ _ E) as [Hr Hp].
  split; [reflexivity|]. split; [reflexivity|].
  unfold required_of. rewrite <- Hb. simpl. split.
  - rewrite Hr.
    destruct (map parameter_name (List.filter is_required params));
      reflexivity.
  - exact Hp.
Qed.

Lemma converted_parameters_witness :
  tool_entry Demo.forecast_api = Ok (Demo.entry Demo.forecast_api)
  /\ required_of (Demo.entry Demo.forecast_api) = ["location"]
  /\ is_Some (properties (td_parameters (Demo.entry Demo.forecast_api))
                !! "unit").
Proof.
  assert (H : tool_entry Demo.forecast_api
              = Ok (Demo.entry Demo.forecast_api))
    by (vm_compute; reflexivity).
  split; [exact H|].
  destruct (converted_parameters _ _ H) as (items & params & E & Hi & Hr & Hp).
  injection E as <-. injection Hi as <-.
  split; [exact Hr|].
  apply (Hp (Demo.optional_string "unit" "Temperature unit")).
  right. left.
Defined.

End ConverterProperties.

(** ** Templates, from the frontend's syntax to the formatted text *)

Section TemplateProperties.
Import PyString PyFormat Registry Template.

Ltac each_char c :=
  destruct c as [[|] [|] [|] [|] [|] [|] [|] [|]].

Lemma resub_other (c : ascii) (s : string) :
  Ascii.eqb c "{" = false -> resub 0 (String c s) = String c (resub 0 s).
Proof. each_char c; intros H; try discriminate H; reflexivity. Qed.

Lemma resub_literal (t s : string) :
  any_char is_brace t = false -> resub 0 (t +:+ s) = t +:+ resub 0 s.
Proof.
  induction t as [|c t IH]; intros H; [reflexivity|].
  simpl in H. apply orb_false_iff in H as [Hc Ht].
  apply orb_false_iff in Hc as [Hc _].
  rewrite !append_String, (resub_other _ _ Hc), (IH Ht). reflexivity.
Qed.

Lemma span_word_stops (w s : string) :
  all_chars is_word w = true ->
  span_word (w +:+ String "}" s) = (w, String "}" s).
Proof.
  induction w as [|c w IH]; intros H; [reflexivity|].
  simpl in H. apply andb_true_iff in H as [Hc Hw].
  rewrite append_String. cbn [span_word]. rewrite Hc, (IH Hw). reflexivity.
Qed.

Lemma resub_skip (u s : string) :
  resub (String.length u) (u +:+ s) = resub 0 s.
Proof.
  induction u as [|c u IH]; [reflexivity|].
  rewrite append_String. simpl. exact IH.
Qed.

Lemma append_length (a b : string) :
  String.length (a +:+ b) = (String.length a + String.length b)%nat.
Proof.
  induction a as [|c a IH]; [reflexivity|].
  rewrite append_String. simpl. rewrite IH. reflexivity.
Qed.

Lemma append_assoc (a b c : string) : (a +:+ b) +:+ c = a +:+ b +:+ c.
Proof.
  induction a as [|x a IH]; [reflexivity|].
  rewrite !append_String, IH. reflexivity.
Qed.

Lemma resub_placeholder (w s : string) :
  nonempty w = true -> all_chars is_word w = true ->
  resub 0 ("{{" +:+ w +:+ "}}" +:+ s) = "{" +:+ w +:+ "}" +:+ resub 0 s.
Proof.
  intros Hn Hw.
  change ("{{" +:+ w +:+ "}}" +:+ s)
    with (String "{" (String "{" (w +:+ String "}" (String "}" s)))).
  assert (Hm : match_placeholder
                 (String "{" (String "{" (w +:+ String "}" (String "}" s))))
               = Some w).
  { unfold match_placeholder. rewrite (span_word_stops _ _ Hw).
    destruct w; [discriminate|reflexivity]. }
  assert (E : resub (String.length w + 3)
                (String "{" (w +:+ String "}" (String "}" s)))
              = resub 0 s).
  { replace (String "{" (w +:+ String "}" (String "}" s)))
      with ((String "{" (w +:+ "}}")) +:+ s)
      by (rewrite append_String, append_assoc; reflexivity).
    replace (String.length w + 3)%nat
      with (String.length (String "{" (w +:+ "}}")))
      by (simpl; rewrite append_length; simpl; lia).
    apply resub_skip. }
  change (resub 0 (String "{" (String "{" (w +:+ String "}" (String "}" s)))))
    with (match match_placeholder
                  (String "{" (String "{" (w +:+ String "}" (String "}" s))))
          with
          | Some w0 =>
              "{" +:+ w0 +:+ "}"
              +:+ resub (String.length w0 + 3)
                    (String "{" (w +:+ String "}" (String "}" s)))
          | None =>
              String "{"
                (resub 0 (String "{" (w +:+ String "}" (String "}" s))))
          end).
  rewrite Hm, E. reflexivity.
Qed.

Lemma fmt_other (kw : gmap string pyval) (c : ascii) (s : string) :
  is_brace c = false ->
  fmt kw None (String c s) = cons_char c (fmt kw None s).
Proof. each_char c; intros H; try discriminate H; reflexivity. Qed.

Lemma fmt_literal (kw : gmap string pyval) (t s : string) :
  any_char is_brace t = false ->
  fmt kw None (t +:+ s) = obind (fmt kw None s) (fun r => Ok (t +:+ r)).
Proof.
  induction t as [|c t IH]; intros H.
  - rewrite append_empty. destruct (fmt kw None s); reflexivity.
  - simpl in H. apply orb_false_iff in H as [Hc Ht].
    rewrite append_String, (fmt_other _ _ _ Hc), (IH Ht).
    unfold cons_char. destruct (fmt kw None s); reflexivity.
Qed.

Lemma fmt_field_char (kw : gmap string pyval) (f : string) (c : ascii)
    (s : string) :
  is_word c = true ->
  fmt kw (Some f) (String c s) = fmt kw (Some (f +:+ String c EmptyString)) s.
Proof. each_char c; intros H; try discriminate H; reflexivity. Qed.

Lemma fmt_field_name (kw : gmap string pyval) (w : string) :
  all_chars is_word w = true ->
  forall f s,
    fmt kw (Some f) (w +:+ String "}" s)
    = obind (render_field kw (f +:+ w))
        (fun v => obind (fmt kw None s) (fun t => Ok (v +:+ t))).
Proof.
  induction w as [|c w IH]; intros H f s.
  - replace (f +:+ EmptyString) with f; [reflexivity|].
    clear. induction f as [|x f IH]; [reflexivity|].
    rewrite append_String, <- IH. reflexivity.
  - simpl in H. apply andb_true_iff in H as [Hc Hw].
    rewrite append_String, (fmt_field_char _ _ _ _ Hc), (IH Hw).
    rewrite append_assoc. reflexivity.
Qed.

Lemma fmt_open_field (kw : gmap string pyval) (c : ascii) (s : string) :
  is_word c = true ->
  fmt kw None (String "{" (String c s)) = fmt kw (Some EmptyString) (String c s).
Proof. each_char c; intros H; try discriminate H; reflexivity. Qed.

Lemma word_not_special (c : ascii) : is_word c = true -> special c = false.
Proof. each_char c; intros H; try discriminate H; reflexivity. Qed.

Lemma word_name_not_special (w : string) :
  all_chars is_word w = true -> any_char special w = false.
Proof.
  induction w as [|c w IH]; simpl; [reflexivity|].
  intros H. apply andb_true_iff in H as [Hc Hw].
  rewrite (word_not_special _ Hc), (IH Hw). reflexivity.
Qed.

Lemma fmt_placeholder (kw : gmap string pyval) (w s : string) (v : pyval) :
  plain (Placeholder w) = true ->
  kw !! w = Some v ->
  fmt kw None ("{" +:+ w +:+ "}" +:+ s)
  = obind (py_str v) (fun a => obind (fmt kw None s) (fun t => Ok (a +:+ t))).
Proof.
  intros H Hv. simpl in H. apply andb_true_iff in H as [H Hd].
  apply andb_true_iff in H as [Hn Hw].
  change ("{" +:+ w +:+ "}" +:+ s) with (String "{" (w +:+ String "}" s)).
  destruct w as [|c w]; [discriminate|].
  pose proof Hw as Hw'. simpl in Hw'. apply andb_true_iff in Hw' as [Hc _].
  rewrite append_String, (fmt_open_field _ _ _ Hc), <- append_String.
  rewrite (fmt_field_name _ _ Hw). rewrite append_empty.
  unfold render_field. rewrite Hn, (word_name_not_special _ Hw).
  simpl negb. cbv iota.
  apply negb_true_iff in Hd. rewrite Hd, Hv. reflexivity.
Qed.

(** X12: a template written in the frontend's syntax, with brace-free
    literal text and placeholders named by words, once converted by the
    registry and formatted by the engine, is the template with every
    placeholder replaced by the text of its argument. *)
Theorem converted_template_is_filled (kw : gmap string pyval)
    (segments : list segment) (out : string) :
  Forall (fun s => plain s = true) segments ->
  filled_text kw segments = Some out ->
  PyFormat.format (convert_placeholders (frontend_text segments)) kw
  = Ok out.
Proof.
  unfold PyFormat.format, convert_placeholders.
  intros Hp. revert out.
  induction Hp as [|seg rest Hs _ IH]; intros out; simpl.
  - intros [= <-]. reflexivity.
  - destruct seg as [t|w].
    + destruct (filled_text kw rest) as [r|]; [|discriminate].
      intros [= <-]. simpl in Hs. apply negb_true_iff in Hs.
      rewrite (resub_literal _ _ Hs), (fmt_literal _ _ _ Hs), (IH r eq_refl).
      reflexivity.
    + destruct (kw !! w) as [v|] eqn:Hv; [|discriminate].
      destruct (filled_text kw rest) as [r|]; [|discriminate].
      destruct (py_str v) as [a|e] eqn:Ha; [|discriminate].
      intros [= <-].
      pose proof Hs as Hs'. simpl in Hs'.
      apply andb_true_iff in Hs' as [Hs' _].
      apply andb_true_iff in Hs' as [Hn Hw].
      rewrite (resub_placeholder _ _ Hn Hw).
      rewrite (fmt_placeholder _ _ _ _ Hs Hv), Ha, (IH r eq_refl).
      reflexivity.
Qed.

Lemma converted_template_is_filled_witness :
  let segments :=
    [ Literal "Okay, a "; Placeholder "duration_minutes";
      Literal " minute meeting with "; Placeholder "attendee_email";
      Literal "." ] in
  Forall (fun s => plain s = true) segments
  /\ filled_text Demo.meeting_args segments
     = Some "Okay, a 30 minute meeting with ann@example.org."
  /\ PyFormat.format (convert_placeholders (frontend_text segments))
       Demo.meeting_args
     = Ok "Okay, a 30 minute meeting with ann@example.org.".
Proof.
  intros segments.
  assert (H1 : Forall (fun s => plain s = true) segments)
    by (repeat constructor).
  assert (H2 : filled_text Demo.meeting_args segments
               = Some "Okay, a 30 minute meeting with ann@example.org.")
    by (vm_compute; reflexivity).
  split; [exact H1|]. split; [exact H2|].
  exact (converted_template_is_filled _ _ _ H1 H2).
Defined.

End TemplateProperties.

(** ** More on the loop over the tool calls *)

Section BatchProperties.

Variables Json RagResult : Type.
Variable http_send :
  list event -> string -> string -> option (gmap string pyval) ->
  http_reply Json.
Variable generate_content :
  list event -> string -> string -> outcome (option string).
Variable run_rag : list event -> string -> RagResult.
Variable USER_TOOLS : gmap string tool_def.

Variables (history : list Content) (user_input : string).

Local Abbreviation dispatch_ :=
  (dispatch http_send generate_content run_rag user_input).
Local Abbreviation process_ :=
  (process_call http_send generate_content run_rag USER_TOOLS history
     user_input).
Local Abbreviation run_calls_ :=
  (run_calls http_send generate_content run_rag USER_TOOLS history
     user_input).
Local Abbreviation execute_batch_ :=
  (execute_batch http_send generate_content run_rag USER_TOOLS).
Local Abbreviation execute_ :=
  (execute_tool_calls http_send generate_content run_rag USER_TOOLS).
Local Abbreviation missing_of_ := (missing_of USER_TOOLS history).
Local Abbreviation has_missing_ := (has_missing USER_TOOLS history).
Local Abbreviation executed_entry_ := (executed_entry USER_TOOLS history).
Local Abbreviation run_calls_cons_ :=
  (run_calls_cons Json RagResult http_send generate_content run_rag
     USER_TOOLS history user_input).
Local Abbreviation process_call_known_ :=
  (process_call_known Json RagResult http_send generate_content run_rag
     USER_TOOLS history user_input).
Local Abbreviation process_call_unknown_ :=
  (process_call_unknown Json RagResult http_send generate_content run_rag
     USER_TOOLS history user_input).
Local Abbreviation execute_tool_calls_batch_ :=
  (execute_tool_calls_batch Json RagResult http_send generate_content
     run_rag USER_TOOLS history user_input).

Ltac monadic := unfold bind, ret, lift, external in *.

Ltac split_match :=
  match goal with
  | |- context [if ?b then _ else _] => destruct b eqn:?
  | |- context [match ?x with _ => _ end] => destruct x eqn:?
  end.

Lemma run_calls_unknown (calls : list function_call) :
  Forall (fun fc => USER_TOOLS !! fc_name fc = None) calls ->
  forall (st : loop_state Json) (tr : list event),
  exists st',
    run_calls_ st calls tr = (Ok (Continue st'), tr)
    /\ pending_params st' = pending_params st
    /\ summary_items st' = summary_items st
    /\ static_texts st' = static_texts st.
Proof.
  induction 1 as [|fc calls Hfc _ IH]; intros st tr.
  - exists st. repeat split.
  - rewrite run_calls_cons_, (process_call_unknown_ _ _ _ Hfc).
    destruct (IH (clear_all_static st) tr) as (st' & Hr & Hp & Hs & Ht).
    exists st'. repeat split; assumption.
Qed.

(** X13: a batch in which no call names a registered tool returns [None]
    and makes no outside call. *)
Theorem unknown_batch_returns_none (response : Response)
    (tr0 : list event) :
  Forall (fun fc => USER_TOOLS !! fc_name fc = None)
    (tool_calls_of response) ->
  execute_ response history user_input tr0 = (Ok None, tr0).
Proof.
  intros H. rewrite execute_tool_calls_batch_.
  destruct (tool_calls_of response) as [|fc calls] eqn:E; [reflexivity|].
  destruct (run_calls_unknown _ H initial_state tr0)
    as (st & Hr & Hp & Hs & Ht).
  unfold execute_batch. monadic. rewrite Hr.
  unfold aggregate. rewrite Hp, Hs, Ht. simpl.
  rewrite andb_false_r. reflexivity.
Qed.

Lemma call_custom_api_trace (tool : tool_def) (args : gmap string pyval)
    (tr : list event) :
  snd (call_custom_api http_send tool args tr) = tr
  \/ exists ev, snd (call_custom_api http_send tool args tr)
                = (tr ++ [ev])%list.
Proof.
  unfold call_custom_api, subscript. monadic.
  destruct (td_api_url tool) as [template|]; [|left; reflexivity].
  destruct (PyFormat.format template args) as [url|e]; [|left; reflexivity].
  right. destruct (String.eqb _ "GET"); [|destruct (String.eqb _ "POST")];
    eexists; reflexivity.
Qed.

Lemma handle_prompt_tool_trace (tool : tool_def) (args : gmap string pyval)
    (tr : list event) :
  snd (handle_prompt_tool generate_content tool args tr) = tr
  \/ exists ev, snd (handle_prompt_tool generate_content tool args tr)
                = (tr ++ [ev])%list.
Proof.
  unfold handle_prompt_tool, subscript. monadic.
  destruct (td_prompt_template tool) as [template|]; [|left; reflexivity].
  destruct (PyFormat.format template args) as [prompt|e];
    [|left; reflexivity].
  right. destruct (generate_content tr SUMMARY_MODEL_NAME prompt);
    eexists; reflexivity.
Qed.

Lemma dispatch_trace (tool_name : string) (tool : tool_def)
    (final_args : gmap string pyval) (st : loop_state Json)
    (tr : list event) :
  snd (dispatch_ tool_name tool final_args st tr) = tr
  \/ exists ev, snd (dispatch_ tool_name tool final_args st tr)
                = (tr ++ [ev])%list.
Proof.
  unfold dispatch.
  destruct (String.eqb (td_type tool) "api").
  { pose proof (call_custom_api_trace tool final_args tr) as H. monadic.
    destruct (call_custom_api http_send tool final_args tr) as [[c|e] tr'];
      exact H. }
  destruct (String.eqb (td_type tool) "prompt").
  { pose proof (handle_prompt_tool_trace tool final_args tr) as H. monadic.
    destruct (handle_prompt_tool generate_content tool final_args tr)
      as [[c|e] tr']; exact H. }
  destruct (String.eqb (td_type tool) "rag").
  { right. eexists. reflexivity. }
  destruct (String.eqb (td_type tool) "static"); [|left; reflexivity].
  monadic. destruct (static_text tool final_args); left; reflexivity.
Qed.

Lemma process_call_trace (st : loop_state Json) (fc : function_call)
    (tr : list event) :
  snd (process_ st fc tr) = tr
  \/ exists ev, snd (process_ st fc tr) = (tr ++ [ev])%list.
Proof.
  destruct (USER_TOOLS !! fc_name fc) as [tool|] eqn:Ht.
  - rewrite (process_call_known_ _ _ _ _ Ht).
    destruct (fill_required _ _ _ _ _) as [[fa [|p m]]|e]; simpl; auto.
    apply dispatch_trace.
  - rewrite (process_call_unknown_ _ _ _ Ht). auto.
Qed.

Lemma run_calls_trace (calls : list function_call) :
  forall (st : loop_state Json) (tr : list event),
  exists new,
    snd (run_calls_ st calls tr) = (tr ++ new)%list
    /\ (length new <= length calls)%nat.
Proof.
  induction calls as [|fc calls IH]; intros st tr.
  - exists []. simpl. rewrite app_nil_r. split; [reflexivity|lia].
  - rewrite run_calls_cons_.
    pose proof (process_call_trace st fc tr) as Hp.
    destruct (process_ st fc tr) as [[[st'|r]|e] tr'] eqn:E; simpl in Hp.
    + destruct (IH st' tr') as (new & Hn & Hl).
      destruct Hp as [->|[ev ->]].
      * exists new. split; [exact Hn|simpl; lia].
      * exists (ev :: new). rewrite Hn, <- app_assoc.
        split; [reflexivity|simpl; lia].
    + destruct Hp as [->|[ev ->]].
      * exists []. rewrite app_nil_r. split; [reflexivity|simpl; lia].
      * exists [ev]. split; [reflexivity|simpl; lia].
    + destruct Hp as [->|[ev ->]].
      * exists []. rewrite app_nil_r. split; [reflexivity|simpl; lia].
      * exists [ev]. split; [reflexivity|simpl; lia].
Qed.

(** X14: whatever a batch ends in, a result or an exception, the outside
    calls already made stay in the trace and at most one is added for each
    call of the batch. *)
Theorem one_outside_call_per_tool_call (response : Response)
    (tr0 : list event) :
  exists new,
    snd (execute_ response history user_input tr0) = (tr0 ++ new)%list
    /\ (length new <= length (tool_calls_of response))%nat.
Proof.
  rewrite execute_tool_calls_batch_.
  destruct (tool_calls_of response) as [|fc calls] eqn:E.
  - exists []. rewrite app_nil_r. split; [reflexivity|simpl; lia].
  - rewrite (execute_batch_trace Json RagResult http_send generate_content
               run_rag USER_TOOLS history user_input).
    apply run_calls_trace.
Qed.

(** *** What is entered in [summary_items] *)

Lemma static_contents_app (a b : list (summary_item Json)) :
  static_contents (a ++ b) = (static_contents a ++ static_contents b)%list.
Proof. unfold static_contents. apply omap_app. Qed.

Lemma dispatch_entry (tool_name : string) (tool : tool_def)
    (final_args : gmap string pyval) (st st1 : loop_state Json)
    (tr tr1 : list event) :
  dispatch_ tool_name tool final_args st tr = (Ok (Continue st1), tr1) ->
  exists item,
    summary_items st1 = (summary_items st ++ [item])%list
    /\ si_name item = tool_name /\ si_type item = td_type tool
    /\ static_texts st1 = (static_texts st ++ static_contents [item])%list.
Proof.
  assert (Hfin : forall (c : result_content Json),
             String.eqb (td_type tool) "static" = false ->
             exists item,
               summary_items
                 (append_summary
                    {| si_name := tool_name; si_type := td_type tool;
                       si_content := c |} st)
               = (summary_items st ++ [item])%list
               /\ si_name item = tool_name /\ si_type item = td_type tool
               /\ static_texts st
                  = (static_texts st ++ static_contents [item])%list).
  { intros c Hs. eexists. split; [reflexivity|].
    unfold static_contents. simpl. rewrite Hs, app_nil_r. repeat split. }
  unfold dispatch.
  destruct (String.eqb_spec (td_type tool) "api") as [A|A].
  { monadic.
    destruct (call_custom_api http_send tool final_args tr) as [[c|e] tr'];
      [|discriminate].
    intros [= <- _]. apply Hfin. rewrite A. reflexivity. }
  destruct (String.eqb_spec (td_type tool) "prompt") as [P|P].
  { monadic.
    destruct (handle_prompt_tool generate_content tool final_args tr)
      as [[c|e] tr']; [|discriminate].
    intros [= <- _]. apply Hfin. rewrite P. reflexivity. }
  destruct (String.eqb_spec (td_type tool) "rag") as [R|R].
  { monadic. discriminate. }
  destruct (String.eqb_spec (td_type tool) "static") as [S|S].
  - monadic. destruct (static_text tool final_args) as [t|e];
      [|discriminate].
    intros [= <- _]. eexists. split; [reflexivity|].
    unfold static_contents. simpl. rewrite S. repeat split.
  - monadic. intros [= <- _]. apply Hfin. reflexivity.
Qed.

Lemma process_call_entry (st st1 : loop_state Json) (fc : function_call)
    (tr tr1 : list event) :
  process_ st fc tr = (Ok (Continue st1), tr1) ->
  exists items,
    summary_items st1 = (summary_items st ++ items)%list
    /\ map (fun item => (si_name item, si_type item)) items
       = match executed_entry_ fc with Some e => [e] | None => [] end
    /\ static_texts st1 = (static_texts st ++ static_contents items)%list.
Proof.
  unfold executed_entry, has_missing, missing_of.
  destruct (USER_TOOLS !! fc_name fc) as [tool|] eqn:Ht.
  - rewrite (process_call_known_ _ _ _ _ Ht).
    destruct (fill_required _ _ _ _ _) as [[fa [|p m]]|e];
      [| |discriminate].
    + intros H. apply dispatch_entry in H as (item & Hs & Hn & Hty & Hst).
      rewrite summary_items_track in Hs. rewrite static_texts_track in Hst.
      exists [item]. split; [exact Hs|].
      split; [simpl; rewrite Hn, Hty; reflexivity|exact Hst].
    + intros [= <- _]. exists []. simpl.
      rewrite summary_items_track, static_texts_track, !app_nil_r.
      repeat split.
  - rewrite (process_call_unknown_ _ _ _ Ht). intros [= <- _].
    exists []. simpl. rewrite !app_nil_r. repeat split.
Qed.

Lemma run_calls_entries (calls : list function_call) :
  forall (st st' : loop_state Json) (tr tr' : list event),
    run_calls_ st calls tr = (Ok (Continue st'), tr') ->
    exists items,
      summary_items st' = (summary_items st ++ items)%list
      /\ map (fun item => (si_name item, si_type item)) items
         = omap executed_entry_ calls
      /\ static_texts st' = (static_texts st ++ static_contents items)%list.
Proof.
  induction calls as [|fc calls IH]; intros st st' tr tr'.
  - intros [= <- _]. exists []. simpl. rewrite !app_nil_r. repeat split.
  - rewrite run_calls_cons_.
    destruct (process_ st fc tr) as [[[st1|r]|e] tr1] eqn:E;
      try discriminate.
    intros H. apply IH in H as (rest & Hs & Hm & Ht).
    apply process_call_entry in E as (items & Hs1 & Hm1 & Ht1).
    exists (items ++ rest)%list.
    rewrite Hs, Hs1, Ht, Ht1, static_contents_app, map_app, Hm, Hm1.
    rewrite <- !app_assoc. repeat split.
    simpl. destruct (executed_entry_ fc); reflexivity.
Qed.

(** X15: when a batch ends in [mixed], its [summary_items] list, in call
    order, the calls that name a registered tool, each under the name
    called and the type of the tool, and nothing else. *)
Theorem mixed_lists_executed_calls (response : Response)
    (items : list (summary_item Json)) (tr0 tr : list event) :
  execute_ response history user_input tr0 = (Ok (Some (Mixed items)), tr) ->
  map (fun item => (si_name item, si_type item)) items
  = omap executed_entry_ (tool_calls_of response).
Proof.
  rewrite execute_tool_calls_batch_.
  destruct (tool_calls_of response) as [|fc calls] eqn:E; [discriminate|].
  unfold execute_batch. monadic.
  destruct (run_calls_ initial_state (fc :: calls) tr0)
    as [[[st|r]|e] tr1] eqn:Hr; try discriminate.
  - apply run_calls_entries in Hr as (found & Hs & Hm & _).
    simpl in Hs. unfold aggregate.
    repeat split_match; intros [= <- _] || discriminate.
    rewrite Hs. exact Hm.
  - intros [= -> _].
    apply (run_calls_return Json RagResult http_send generate_content
             run_rag USER_TOOLS history user_input) in Hr as [x Hx].
    discriminate.
Qed.

(** X16: the texts kept apart for a batch of static tools are those of the
    static entries of [summary_items], in the same order: what is joined
    for [static_only] is what would be handed on in [mixed]. *)
Theorem static_texts_are_static_entries (calls : list function_call)
    (st : loop_state Json) (tr tr' : list event) :
  run_calls_ initial_state calls tr = (Ok (Continue st), tr') ->
  static_texts st = static_contents (summary_items st).
Proof.
  intros H. apply run_calls_entries in H as (items & Hs & _ & Ht).
  rewrite Hs, Ht. reflexivity.
Qed.

(** *** Prompt tools *)

(** X17: a prompt tool makes one call, to the summary model, with the
    formatted template, and gives the text of the answer without white
    space around it, the empty string when the answer has no text. *)
Theorem prompt_tool_result (tool : tool_def) (args : gmap string pyval)
    (t : string) (tr tr' : list event) :
  handle_prompt_tool generate_content tool args tr = (Ok t, tr') ->
  exists template prompt answer,
    td_prompt_template tool = Some template
    /\ PyFormat.format template args = Ok prompt
    /\ generate_content tr SUMMARY_MODEL_NAME prompt = Ok answer
    /\ tr' = (tr ++ [EvGenerate SUMMARY_MODEL_NAME prompt])%list
    /\ t = PyString.strip (default EmptyString answer)
    /\ PyString.strip t = t.
Proof.
  unfold handle_prompt_tool, subscript. monadic.
  destruct (td_prompt_template tool) as [template|]; [|discriminate].
  destruct (PyFormat.format template args) as [prompt|e] eqn:F;
    [|discriminate].
  destruct (generate_content tr SUMMARY_MODEL_NAME prompt) as [answer|e]
    eqn:G; [|discriminate].
  intros [= <- <-]. exists template, prompt, answer.
  repeat split; auto. apply strip_idempotent.
Qed.

(** X18: a failure of the auxiliary model in a prompt tool is not caught:
    the exception leaves [execute_tool_calls] after the one request, and
    the calls that come later in the batch are not processed. *)
Theorem prompt_failure_aborts_batch (response : Response)
    (earlier later : list function_call) (fc : function_call)
    (tool : tool_def) (final_args : gmap string pyval)
    (template prompt : string) (e : exn)
    (st : loop_state Json) (tr0 tr1 : list event) :
  tool_calls_of response = (earlier ++ fc :: later)%list ->
  run_calls_ initial_state earlier tr0 = (Ok (Continue st), tr1) ->
  ready USER_TOOLS history fc tool final_args ->
  td_type tool = "prompt" ->
  td_prompt_template tool = Some template ->
  PyFormat.format template final_args = Ok prompt ->
  generate_content tr1 SUMMARY_MODEL_NAME prompt = Raise e ->
  execute_ response history user_input tr0
  = (Raise e, (tr1 ++ [EvGenerate SUMMARY_MODEL_NAME prompt])%list).
Proof.
  intros Hc Hrun Hr Hty Htpl Hfmt Hgen.
  rewrite execute_tool_calls_batch_, Hc.
  assert (E : run_calls_ initial_state (earlier ++ fc :: later) tr0
              = (Raise e,
                 (tr1 ++ [EvGenerate SUMMARY_MODEL_NAME prompt])%list)).
  { rewrite (run_calls_app Json RagResult http_send generate_content
               run_rag USER_TOOLS history user_input), Hrun.
    rewrite run_calls_cons_.
    rewrite (process_call_ready Json RagResult http_send generate_content
               run_rag USER_TOOLS history user_input _ _ _ _ _ Hr).
    unfold dispatch, handle_prompt_tool, subscript. rewrite Hty. simpl.
    monadic. rewrite Htpl, Hfmt, Hgen. reflexivity. }
  destruct (earlier ++ fc :: later)%list as [|c l] eqn:F.
  - destruct earlier; discriminate.
  - unfold execute_batch. monadic. rewrite E. reflexivity.
Qed.

(** *** Batches that end in [static_only] *)

Lemma process_call_all_static (st st1 : loop_state Json)
    (fc : function_call) (tr tr1 : list event) :
  process_ st fc tr = (Ok (Continue st1), tr1) ->
  all_static st1 = true ->
  all_static st = true
  /\ exists tool, USER_TOOLS !! fc_name fc = Some tool
                  /\ td_type tool = "static".
Proof.
  destruct (USER_TOOLS !! fc_name fc) as [tool|] eqn:Ht.
  - rewrite (process_call_known_ _ _ _ _ Ht).
    assert (Hts : all_static (track_static tool st) = true ->
                  all_static st = true /\ td_type tool = "static").
    { unfold track_static.
      destruct (String.eqb_spec (td_type tool) "static");
        [auto|discriminate]. }
    destruct (fill_required _ _ _ _ _) as [[fa [|p m]]|e];
      [| |discriminate].
    + intros H Ha.
      apply (dispatch_continue Json RagResult http_send generate_content
               run_rag user_input) in H as (_ & _ & _ & _ & _ & Hs).
      rewrite Hs in Ha. destruct (Hts Ha). eauto.
    + intros [= <- _] Ha. simpl in Ha. destruct (Hts Ha). eauto.
  - rewrite (process_call_unknown_ _ _ _ Ht). intros [= <- _]. discriminate.
Qed.

Lemma process_call_static_text (st st1 : loop_state Json)
    (fc : function_call) (tr tr1 : list event) :
  process_ st fc tr = (Ok (Continue st1), tr1) ->
  all_static st1 = true ->
  has_missing_ fc = false ->
  exists t,
    static_call USER_TOOLS history fc t
    /\ static_texts st1 = (static_texts st ++ [t])%list.
Proof.
  intros H Ha Hm.
  destruct (process_call_all_static _ _ _ _ _ H Ha)
    as (_ & tool & Ht & Hty).
  rewrite (process_call_known_ _ _ _ _ Ht) in H.
  unfold has_missing, missing_of in Hm. rewrite Ht in Hm.
  destruct (fill_required _ _ _ _ _) as [[fa [|p m]]|e] eqn:Hf;
    try discriminate.
  destruct (static_text tool fa) as [t|e] eqn:Hx.
  - rewrite (dispatch_static Json RagResult http_send generate_content
               run_rag user_input _ _ _ _ _ _ Hty Hx) in H.
    injection H as <- _. exists t. split.
    + exists tool, fa. repeat split; assumption.
    + simpl. rewrite static_texts_track. reflexivity.
  - unfold dispatch in H. rewrite Hty in H. simpl in H. monadic.
    rewrite Hx in H. discriminate.
Qed.

Lemma run_calls_all_static (calls : list function_call) :
  forall (st st' : loop_state Json) (tr tr' : list event),
    run_calls_ st calls tr = (Ok (Continue st'), tr') ->
    all_static st' = true ->
    (forall fc, fc ∈ calls -> has_missing_ fc = false) ->
    all_static st = true
    /\ exists texts,
        Forall2 (static_call USER_TOOLS history) calls texts
        /\ static_texts st' = (static_texts st ++ texts)%list.
Proof.
  induction calls as [|fc calls IH]; intros st st' tr tr'.
  - intros [= <- _] Ha _. split; [exact Ha|].
    exists []. rewrite app_nil_r. split; [constructor|reflexivity].
  - rewrite run_calls_cons_.
    destruct (process_ st fc tr) as [[[st1|r]|e] tr1] eqn:E;
      try discriminate.
    intros H Ha Hm.
    destruct (IH _ _ _ _ H Ha) as (Ha1 & texts & Hall & Hs).
    { intros fc' Hin. apply Hm. right. exact Hin. }
    destruct (process_call_all_static _ _ _ _ _ E Ha1) as [Ha0 _].
    destruct (process_call_static_text _ _ _ _ _ E Ha1) as (t & Hc & Ht).
    { apply Hm. left. }
    split; [exact Ha0|]. exists (t :: texts). split.
    + constructor; assumption.
    + rewrite Hs, Ht, <- app_assoc. reflexivity.
Qed.

(** X19: [static_only] is returned for no other batch than one in which
    every call is a ready call of a static tool, and its text is the texts
    of the calls joined by one blank line: the first text, then each
    further text after two line feeds. *)
Theorem static_only_needs_static_batch (response : Response)
    (text : string) (tr0 tr : list event) :
  execute_ response history user_input tr0
  = (Ok (Some (StaticOnly text)), tr) ->
  exists texts,
    Forall2 (static_call USER_TOOLS history) (tool_calls_of response) texts
    /\ text = PyString.join blank_line texts
    /\ tr = tr0
    /\ exists first rest,
        texts = first :: rest
        /\ text
           = first
             +:+ fold_right
                   (fun t acc => String "010" (String "010" (t +:+ acc)))
                   EmptyString rest.
Proof.
  rewrite execute_tool_calls_batch_.
  destruct (tool_calls_of response) as [|fc calls] eqn:E; [discriminate|].
  unfold execute_batch. monadic.
  destruct (run_calls_ initial_state (fc :: calls) tr0)
    as [[[st|r]|e] tr1] eqn:Hr; try discriminate.
  - unfold aggregate.
    destruct (bool_decide (pending_params st = ∅)) eqn:Hp;
      [|discriminate].
    apply bool_decide_eq_true in Hp. simpl.
    destruct (all_static st) eqn:Ha; simpl;
      [|destruct (bool_decide (summary_items st <> [])); discriminate].
    destruct (bool_decide (static_texts st <> [])) eqn:Hs;
      [|destruct (bool_decide (summary_items st <> [])); discriminate].
    intros [= <- <-].
    assert (Hm : forall fc', fc' ∈ fc :: calls -> has_missing_ fc' = false).
    { intros fc' Hin. destruct (has_missing_ fc') eqn:Hh; [|reflexivity].
      exfalso.
      pose proof (run_calls_pending Json RagResult http_send
                    generate_content run_rag USER_TOOLS history user_input
                    _ _ _ _ _ Hr) as Hpa.
      assert (Hl : is_Some (pending_params st !! fc_name fc')).
      { rewrite Hpa. apply pending_after_lookup. right. exists fc'. auto. }
      rewrite Hp, lookup_empty in Hl. destruct Hl. discriminate. }
    destruct (run_calls_all_static _ _ _ _ _ Hr Ha Hm)
      as (_ & texts & Hall & Hst).
    exists texts. simpl in Hst. rewrite Hst.
    split; [exact Hall|]. split; [reflexivity|]. split.
    + assert (Hrun := run_calls_static Json RagResult http_send
                        generate_content run_rag USER_TOOLS history
                        user_input _ _ Hall initial_state tr0).
      destruct Hrun as (st2 & Hrun & _). rewrite Hr in Hrun.
      injection Hrun as _ <-. reflexivity.
    + inversion Hall as [|? first ? rest _ _]; subst.
      exists first, rest. split; [reflexivity|apply join_blank_line].
  - intros [= -> _].
    apply (run_calls_return Json RagResult http_send generate_content
             run_rag USER_TOOLS history user_input) in Hr as [x Hx].
    discriminate.
Qed.

End BatchProperties.

Section BatchExamples.
Import Demo.

Lemma unknown_batch_returns_none_witness :
  let calls := [call "open_pod_bay_doors" [];
                call "sing" [("song", PyStr "Daisy")]] in
  Forall (fun fc => USER_TOOLS !! fc_name fc = None)
    (tool_calls_of (response_with calls))
  /\ execute USER_TOOLS calls [] "hi" = (Ok None, []).
Proof.
  intros calls.
  assert (H : Forall (fun fc => USER_TOOLS !! fc_name fc = None)
                (tool_calls_of (response_with calls)))
    by (repeat constructor).
  split; [exact H|].
  exact (unknown_batch_returns_none string string http_send
           generate_content run_rag USER_TOOLS [] "hi"
           (response_with calls) [] H).
Defined.

Lemma mixed_lists_executed_calls_witness :
  let calls := [call "cloth_combination" []; call "sing" []; bitcoin_call] in
  let items :=
    [ {| si_name := "cloth_combination"; si_type := "static";
         si_content := RText cloth_text |};
      {| si_name := "crypto_api"; si_type := "api";
         si_content :=
           RJson
             "body of https://api.coingecko.com/api/v3/simple/price?ids=bitcoin&vs_currencies=usd"
      |} ] in
  execute USER_TOOLS calls [] "hi" = (Ok (Some (Mixed items)), [bitcoin_request])
  /\ map (fun item => (si_name item, si_type item)) items
     = omap (executed_entry USER_TOOLS [])
         (tool_calls_of (response_with calls)).
Proof.
  intros calls items.
  assert (H : execute USER_TOOLS calls [] "hi"
              = (Ok (Some (Mixed items)), [bitcoin_request]))
    by (vm_compute; reflexivity).
  split; [exact H|].
  exact (mixed_lists_executed_calls string string http_send
           generate_content run_rag USER_TOOLS [] "hi"
           (response_with calls) items [] [bitcoin_request] H).
Defined.

Lemma static_texts_are_static_entries_witness :
  let calls := [bitcoin_call; call "cloth_combination" []] in
  let st :=
    append_summary
      {| si_name := "cloth_combination"; si_type := "static";
         si_content := RText cloth_text |}
      (append_static_text cloth_text
         (clear_all_static
            (append_summary
               {| si_name := "crypto_api"; si_type := "api";
                  si_content :=
                    RJson
                      "body of https://api.coingecko.com/api/v3/simple/price?ids=bitcoin&vs_currencies=usd"
               |} initial_state))) in
  run_calls http_send generate_content run_rag USER_TOOLS [] "hi"
    initial_state calls []
  = (Ok (Continue st), [bitcoin_request])
  /\ static_texts st = static_contents (summary_items st).
Proof.
  intros calls st.
  assert (H : run_calls http_send generate_content run_rag USER_TOOLS []
                "hi" initial_state calls []
              = (Ok (Continue st), [bitcoin_request]))
    by (vm_compute; reflexivity).
  split; [exact H|].
  exact (static_texts_are_static_entries string string http_send
           generate_content run_rag USER_TOOLS [] "hi" calls st []
           [bitcoin_request] H).
Defined.

Lemma prompt_tool_result_witness :
  let tool := entry motivation_tool in
  let args : gmap string pyval := {[ "topic" := PyStr "running" ]} in
  let prompt := "Give a short motivational message about: running" in
  handle_prompt_tool generate_content tool args []
  = (Ok ("reply to: " +:+ prompt), [EvGenerate SUMMARY_MODEL_NAME prompt])
  /\ PyString.strip ("reply to: " +:+ prompt) = "reply to: " +:+ prompt.
Proof.
  intros tool args prompt.
  assert (H : handle_prompt_tool generate_content tool args []
              = (Ok ("reply to: " +:+ prompt),
                 [EvGenerate SUMMARY_MODEL_NAME prompt]))
    by (vm_compute; reflexivity).
  split; [exact H|].
  destruct (prompt_tool_result generate_content tool args _ _ _ H)
    as (t & p & a & _ & _ & _ & _ & _ & Hs).
  exact Hs.
Defined.

Lemma prompt_failure_aborts_batch_witness :
  let earlier := [call "cloth_combination" []] in
  let fc := call "motivation_tool" [("topic", PyStr "running")] in
  let later := [bitcoin_call] in
  let prompt := "Give a short motivational message about: running" in
  execute_tool_calls http_send Samples.model_down run_rag USER_TOOLS
    (response_with (earlier ++ fc :: later)) [] "motivate me" []
  = (Raise (ExternalError "503 model overloaded"),
     [EvGenerate SUMMARY_MODEL_NAME prompt]).
Proof.
  intros earlier fc later prompt.
  apply (prompt_failure_aborts_batch string string http_send
           Samples.model_down run_rag USER_TOOLS [] "motivate me"
           (response_with (earlier ++ fc :: later)) earlier later fc
           (entry motivation_tool)
           {[ "topic" := PyStr "running" ]}
           "Give a short motivational message about: {topic}" prompt
           (ExternalError "503 model overloaded")
           (append_summary
              {| si_name := "cloth_combination"; si_type := "static";
                 si_content := RText cloth_text |}
              (append_static_text cloth_text initial_state))
           [] []).
  - reflexivity.
  - vm_compute. reflexivity.
  - split; vm_compute; reflexivity.
  - reflexivity.
  - vm_compute. reflexivity.
  - vm_compute. reflexivity.
  - reflexivity.
Defined.

Lemma static_only_needs_static_batch_witness :
  let calls := [call "cloth_combination" []; meeting_call] in
  let text := PyString.join blank_line [cloth_text; meeting_text] in
  execute USER_TOOLS calls [] "hi" = (Ok (Some (StaticOnly text)), [])
  /\ exists texts,
      Forall2 (static_call USER_TOOLS [])
        (tool_calls_of (response_with calls)) texts
      /\ text = PyString.join blank_line texts
      /\ [] = @nil event
      /\ exists first rest,
          texts = first :: rest
          /\ text
             = first
               +:+ fold_right
                     (fun t acc => String "010" (String "010" (t +:+ acc)))
                     EmptyString rest.
Proof.
  intros calls text.
  assert (H : execute USER_TOOLS calls [] "hi"
              = (Ok (Some (StaticOnly text)), []))
    by (vm_compute; reflexivity).
  split; [exact H|].
  exact (static_only_needs_static_batch string string http_send
           generate_content run_rag USER_TOOLS [] "hi"
           (response_with calls) text [] [] H).
Defined.

End BatchExamples.

(** ** More on the audio loop *)

Section AudioFlowProperties.
Import AudioLoop AudioFlow.
Local Open Scope list_scope.

Lemma play_next_playback (s : state) :
  written (play_next s) ++ audio_in_queue (play_next s)
  = written s ++ audio_in_queue s.
Proof.
  unfold play_next. destruct (audio_in_queue s) as [|c q]; simpl;
    [reflexivity|]. rewrite <- app_assoc. reflexivity.
Qed.

Lemma step_playback (s s1 : state) (l : label) :
  step s l = Some s1 ->
  is_turn_complete l = false ->
  written s1 ++ audio_in_queue s1
  = written s ++ audio_in_queue s ++ enqueued [l].
Proof.
  intros H Hl.
  destruct l as [chunk| |frame| | |[[|b d]|]| | |]; try discriminate Hl;
    simpl in H; unfold enqueued; simpl; rewrite ?app_nil_r.
  - destruct (listening s); [|discriminate].
    destruct (ai_speaking s); [|destruct (full (out_queue s))];
      injection H as <-; reflexivity.
  - destruct (listening s); [discriminate|].
    destruct (full (out_queue s)); [discriminate|].
    injection H as <-. reflexivity.
  - destruct (full (out_queue s)); [discriminate|].
    injection H as <-. reflexivity.
  - destruct (sending s); [|discriminate].
    destruct (out_queue s) eqn:E; [discriminate|].
    injection H as <-. unfold send_next. rewrite E. reflexivity.
  - destruct (sending s); [discriminate|].
    injection H as <-. unfold send_next.
    destruct (out_queue s); reflexivity.
  - injection H as <-. reflexivity.
  - injection H as <-. simpl. rewrite app_assoc. reflexivity.
  - injection H as <-. reflexivity.
  - destruct (playing s); [|discriminate].
    destruct (audio_in_queue s) eqn:E; [discriminate|].
    injection H as <-. rewrite <- E. apply play_next_playback.
  - destruct (playing s); [discriminate|].
    injection H as <-. apply play_next_playback.
Qed.

Lemma run_playback (ls : list label) :
  forall s s',
    run s ls = Some s' ->
    existsb is_turn_complete ls = false ->
    written s' ++ audio_in_queue s'
    = written s ++ audio_in_queue s ++ enqueued ls.
Proof.
  induction ls as [|l ls IH]; intros s s'; simpl run.
  - intros [= <-] _. simpl. rewrite app_nil_r. reflexivity.
  - destruct (step s l) as [s1|] eqn:E; [|discriminate].
    intros H Hn. simpl in Hn. apply orb_false_iff in Hn as [Hl Hn].
    rewrite (IH _ _ H Hn), app_assoc, (step_playback _ _ _ E Hl).
    rewrite (enqueued_cons l ls), <- !app_assoc. reflexivity.
Qed.

(** X20: as long as no turn ends, the chunks received are played in the
    order of their arrival and none is lost: the chunks handed to
    [stream.write] followed by those still queued are those there at the
    start followed by those received. *)
Theorem playback_is_fifo (ls : list label) (s s' : state) :
  run s ls = Some s' ->
  existsb is_turn_complete ls = false ->
  written s' ++ audio_in_queue s'
  = written s ++ audio_in_queue s ++ enqueued ls.
Proof. apply run_playback. Qed.

Lemma playback_is_fifo_witness :
  let ls := [Received (Some (Demo.chunk 1)); Received (Some (Demo.chunk 2));
             PlayGet; Received (Some (Demo.chunk 3)); PlayDone] in
  exists s',
    run initial ls = Some s'
    /\ existsb is_turn_complete ls = false
    /\ written s' ++ audio_in_queue s'
       = written initial ++ audio_in_queue initial ++ enqueued ls.
Proof.
  intros ls.
  assert (H : exists s', run initial ls = Some s') by (eexists; reflexivity).
  destruct H as [s' H]. exists s'.
  split; [exact H|]. split; [reflexivity|].
  exact (playback_is_fifo ls initial s' H eq_refl).
Defined.

Lemma step_flag (s s1 : state) (l : label) :
  flag_follows_write s -> step s l = Some s1 -> flag_follows_write s1.
Proof.
  unfold flag_follows_write. intros Hf H.
  destruct l as [chunk| |frame| | |[[|b d]|]| | |]; simpl in H.
  - destruct (listening s); [|discriminate].
    destruct (ai_speaking s) eqn:A; [|destruct (full (out_queue s))];
      injection H as <-; simpl; rewrite ?A; exact Hf.
  - destruct (listening s); [discriminate|].
    destruct (full (out_queue s)); [discriminate|].
    injection H as <-. exact Hf.
  - destruct (full (out_queue s)); [discriminate|].
    injection H as <-. exact Hf.
  - destruct (sending s); [|discriminate].
    destruct (out_queue s) eqn:E; [discriminate|].
    injection H as <-. unfold send_next. rewrite E. exact Hf.
  - destruct (sending s); [discriminate|].
    injection H as <-. unfold send_next.
    destruct (out_queue s); exact Hf.
  - injection H as <-. exact Hf.
  - injection H as <-. exact Hf.
  - injection H as <-. exact Hf.
  - injection H as <-. exact Hf.
  - destruct (playing s); [|discriminate].
    destruct (audio_in_queue s) eqn:E; [discriminate|].
    injection H as <-. unfold play_next. rewrite E. reflexivity.
  - destruct (playing s); [discriminate|].
    injection H as <-. unfold play_next.
    destruct (audio_in_queue s); reflexivity.
Qed.

Lemma run_flag (ls : list label) :
  forall s s', flag_follows_write s -> run s ls = Some s' ->
               flag_follows_write s'.
Proof.
  induction ls as [|l ls IH]; intros s s' Hs; simpl.
  - intros [= <-]. exact Hs.
  - destruct (step s l) as [s1|] eqn:E; [|discriminate].
    apply IH. exact (step_flag _ _ _ Hs E).
Qed.

(** X21: in every state the loop reaches, [ai_speaking] is up exactly
    while [play_audio] is inside [stream.write]; between two chunks
    written back to back no other task sees it down. *)
Theorem flag_up_exactly_while_writing (ls : list label) (s : state) :
  run initial ls = Some s ->
  ai_speaking s = true <-> exists chunk, playing s = Writing chunk.
Proof.
  intros H.
  assert (H0 : flag_follows_write initial) by reflexivity.
  pose proof (run_flag ls _ _ H0 H) as Hf.
  unfold flag_follows_write in Hf. rewrite Hf.
  destruct (playing s) as [|c]; split; eauto; try discriminate.
  intros [chunk Hc]. discriminate.
Qed.

Lemma flag_up_exactly_while_writing_witness :
  let ls := [Received (Some (Demo.chunk 1)); Received (Some (Demo.chunk 2));
             PlayGet; PlayDone] in
  exists s,
    run initial ls = Some s
    /\ (ai_speaking s = true <-> exists chunk, playing s = Writing chunk).
Proof.
  intros ls.
  assert (H : exists s, run initial ls = Some s) by (eexists; reflexivity).
  destruct H as [s H]. exists s. split; [exact H|].
  exact (flag_up_exactly_while_writing ls s H).
Defined.

Lemma step_outbound (s s1 : state) (l : label) :
  step s l = Some s1 ->
  taken_by s l ++ out_queue s1 = out_queue s ++ put_by s l.
Proof.
  intros H.
  destruct l as [chunk| |frame| | |[[|b d]|]| | |]; simpl in H; simpl.
  - destruct (listening s); [|discriminate].
    destruct (ai_speaking s); [|destruct (full (out_queue s))];
      injection H as <-; simpl; rewrite ?app_nil_r; reflexivity.
  - destruct (listening s); [discriminate|].
    destruct (full (out_queue s)); [discriminate|].
    injection H as <-. reflexivity.
  - destruct (full (out_queue s)); [discriminate|].
    injection H as <-. reflexivity.
  - destruct (sending s); [|discriminate].
    destruct (out_queue s) eqn:E; [discriminate|].
    injection H as <-. unfold send_next. rewrite E. simpl.
    rewrite app_nil_r. reflexivity.
  - destruct (sending s); [discriminate|].
    injection H as <-. unfold send_next.
    destruct (out_queue s); simpl; rewrite ?app_nil_r; reflexivity.
  - injection H as <-. simpl. rewrite app_nil_r. reflexivity.
  - injection H as <-. simpl. rewrite app_nil_r. reflexivity.
  - injection H as <-. simpl. rewrite app_nil_r. reflexivity.
  - injection H as <-. simpl. rewrite app_nil_r. reflexivity.
  - destruct (playing s); [|discriminate].
    destruct (audio_in_queue s) eqn:E; [discriminate|].
    injection H as <-. unfold play_next. rewrite E. simpl.
    rewrite app_nil_r. reflexivity.
  - destruct (playing s); [discriminate|].
    injection H as <-. unfold play_next.
    destruct (audio_in_queue s); simpl; rewrite app_nil_r; reflexivity.
Qed.

(** X22: [send_realtime] takes the messages from [out_queue] in the order
    they were put, none lost and none twice: the messages taken during a
    run, followed by those still queued, are those queued at the start
    followed by those put during the run. *)
Theorem outbound_is_fifo (ls : list label) :
  forall s s',
    run s ls = Some s' ->
    collect taken_by s ls ++ out_queue s'
    = out_queue s ++ collect put_by s ls.
Proof.
  induction ls as [|l ls IH]; intros s s'; simpl.
  - intros [= <-]. rewrite app_nil_r. reflexivity.
  - destruct (step s l) as [s1|] eqn:E; [|discriminate].
    intros H. rewrite <- app_assoc, (IH _ _ H), !app_assoc.
    rewrite (step_outbound _ _ _ E). reflexivity.
Qed.

Lemma outbound_is_fifo_witness :
  exists s',
    run initial Demo.slow_network = Some s'
    /\ collect taken_by initial Demo.slow_network ++ out_queue s'
       = out_queue initial ++ collect put_by initial Demo.slow_network.
Proof.
  assert (H : exists s', run initial Demo.slow_network = Some s')
    by (eexists; vm_compute; reflexivity).
  destruct H as [s' H]. exists s'. split; [exact H|].
  exact (outbound_is_fifo Demo.slow_network initial s' H).
Defined.

End AudioFlowProperties.

(** ** The chat loop *)

Section RetrievalFacts.

Variables Json RagResult : Type.
Variable http_send :
  list event -> string -> string -> option (gmap string pyval) ->
  http_reply Json.
Variable generate_content :
  list event -> string -> string -> outcome (option string).
Variable run_rag : list event -> string -> RagResult.
Variable USER_TOOLS : gmap string tool_def.

Variables (history : list Content) (user_input : string).

Local Abbreviation dispatch_ :=
  (dispatch http_send generate_content run_rag user_input).
Local Abbreviation process_ :=
  (process_call http_send generate_content run_rag USER_TOOLS history
     user_input).
Local Abbreviation run_calls_ :=
  (run_calls http_send generate_content run_rag USER_TOOLS history
     user_input).
Local Abbreviation execute_ :=
  (execute_tool_calls http_send generate_content run_rag USER_TOOLS).

Local Open Scope list_scope.

Ltac unfold_monad := unfold bind, ret, lift, external in *.

Ltac nothing_new :=
  intros [= _ <-]; exists []; rewrite app_nil_r; split; reflexivity.

Lemma ran_retrieval_app (a b : list event) :
  ran_retrieval (a ++ b) = (ran_retrieval a || ran_retrieval b)%bool.
Proof. apply existsb_app. Qed.

(** What a dispatch that lets the loop go on has requested is no
    retrieval. *)
Lemma dispatch_quiet (tool_name : string) (tool : tool_def)
    (final_args : gmap string pyval) (st st1 : loop_state Json)
    (tr tr1 : list event) :
  dispatch_ tool_name tool final_args st tr = (Ok (Continue st1), tr1) ->
  exists new, tr1 = tr ++ new /\ ran_retrieval new = false.
Proof.
  unfold dispatch.
  destruct (String.eqb (td_type tool) "api").
  { unfold call_custom_api, subscript. unfold_monad.
    destruct (td_api_url tool) as [template|]; [|discriminate].
    destruct (PyFormat.format template final_args) as [url|e];
      [|discriminate].
    destruct (String.eqb _ "GET"); [|destruct (String.eqb _ "POST")];
      intros [= _ <-]; eexists; split; reflexivity. }
  destruct (String.eqb (td_type tool) "prompt").
  { unfold handle_prompt_tool, subscript. unfold_monad.
    destruct (td_prompt_template tool) as [template|]; [|discriminate].
    destruct (PyFormat.format template final_args) as [prompt|e];
      [|discriminate].
    destruct (generate_content tr SUMMARY_MODEL_NAME prompt);
      [|discriminate].
    intros [= _ <-]; eexists; split; reflexivity. }
  destruct (String.eqb (td_type tool) "rag").
  { unfold_monad. discriminate. }
  destruct (String.eqb (td_type tool) "static").
  { unfold_monad. destruct (static_text tool final_args); [|discriminate].
    nothing_new. }
  unfold_monad. nothing_new.
Qed.

Lemma process_call_quiet (st st1 : loop_state Json) (fc : function_call)
    (tr tr1 : list event) :
  process_ st fc tr = (Ok (Continue st1), tr1) ->
  exists new, tr1 = tr ++ new /\ ran_retrieval new = false.
Proof.
  destruct (USER_TOOLS !! fc_name fc) as [tool|] eqn:Ht.
  - rewrite (process_call_known Json RagResult http_send generate_content
               run_rag USER_TOOLS history user_input _ _ _ _ Ht).
    destruct (fill_required _ _ _ _ _) as [[fa [|p m]]|e];
      [apply dispatch_quiet|nothing_new|discriminate].
  - rewrite (process_call_unknown Json RagResult http_send generate_content
               run_rag USER_TOOLS history user_input _ _ _ Ht).
    nothing_new.
Qed.

Lemma process_call_retrieval (st : loop_state Json) (fc : function_call)
    (r : tool_results Json RagResult) (tr tr1 : list event) :
  process_ st fc tr = (Ok (Return r), tr1) ->
  r = RagMode (run_rag tr user_input) /\ tr1 = tr ++ [EvRag user_input].
Proof.
  destruct (USER_TOOLS !! fc_name fc) as [tool|] eqn:Ht.
  - rewrite (process_call_known Json RagResult http_send generate_content
               run_rag USER_TOOLS history user_input _ _ _ _ Ht).
    destruct (fill_required _ _ _ _ _) as [[fa [|p m]]|e];
      try discriminate.
    intros H. apply dispatch_return in H as (_ & -> & ->). split; reflexivity.
  - rewrite (process_call_unknown Json RagResult http_send generate_content
               run_rag USER_TOOLS history user_input _ _ _ Ht).
    discriminate.
Qed.

Lemma run_calls_quiet (calls : list function_call) :
  forall (st st1 : loop_state Json) (tr tr1 : list event),
    run_calls_ st calls tr = (Ok (Continue st1), tr1) ->
    exists new, tr1 = tr ++ new /\ ran_retrieval new = false.
Proof.
  induction calls as [|fc calls IH]; intros st st1 tr tr1.
  - simpl. unfold_monad. nothing_new.
  - rewrite (run_calls_cons Json RagResult http_send generate_content
               run_rag USER_TOOLS history user_input).
    destruct (process_ st fc tr) as [[[st'|r]|e] tr'] eqn:E;
      try discriminate.
    intros H. apply process_call_quiet in E as (a & -> & Ha).
    apply IH in H as (b & -> & Hb).
    exists (a ++ b). rewrite app_assoc, ran_retrieval_app, Ha, Hb.
    split; reflexivity.
Qed.

Lemma run_calls_retrieval (calls : list function_call) :
  forall (st : loop_state Json) (r : tool_results Json RagResult)
         (tr tr1 : list event),
    run_calls_ st calls tr = (Ok (Return r), tr1) ->
    exists new,
      tr1 = tr ++ new ++ [EvRag user_input]
      /\ ran_retrieval new = false
      /\ r = RagMode (run_rag (tr ++ new) user_input).
Proof.
  induction calls as [|fc calls IH]; intros st r tr tr1.
  - discriminate.
  - rewrite (run_calls_cons Json RagResult http_send generate_content
               run_rag USER_TOOLS history user_input).
    destruct (process_ st fc tr) as [[[st'|r']|e] tr'] eqn:E;
      try discriminate.
    + intros H. apply process_call_quiet in E as (a & -> & Ha).
      apply IH in H as (b & -> & Hb & ->).
      exists (a ++ b). rewrite !app_assoc, ran_retrieval_app, Ha, Hb.
      repeat split.
    + intros [= <- <-]. apply process_call_retrieval in E as [-> ->].
      exists []. rewrite app_nil_r. repeat split.
Qed.

(** A batch that did not end in [rag_mode] ran no retrieval. *)
Lemma execute_quiet (response : Response)
    (r : option (tool_results Json RagResult)) (tr tr1 : list event) :
  execute_ response history user_input tr = (Ok r, tr1) ->
  (forall x, r <> Some (RagMode x)) ->
  exists new, tr1 = tr ++ new /\ ran_retrieval new = false.
Proof.
  rewrite (execute_tool_calls_batch Json RagResult http_send
             generate_content run_rag USER_TOOLS history user_input).
  destruct (tool_calls_of response) as [|fc calls].
  { unfold_monad. intros H _. revert H. nothing_new. }
  unfold execute_batch. unfold_monad.
  destruct (run_calls_ initial_state (fc :: calls) tr)
    as [[[st|r']|e] tr'] eqn:E.
  - intros [= <- <-] _. exact (run_calls_quiet _ _ _ _ _ E).
  - intros [= <- <-] H. apply run_calls_retrieval in E as (new & _ & _ & ->).
    exfalso. exact (H _ eq_refl).
  - discriminate.
Qed.

(** A batch that ended in [rag_mode] ran retrieval last, once, with the
    user input. *)
Lemma execute_retrieval (response : Response) (x : RagResult)
    (tr tr1 : list event) :
  execute_ response history user_input tr = (Ok (Some (RagMode x)), tr1) ->
  exists new,
    tr1 = tr ++ new ++ [EvRag user_input]
    /\ ran_retrieval new = false
    /\ x = run_rag (tr ++ new) user_input.
Proof.
  rewrite (execute_tool_calls_batch Json RagResult http_send
             generate_content run_rag USER_TOOLS history user_input).
  destruct (tool_calls_of response) as [|fc calls].
  { discriminate. }
  unfold execute_batch. unfold_monad.
  destruct (run_calls_ initial_state (fc :: calls) tr)
    as [[[st|r']|e] tr'] eqn:E.
  - unfold aggregate.
    destruct (negb _); [discriminate|].
    destruct (_ && _)%bool; [discriminate|].
    destruct (bool_decide _); discriminate.
  - intros [= -> <-]. apply run_calls_retrieval in E as (new & -> & Hq & E).
    exists new. repeat split; [exact Hq|congruence].
  - discriminate.
Qed.

End RetrievalFacts.

Section ChatProperties.

Variables Json RagResult : Type.
Variable http_send :
  list event -> string -> string -> option (gmap string pyval) ->
  http_reply Json.
Variable generate_content :
  list event -> string -> string -> outcome (option string).
Variable run_rag : list event -> string -> RagResult.
Variable USER_TOOLS : gmap string tool_def.
Variable main_model :
  list event -> list Content -> outcome (Response * option string).
Variable summarize : list event -> string -> outcome (option string).
Variable dumps : list (summary_item Json) -> string.
Variable rag_str : RagResult -> string.

Local Abbreviation chatbot_turn_ :=
  (chatbot_turn http_send generate_content run_rag USER_TOOLS main_model
     summarize dumps rag_str).
Local Abbreviation after_tools_ := (after_tools summarize dumps rag_str).
Local Abbreviation execute_ :=
  (execute_tool_calls http_send generate_content run_rag USER_TOOLS).

Import Trim.
Local Open Scope list_scope.

Ltac run_monad := unfold bind, ret, lift, external, consult in *.

Lemma with_reply_extends (h : list Content) (response : Response)
    (response_text : option string) :
  exists reply,
    with_reply h response response_text = h ++ reply
    /\ (length reply <= 1)%nat.
Proof.
  assert (Ht : exists reply,
             match response_text with
             | Some t =>
                 if PyString.nonempty t
                 then h ++ [text_turn "model" t]
                 else h
             | None => h
             end = h ++ reply /\ (length reply <= 1)%nat).
  { destruct response_text as [t|]; [destruct (PyString.nonempty t)|];
      [exists [text_turn "model" t]|exists []|exists []];
      rewrite ?app_nil_r; split; simpl; auto. }
  unfold with_reply. destruct (candidates response) as [|first ?];
    [exact Ht|].
  destruct (content first) as [c|]; [|exact Ht].
  exists [c]. split; simpl; auto.
Qed.

Lemma answer_with_trimmed (h : list Content) (t : string)
    (h' : list Content) (tr tr1 : list event) :
  answer_with h t tr = (Ok (Next h'), tr1) ->
  tr1 = tr /\ (user_turns h' <= 5)%nat.
Proof.
  unfold answer_with, trim_and_continue, ret.
  destruct (PyString.nonempty t); intros [= <- <-];
    (split; [reflexivity|exact (trim_at_most _ 5 eq_refl)]).
Qed.

Lemma after_tools_trimmed (h : list Content)
    (r : option (tool_results Json RagResult)) (h' : list Content)
    (tr tr1 : list event) :
  after_tools_ h r tr = (Ok (Next h'), tr1) ->
  (forall x, r <> Some (RagMode x)) ->
  (user_turns h' <= 5)%nat
  /\ exists new, tr1 = tr ++ new /\ ran_retrieval new = false.
Proof.
  assert (Htrim : forall a,
             trim_and_continue a tr = (Ok (Next h'), tr1) ->
             (user_turns h' <= 5)%nat
             /\ exists new, tr1 = tr ++ new /\ ran_retrieval new = false).
  { unfold trim_and_continue, ret. intros a [= <- <-].
    split; [exact (trim_at_most _ 5 eq_refl)|].
    exists []. rewrite app_nil_r. split; reflexivity. }
  unfold after_tools.
  destruct r as [[payload|t|items|result]|]; intros H Hr.
  - exact (Htrim _ H).
  - apply answer_with_trimmed in H as [-> Hb]. split; [exact Hb|].
    exists []. rewrite app_nil_r. split; reflexivity.
  - destruct items as [|item items]; [exact (Htrim _ H)|].
    run_monad.
    destruct (summarize tr _) as [final_text|e]; [|discriminate].
    apply answer_with_trimmed in H as [-> Hb]. split; [exact Hb|].
    eexists. split; reflexivity.
  - exfalso. exact (Hr _ eq_refl).
  - exact (Htrim _ H).
Qed.

(** An iteration that goes on to the next one: the reply of the main
    model was appended after the user turn, the tool calls were executed
    with that history, and the rest of the body gave the new history. *)
Lemma chatbot_turn_next (history : list Content) (line : string)
    (h' : list Content) (tr tr1 : list event) :
  chatbot_turn_ history line tr = (Ok (Next h'), tr1) ->
  exists reply response r tr_e,
    (length reply <= 1)%nat
    /\ execute_ response
         ((history ++ [text_turn "user" (PyString.strip line)]) ++ reply)
         (PyString.strip line) tr = (Ok r, tr_e)
    /\ after_tools_
         ((history ++ [text_turn "user" (PyString.strip line)]) ++ reply)
         r tr_e = (Ok (Next h'), tr1).
Proof.
  unfold chatbot_turn.
  destruct (_ || _)%bool; [discriminate|]. run_monad.
  destruct (main_model tr _) as [[response response_text]|e];
    [|discriminate].
  simpl fst. simpl snd.
  destruct (with_reply_extends
              (history ++ [text_turn "user" (PyString.strip line)])
              response response_text) as (reply & -> & Hl).
  destruct (execute_ response _ _ tr) as [[r|e] tr_e] eqn:E;
    [|discriminate].
  intros H. exists reply, response, r, tr_e. auto.
Qed.

Lemma user_turns_latest (history reply more : list Content) (t : string) :
  (user_turns history
   < user_turns (((history ++ [text_turn "user" t]) ++ reply) ++ more))%nat.
Proof.
  rewrite !user_turns_app.
  assert (E : user_turns [text_turn "user" t] = 1%nat) by reflexivity.
  rewrite E. lia.
Qed.

(** X23: an iteration of the chat loop in which no retrieval was run
    leaves a history of at most five user turns for the next one. *)
Theorem turn_without_retrieval_is_trimmed (history : list Content)
    (line : string) (h' : list Content) (tr new : list event) :
  chatbot_turn_ history line tr = (Ok (Next h'), tr ++ new) ->
  ran_retrieval new = false ->
  (user_turns h' <= 5)%nat.
Proof.
  intros H Hq.
  apply chatbot_turn_next in H as (reply & response & r & tr_e & _ & He & Ha).
  destruct r as [[payload|t|items|result]|];
    try (apply after_tools_trimmed in Ha as [Hb _];
         [exact Hb|intros x; discriminate]).
  apply execute_retrieval in He as (earlier & -> & _ & _).
  unfold after_tools, ret in Ha. injection Ha as _ Ht.
  apply app_inv_head in Ht. subst new.
  rewrite ran_retrieval_app in Hq. simpl in Hq.
  rewrite orb_true_r in Hq. discriminate.
Qed.

(** X24: an iteration in which retrieval was run is not trimmed: the
    history for the next iteration is the whole history with the user
    turn, the reply of the main model and the retrieval result, as text,
    appended; so it has more user turns than before, whatever their
    number was. *)
Theorem retrieval_turn_is_not_trimmed (history : list Content)
    (line : string) (h' : list Content) (tr new : list event) :
  chatbot_turn_ history line tr = (Ok (Next h'), tr ++ new) ->
  ran_retrieval new = true ->
  exists reply earlier,
    new = earlier ++ [EvRag (PyString.strip line)]
    /\ h' = history
            ++ text_turn "user" (PyString.strip line)
               :: reply
               ++ [text_turn "model"
                     (rag_str (run_rag (tr ++ earlier)
                                 (PyString.strip line)))]
    /\ (length reply <= 1)%nat
    /\ (user_turns history < user_turns h')%nat.
Proof.
  intros H Hq.
  apply chatbot_turn_next in H as (reply & response & r & tr_e & Hl & He & Ha).
  assert (Hr : (exists x, r = Some (RagMode x))
               \/ forall x, r <> Some (RagMode x)).
  { destruct r as [[payload|t|items|result]|];
      [right|right|right|left; eauto|right]; intros x; discriminate. }
  destruct Hr as [[x ->]|Hr].
  - apply execute_retrieval in He as (earlier & -> & _ & ->).
    unfold after_tools, ret in Ha. injection Ha as <- Ht.
    apply app_inv_head in Ht. subst new.
    exists reply, earlier. split; [reflexivity|].
    split; [rewrite <- !app_assoc; reflexivity|].
    split; [exact Hl|apply user_turns_latest].
  - destruct (execute_quiet _ _ _ _ _ _ _ _ _ _ _ _ He Hr) as (a & -> & Qa).
    apply after_tools_trimmed in Ha as [_ (b & Ht & Qb)]; [|exact Hr].
    rewrite <- app_assoc in Ht. apply app_inv_head in Ht. subst new.
    rewrite ran_retrieval_app, Qa, Qb in Hq. discriminate.
Qed.

Lemma user_turns_length (l : list Content) :
  (user_turns l <= length l)%nat.
Proof. unfold user_turns. apply List.filter_length_le. Qed.

(** What the rest of the body makes of the history: at most a model turn
    is appended, and the history is trimmed or not. *)
Lemma after_tools_shape (h : list Content)
    (r : option (tool_results Json RagResult)) (h' : list Content)
    (tr tr1 : list event) :
  after_tools_ h r tr = (Ok (Next h'), tr1) ->
  exists more,
    user_turns more = 0%nat
    /\ (h' = h ++ more \/ h' = trim_history_blocks (h ++ more) 5).
Proof.
  assert (Htrim : forall tr0,
             trim_and_continue h tr0 = (Ok (Next h'), tr1) ->
             exists more,
               user_turns more = 0%nat
               /\ (h' = h ++ more
                   \/ h' = trim_history_blocks (h ++ more) 5)).
  { unfold trim_and_continue, ret. intros tr0 [= <- _].
    exists []. rewrite app_nil_r. split; [reflexivity|right; reflexivity]. }
  assert (Hans : forall t tr0,
             answer_with h t tr0 = (Ok (Next h'), tr1) ->
             exists more,
               user_turns more = 0%nat
               /\ (h' = h ++ more
                   \/ h' = trim_history_blocks (h ++ more) 5)).
  { unfold answer_with. intros t tr0.
    destruct (PyString.nonempty t); [|apply Htrim].
    unfold trim_and_continue, ret. intros [= <- _].
    exists [text_turn "model" t]. split; [reflexivity|right; reflexivity]. }
  unfold after_tools.
  destruct r as [[payload|t|items|result]|]; intros H.
  - exact (Htrim _ H).
  - exact (Hans _ _ H).
  - destruct items as [|item items]; [exact (Htrim _ H)|].
    run_monad.
    destruct (summarize tr _) as [final_text|e]; [|discriminate].
    exact (Hans _ _ H).
  - unfold ret in H. injection H as <- _.
    exists [text_turn "model" (rag_str result)].
    split; [reflexivity|left; reflexivity].
  - exact (Htrim _ H).
Qed.

(** X25: whatever an iteration of the chat loop appends and trims, the
    user turn it has just added is in the history it leaves for the next
    iteration. *)
Theorem latest_user_turn_is_kept (history : list Content) (line : string)
    (h' : list Content) (tr tr1 : list event) :
  chatbot_turn_ history line tr = (Ok (Next h'), tr1) ->
  text_turn "user" (PyString.strip line) ∈ h'.
Proof.
  intros H.
  apply chatbot_turn_next in H as (reply & response & r & tr_e & Hl & _ & Ha).
  apply after_tools_shape in Ha as (more & Hm & Hh).
  assert (E : ((history ++ [text_turn "user" (PyString.strip line)])
               ++ reply) ++ more
              = history
                ++ text_turn "user" (PyString.strip line)
                   :: (reply ++ more)).
  { rewrite <- !app_assoc. reflexivity. }
  rewrite E in Hh. destruct Hh as [->| ->].
  - apply elem_of_app. right. left.
  - apply trim_keeps_recent; [reflexivity|].
    rewrite user_turns_app, Hm.
    pose proof (user_turns_length reply) as Hr.
    change (Z.to_nat 5) with 5%nat. lia.
Qed.

End ChatProperties.

Section ChatExamples.
Import Samples.
Local Open Scope list_scope.

Lemma turn_without_retrieval_is_trimmed_witness :
  let h' := drop 4 six_questions
            ++ [ text_turn "user" "what to wear"; call_turn wear_call;
                 text_turn "model" Demo.cloth_text ] in
  turn [wear_call] six_questions "  what to wear " = (Ok (Next h'), [] ++ [])
  /\ ran_retrieval [] = false
  /\ (Trim.user_turns h' <= 5)%nat.
Proof.
  intros h'.
  assert (H : turn [wear_call] six_questions "  what to wear "
              = (Ok (Next h'), [] ++ [])) by (vm_compute; reflexivity).
  split; [exact H|]. split; [reflexivity|].
  exact (turn_without_retrieval_is_trimmed string string Demo.http_send
           Demo.generate_content Demo.run_rag Demo.USER_TOOLS
           (model_calling [wear_call]) summary_model names_of
           (fun passages => passages) six_questions "  what to wear "
           h' [] [] H eq_refl).
Defined.

Lemma retrieval_turn_is_not_trimmed_witness :
  let h' := six_questions
            ++ [ text_turn "user" "Leave policy?"; call_turn rag_call;
                 text_turn "model" "passages for: Leave policy?" ] in
  let new := [EvRag "Leave policy?"] in
  turn [rag_call] six_questions " Leave policy? " = (Ok (Next h'), [] ++ new)
  /\ ran_retrieval new = true
  /\ exists reply earlier,
      new = earlier ++ [EvRag (PyString.strip " Leave policy? ")]
      /\ h' = six_questions
              ++ text_turn "user" (PyString.strip " Leave policy? ")
                 :: reply
                 ++ [text_turn "model"
                       (Demo.run_rag ([] ++ earlier)
                          (PyString.strip " Leave policy? "))]
      /\ (length reply <= 1)%nat
      /\ (Trim.user_turns six_questions < Trim.user_turns h')%nat.
Proof.
  intros h' new.
  assert (H : turn [rag_call] six_questions " Leave policy? "
              = (Ok (Next h'), [] ++ new)) by (vm_compute; reflexivity).
  split; [exact H|]. split; [reflexivity|].
  exact (retrieval_turn_is_not_trimmed string string Demo.http_send
           Demo.generate_content Demo.run_rag Demo.USER_TOOLS
           (model_calling [rag_call]) summary_model names_of
           (fun passages => passages) six_questions " Leave policy? "
           h' [] new H eq_refl).
Defined.

Lemma latest_user_turn_is_kept_witness :
  let h' := drop 4 six_questions
            ++ [ text_turn "user" "btc"; call_turn Demo.bitcoin_call;
                 text_turn "model"
                   "in short: tool_results = crypto_api" ] in
  let calls := [ Demo.bitcoin_request;
                 EvGenerate SUMMARY_MODEL_NAME
                   "tool_results = crypto_api" ] in
  turn [Demo.bitcoin_call] six_questions "btc " = (Ok (Next h'), calls)
  /\ text_turn "user" (PyString.strip "btc ") ∈ h'.
Proof.
  intros h' calls.
  assert (H : turn [Demo.bitcoin_call] six_questions "btc "
              = (Ok (Next h'), calls)) by (vm_compute; reflexivity).
  split; [exact H|].
  exact (latest_user_turn_is_kept string string Demo.http_send
           Demo.generate_content Demo.run_rag Demo.USER_TOOLS
           (model_calling [Demo.bitcoin_call]) summary_model names_of
           (fun passages => passages) six_questions "btc " h' [] calls H).
Defined.

End ChatExamples.
